(** * remove_embeddings.py: a shallow embedding and its properties

    The script reads [insurance_knowledge.json], deletes the key
    ["embedding"] from every element of the parsed document and writes
    the document back to the same path:

<<
    with open('insurance_knowledge.json', 'r', encoding='utf-8') as f:
        data = json.load(f)
    for qa in data:
        if 'embedding' in qa:
            del qa['embedding']
    with open('insurance_knowledge.json', 'w', encoding='utf-8') as f:
        json.dump(data, f, ensure_ascii=False, indent=2)
>>

    Python values are embedded as an inductive type, exceptions as an
    error result, the file behind the path as explicit state. A str is a
    [string]; the loop only compares strs with the ASCII str
    ["embedding"], for equality and as a substring.

    The script itself is stated for any [json.load] and [json.dump]
    (section [Script]). The two functions are code of Python's library,
    not of the script: [py_json_load] and [py_json_dump] model them after
    the documentation of the module [json], and the loader and the round
    trip through the file are stated with them. *)

From Stdlib Require Import List String Ascii ZArith Bool Lia.
From Stdlib Require Import Floats.SpecFloat.
From Stdlib Require Import DecimalString DecimalZ DecimalPos DecimalN.
From Stdlib Require Import DecimalFacts.
Import ListNotations.
Local Open Scope string_scope.

(** ** Python values produced by [json.load] *)

(** A [dict] keeps its entries in insertion order and holds a key at most
    once; it is an association list, with uniqueness of keys as the
    invariant [unique_keys] below. *)
#[warnings="-register-all"]
Inductive json : Type :=
| JNull                                   (* None  *)
| JBool (b : bool)                        (* True, False *)
| JInt (z : Z)                            (* int   *)
| JFloat (f : spec_float)                 (* float *)
| JStr (s : string)                       (* str   *)
| JList (l : list json)                   (* list  *)
| JDict (d : list (string * json)).       (* dict  *)

Definition dict : Type := list (string * json).

(** ** Exceptions *)

(** The three ways the loop can raise [TypeError]. *)
Inductive type_error : Type :=
| NotIterable          (* 'int' object is not iterable: [for qa in data] *)
| NotContainer         (* argument of type 'int' is not iterable: [in] *)
| NoItemDeletion.      (* object doesn't support item deletion / list
                          indices must be integers: [del qa[...]] *)

Inductive exn : Type :=
| FileNotFoundError
| PermissionError
| ValueError           (* JSONDecodeError and UnicodeDecodeError *)
| RecursionError       (* nesting beyond the interpreter's limit *)
| TypeError (k : type_error)
| KeyError
| EncodeError.         (* raised by [json.dump] or by the file's encoder *)

Inductive result (A : Type) : Type :=
| Ok (a : A)
| Raise (e : exn).
Arguments Ok {A} a.
Arguments Raise {A} e.

Definition bind {A B : Type} (r : result A) (k : A -> result B) : result B :=
  match r with
  | Ok a => k a
  | Raise e => Raise e
  end.

Declare Scope py_scope.
Delimit Scope py_scope with py.
Notation "x <- c ;; k" := (bind c (fun x => k))
  (at level 100, c at next level, right associativity) : py_scope.
Local Open Scope py_scope.

(** [for x in l: ...] with a body that may raise: the elements are visited
    in order and the first exception ends the loop. *)
Fixpoint for_each {A B : Type} (body : A -> result B) (l : list A)
  : result (list B) :=
  match l with
  | [] => Ok []
  | x :: rest =>
      y <- body x ;;
      ys <- for_each body rest ;;
      Ok (y :: ys)
  end.

(** ** The operations of the loop body *)

Definition embedding : string := "embedding".

(** [k in d] for a dict. *)
Fixpoint dict_contains (k : string) (d : dict) : bool :=
  match d with
  | [] => false
  | (k', _) :: rest => String.eqb k k' || dict_contains k rest
  end.

(** [d[k]] as a lookup. *)
Fixpoint dict_get (k : string) (d : dict) : option json :=
  match d with
  | [] => None
  | (k', v) :: rest => if String.eqb k k' then Some v else dict_get k rest
  end.

(** [del d[k]] for a dict that holds [k]: the entry of [k] goes, the
    others stay where they are. *)
Fixpoint dict_delitem (k : string) (d : dict) : dict :=
  match d with
  | [] => []
  | (k', v) :: rest =>
      if String.eqb k k' then rest else (k', v) :: dict_delitem k rest
  end.

Definition keys (d : dict) : list string := map fst d.

(** The invariant of a Python dict: no key occurs twice. *)
Fixpoint unique_keys (d : dict) : bool :=
  match d with
  | [] => true
  | (k, _) :: rest => negb (dict_contains k rest) && unique_keys rest
  end.

(** [needle in hay] for two strs: the substring test. *)
Fixpoint str_contains (needle hay : string) : bool :=
  String.prefix needle hay ||
  match hay with
  | EmptyString => false
  | String _ rest => str_contains needle rest
  end.

(** [x == s] for a str [s]: only an equal str compares equal. *)
Definition eq_str (s : string) (x : json) : bool :=
  match x with
  | JStr t => String.eqb s t
  | _ => false
  end.

(** [k in qa]. *)
Definition py_contains (k : string) (qa : json) : result bool :=
  match qa with
  | JDict d => Ok (dict_contains k d)
  | JStr s => Ok (str_contains k s)
  | JList l => Ok (existsb (eq_str k) l)
  | JNull | JBool _ | JInt _ | JFloat _ => Raise (TypeError NotContainer)
  end.

(** [del qa[k]] with a str [k]. *)
Definition py_delitem (k : string) (qa : json) : result json :=
  match qa with
  | JDict d =>
      if dict_contains k d then Ok (JDict (dict_delitem k d))
      else Raise KeyError
  | _ => Raise (TypeError NoItemDeletion)
  end.

(** The body of the loop, on one element:
<<
    if 'embedding' in qa:
        del qa['embedding']
>>
    The element is returned as the body leaves it. *)
Definition loop_body (qa : json) : result json :=
  present <- py_contains embedding qa ;;
  if (present : bool) then py_delitem embedding qa else Ok qa.

(** What [for qa in data] iterates over. A dict yields its keys, a str its
    characters (one-character strs). *)
Definition py_iter (data : json) : result (list json) :=
  match data with
  | JList l => Ok l
  | JDict d => Ok (map JStr (keys d))
  | JStr s => Ok (map (fun c => JStr (String c EmptyString))
                      (list_ascii_of_string s))
  | JNull | JBool _ | JInt _ | JFloat _ => Raise (TypeError NotIterable)
  end.

(** The stripping stage: the whole [for] loop. The elements of a list are
    the objects the body mutates, so the list holds them as the body left
    them; the keys of a dict and the characters of a str are immutable, so
    such a document is what it was when the loop ends without raising. *)
Definition strip (data : json) : result json :=
  items <- py_iter data ;;
  items' <- for_each loop_body items ;;
  match data with
  | JList _ => Ok (JList items')
  | _ => Ok data
  end.

(** The stage on one record, when nothing can raise. *)
Definition strip_record (r : dict) : dict :=
  if dict_contains embedding r then dict_delitem embedding r else r.

(** A document of records. *)
Definition document (rs : list dict) : json := JList (map JDict rs).

(** ** Shapes of documents and of their elements *)

(** The entries of a dict whose key is not [k]. *)
Definition other_key (k : string) (kv : string * json) : bool :=
  negb (String.eqb k (fst kv)).

Definition not_embedding : string * json -> bool := other_key embedding.

(** A change of the values of a dict that leaves its keys alone. *)
Definition map_values (g : json -> json) (d : dict) : dict :=
  map (fun kv => (fst kv, g (snd kv))) d.

Definition is_dict (x : json) : bool :=
  match x with
  | JDict _ => true
  | _ => false
  end.

(** The elements on which the loop body raises: the membership test raises
    on [None], a bool and a number; the deletion raises on a str that has
    ["embedding"] as a substring and on a list that has the str
    ["embedding"] as a member. *)
Definition body_raises (qa : json) : bool :=
  match qa with
  | JNull | JBool _ | JInt _ | JFloat _ => true
  | JStr s => str_contains embedding s
  | JList l => existsb (eq_str embedding) l
  | JDict _ => false
  end.

(** The strs and lists for which the membership test is false. *)
Definition plain_sequence (qa : json) : bool :=
  match qa with
  | JStr s => negb (str_contains embedding s)
  | JList l => negb (existsb (eq_str embedding) l)
  | _ => false
  end.

(** Every dict among the elements of a list document is a Python dict. *)
Definition element_ok (qa : json) : bool :=
  match qa with
  | JDict d => unique_keys d
  | _ => true
  end.

Definition records_ok (data : json) : bool :=
  match data with
  | JList l => forallb element_ok l
  | _ => true
  end.

(** ** The file behind the path *)

(** What [insurance_knowledge.json] is when the script starts: nothing, or
    a regular file with its permissions and its bytes. *)
Inductive file : Type :=
| Absent
| Regular (readable writable : bool) (content : string).

(** The calls on the path that succeeded, oldest first. *)
Inductive event : Type :=
| OpenRead
| OpenWrite
| Write (text : string).

Record world : Type := World { path : file; log : list event }.

(** A command runs on a world and leaves a world, also when it raises:
    no exception undoes what was done to the file before it. *)
Definition io (A : Type) : Type := world -> world * result A.

Definition ret {A : Type} (a : A) : io A := fun w => (w, Ok a).

Definition raise {A : Type} (e : exn) : io A := fun w => (w, Raise e).

Definition lift {A : Type} (r : result A) : io A := fun w => (w, r).

Definition io_bind {A B : Type} (c : io A) (k : A -> io B) : io B :=
  fun w =>
    match c w with
    | (w', Ok a) => k a w'
    | (w', Raise e) => (w', Raise e)
    end.

Declare Scope io_scope.
Delimit Scope io_scope with io.
Notation "x <- c ;; k" := (io_bind c (fun x => k))
  (at level 100, c at next level, right associativity) : io_scope.

Definition record_event (ev : event) (w : world) : world :=
  World (path w) (log w ++ [ev]).

(** [open(path, 'r')] followed by reading the file to its end. *)
Definition open_read : io string :=
  fun w =>
    match path w with
    | Absent => (w, Raise FileNotFoundError)
    | Regular false _ _ => (w, Raise PermissionError)
    | Regular true _ content => (record_event OpenRead w, Ok content)
    end.

(** [open(path, 'w')]: the file is created when absent and cut to length
    zero when present. *)
Definition open_write : io unit :=
  fun w =>
    match path w with
    | Absent =>
        (World (Regular true true EmptyString) (log w ++ [OpenWrite]), Ok tt)
    | Regular _ false _ => (w, Raise PermissionError)
    | Regular r true _ =>
        (World (Regular r true EmptyString) (log w ++ [OpenWrite]), Ok tt)
    end.

(** [f.write(text)] on the file opened for writing. *)
Definition write (text : string) : io unit :=
  fun w =>
    match path w with
    | Absent => (w, Raise FileNotFoundError)
    | Regular r wr content =>
        (World (Regular r wr (content ++ text)) (log w ++ [Write text]), Ok tt)
    end.

(** ** The script *)

Section Script.

(** The [json] module is not code of the script. [json_load content] is
    what [json.load] makes of a file with these bytes: a value, or the
    exception it raises ([ValueError]: [UnicodeDecodeError] for bytes
    that are not UTF-8, [JSONDecodeError] for text it does not accept;
    [RecursionError] for nesting beyond the interpreter's limit).
    [json_dump data] is the text [json.dump(data, f, ensure_ascii=False,
    indent=2)] gets into the file, and the exception that ended it, if
    any. *)
Variable json_load : string -> result json.
Variable json_dump : json -> string * option exn.

Local Open Scope io_scope.

(** Lines 4-5. Whatever [json.load] raises ends the loader. *)
Definition loader : io json :=
  content <- open_read ;;
  lift (json_load content).

(** Lines 13-14. *)
Definition writer (data : json) : io unit :=
  _ <- open_write ;;
  _ <- write (fst (json_dump data)) ;;
  match snd (json_dump data) with
  | None => ret tt
  | Some e => raise e
  end.

(** The whole script; nothing catches an exception. *)
Definition remove_embeddings : io unit :=
  data <- loader ;;
  data' <- lift (strip data) ;;
  writer data'.

(** A run of the script on a file. *)
Definition run (f : file) : world * result unit :=
  remove_embeddings (World f []).

End Script.

(** The error classes of the specification. *)
Definition is_file_access_error (e : exn) : bool :=
  match e with
  | FileNotFoundError | PermissionError => true
  | _ => false
  end.

Definition is_parse_error (e : exn) : bool :=
  match e with
  | ValueError => true
  | _ => false
  end.

Definition is_type_error (e : exn) : bool :=
  match e with
  | TypeError _ => true
  | _ => false
  end.

(** What [open(path, 'r')] gets to read, if anything. *)
Definition readable_content (f : file) : option string :=
  match f with
  | Regular true _ content => Some content
  | _ => None
  end.

(** The operation at which the loop body raises on an element of
    [body_raises]. *)
Definition raising_operation (qa : json) : type_error :=
  match qa with
  | JStr _ | JList _ | JDict _ => NoItemDeletion
  | _ => NotContainer
  end.

(** ** Sample documents and files *)

(** The mixed document of the specification's fourth scenario:
    a record with an embedding, then a record without. *)
Definition record_a : dict := [("q", JStr "A"); (embedding, JList [JInt 1])].
Definition record_b : dict := [("q", JStr "B")].
Definition mixed_document : list dict := [record_a; record_b].

(** A record with the key at the top level and, inside the values of two
    other keys, in a nested dict and in a dict inside a list. *)
Definition nested_value : json :=
  JDict [("model", JStr "m"); (embedding, JList [JInt 7; JInt 8])].

Definition nested_record : dict :=
  [("meta", nested_value);
   (embedding, JList [JInt 1; JInt 2]);
   ("history", JList [JDict [(embedding, JNull)]])].

(** A list document without a single dict that the stage accepts. *)
Definition plain_elements : list json :=
  [JStr "question"; JList [JInt 1; JStr "embeddings"]; JList []].

(** A list document with a record and a number. *)
Definition record_then_number : list json := [JDict record_a; JInt 5].

(** What [json.load] answers on the sample files below: the two documents
    it parses, and [ValueError] for the cut-off text. The table knows
    these contents only; it stands for the library in the sample runs. *)
Definition sample_load (content : string) : result json :=
  if String.eqb content "[{}]" then Ok (JList [JDict []])
  else if String.eqb content "[5]" then Ok (JList [JInt 5])
  else Raise ValueError.

Definition newline : string := String (ascii_of_nat 10) EmptyString.

(** What [json.dump] writes for the sample documents, with [indent=2]. *)
Definition sample_dump (data : json) : string * option exn :=
  match data with
  | JList [] => ("[]", None)
  | JList [JDict []] => ("[" ++ newline ++ "  {}" ++ newline ++ "]", None)
  | _ => (EmptyString, Some EncodeError)
  end.

Definition cut_off_file : file := Regular true true "[{".
Definition number_file : file := Regular true true "[5]".
Definition locked_file : file := Regular false true "[{}]".
Definition good_file : file := Regular true true "[{}]".

(** ** Keys below the top level *)

(** A dict with the key ["embedding"] occurs in the value, at any depth
    and inside any list. *)
Fixpoint mentions_embedding (x : json) : bool :=
  match x with
  | JList l => existsb mentions_embedding l
  | JDict d =>
      (fix entries (d : list (string * json)) : bool :=
         match d with
         | [] => false
         | (k, v) :: rest =>
             String.eqb embedding k || mentions_embedding v || entries rest
         end) d
  | _ => false
  end.

(** A record whose entry for ["embedding"] has a dict with the key
    ["embedding"] as its value. *)
Definition shadowed_value : json := JDict [(embedding, JInt 1)].
Definition shadowed_record : dict := [(embedding, shadowed_value)].

(** ** The loop, element by element *)

(** What the loop body leaves of an element it does not raise on: a dict
    without its entry for ["embedding"], anything else as it is. *)
Definition strip_element (qa : json) : json :=
  match qa with
  | JDict r => JDict (strip_record r)
  | _ => qa
  end.

(** The dicts that hold the key at their top level. *)
Definition has_embedding (qa : json) : bool :=
  match qa with
  | JDict d => dict_contains embedding d
  | _ => false
  end.

(** ** More sample files *)

Definition pretty_empty_record : string :=
  "[" ++ newline ++ "  {}" ++ newline ++ "]".

(** [sample_load], and the text [sample_dump] writes for [[{}]]. *)
Definition sample_load_pretty (content : string) : result json :=
  if String.eqb content pretty_empty_record then Ok (JList [JDict []])
  else sample_load content.

(** A [json.dump] that gets one character into the file and raises. *)
Definition failing_dump (data : json) : string * option exn :=
  ("[", Some EncodeError).

Definition read_only_file : file := Regular true false "[{}]".

(** ** Python's [json] module *)

(** [json.load] and [json.dump] as the documentation of the module and
    of the decoder and the encoder behind them describes them, with the
    arguments the script gives. Texts are the bytes of the file in
    UTF-8. Line ends are read and written as they are: on reading
    Python turns a carriage return into a line feed, which are both
    whitespace between the values and both refused inside a str. *)

(** The interpreter the script runs on, as far as [json] depends on it:
    [repr] and [float] on floats, the nesting the decoder and the encoder
    can take before [RecursionError], and the limit on the digits of an
    int in a conversion from and to a str ([0]: no limit). *)
Record python : Type := Python {
  float_repr : spec_float -> string;
  float_of_string : string -> spec_float;
  decoder_depth : nat;
  encoder_depth : nat;
  max_str_digits : nat
}.

Definition quote : ascii := "034"%char.
Definition backslash : ascii := "092"%char.
Definition quote_str : string := String quote EmptyString.

(** *** Characters *)

Definition is_ws (c : ascii) : bool :=
  match c with
  | " " | "009" | "010" | "013" => true
  | _ => false
  end%char.

Definition is_digit (c : ascii) : bool :=
  match c with
  | "0" | "1" | "2" | "3" | "4" | "5" | "6" | "7" | "8" | "9" => true
  | _ => false
  end%char.

Definition in_range (lo hi : N) (c : ascii) : bool :=
  ((lo <=? N_of_ascii c) && (N_of_ascii c <=? hi))%N.

(** The value of a hexadecimal digit, in either case. *)
Definition hex_digit (c : ascii) : option N :=
  (if in_range 48 57 c then Some (N_of_ascii c - 48)
   else if in_range 97 102 c then Some (N_of_ascii c - 87)
   else if in_range 65 70 c then Some (N_of_ascii c - 55)
   else None)%N.

Definition hex_char (n : N) : ascii :=
  match n with
  | 0 => "0" | 1 => "1" | 2 => "2" | 3 => "3" | 4 => "4" | 5 => "5"
  | 6 => "6" | 7 => "7" | 8 => "8" | 9 => "9" | 10 => "a" | 11 => "b"
  | 12 => "c" | 13 => "d" | 14 => "e" | _ => "f"
  end%char%N.

(** *** UTF-8 *)

(** A str is held as the UTF-8 bytes of its characters, a lone surrogate
    as the three bytes its code point would take. *)
Definition byte (n : N) : ascii := ascii_of_N n.

Definition utf8_of_code_point (n : N) : string :=
  (if n <? 128 then String (byte n) EmptyString
   else if n <? 2048 then
     String (byte (192 + n / 64)) (String (byte (128 + n mod 64)) EmptyString)
   else if n <? 65536 then
     String (byte (224 + n / 4096))
       (String (byte (128 + (n / 64) mod 64))
          (String (byte (128 + n mod 64)) EmptyString))
   else
     String (byte (240 + n / 262144))
       (String (byte (128 + (n / 4096) mod 64))
          (String (byte (128 + (n / 64) mod 64))
             (String (byte (128 + n mod 64)) EmptyString))))%N.

Definition continuation : ascii -> bool := in_range 128 191.

(** The byte sequences the codec [utf-8] accepts, in reading and in
    writing: well-formed UTF-8, which has no surrogates. *)
Fixpoint utf8_strict (s : string) : bool :=
  match s with
  | EmptyString => true
  | String a r =>
      if in_range 0 127 a then utf8_strict r
      else if in_range 194 223 a then
        match r with
        | String b r1 => continuation b && utf8_strict r1
        | _ => false
        end
      else if in_range 224 239 a then
        match r with
        | String b (String c r2) =>
            (if in_range 224 224 a then in_range 160 191 b
             else if in_range 237 237 a then in_range 128 159 b
             else continuation b)
            && continuation c && utf8_strict r2
        | _ => false
        end
      else if in_range 240 244 a then
        match r with
        | String b (String c (String d r3)) =>
            (if in_range 240 240 a then in_range 144 191 b
             else if in_range 244 244 a then in_range 128 143 b
             else continuation b)
            && continuation c && continuation d && utf8_strict r3
        | _ => false
        end
      else false
  end.

(** *** The decoder *)

Fixpoint skip_ws (s : string) : string :=
  match s with
  | String c r => if is_ws c then skip_ws r else s
  | EmptyString => EmptyString
  end.

(** [strip_prefix p s] is what follows [p] in [s], when [s] starts with
    [p]. *)
Fixpoint strip_prefix (p s : string) : option string :=
  match p with
  | EmptyString => Some s
  | String a p' =>
      match s with
      | String b s' => if Ascii.eqb a b then strip_prefix p' s' else None
      | EmptyString => None
      end
  end.

(** The longest run of digits at the head of a text, and the rest. *)
Fixpoint span_digits (s : string) : string * string :=
  match s with
  | String c r =>
      if is_digit c then
        let (ds, rest) := span_digits r in (String c ds, rest)
      else (EmptyString, s)
  | EmptyString => (EmptyString, EmptyString)
  end.

(** The number pattern of the decoder: an optional minus sign, then a
    zero or digits that start with no zero, then optionally a dot with
    digits, then optionally [e] or [E] with an optional sign and digits.
    [scan_number] gives the literal matched at the head of the text,
    whether it has a fraction or an exponent, and the rest. *)
Definition scan_sign (s : string) : string * string :=
  match s with
  | String c r => if Ascii.eqb c "-" then ("-", r) else (EmptyString, s)
  | EmptyString => (EmptyString, s)
  end.

Definition scan_int_part (s : string) : option (string * string) :=
  match s with
  | String c r =>
      if Ascii.eqb c "0" then Some ("0", r)
      else if is_digit c then Some (span_digits s)
      else None
  | EmptyString => None
  end.

Definition scan_frac (s : string) : string * string :=
  match s with
  | String c r =>
      if Ascii.eqb c "." then
        match span_digits r with
        | (EmptyString, _) => (EmptyString, s)
        | (ds, rest) => (String c ds, rest)
        end
      else (EmptyString, s)
  | EmptyString => (EmptyString, s)
  end.

Definition is_exp_mark (c : ascii) : bool :=
  Ascii.eqb c "e" || Ascii.eqb c "E".

Definition is_exp_sign (c : ascii) : bool :=
  Ascii.eqb c "+" || Ascii.eqb c "-".

Definition scan_exp_sign (s : string) : string * string :=
  match s with
  | String c r =>
      if is_exp_sign c then (String c EmptyString, r) else (EmptyString, s)
  | EmptyString => (EmptyString, s)
  end.

Definition scan_exp (s : string) : string * string :=
  match s with
  | String c r =>
      if is_exp_mark c then
        let (sg, r1) := scan_exp_sign r in
        match span_digits r1 with
        | (EmptyString, _) => (EmptyString, s)
        | (ds, rest) => (String c (sg ++ ds), rest)
        end
      else (EmptyString, s)
  | EmptyString => (EmptyString, s)
  end.

Definition is_empty (s : string) : bool :=
  match s with
  | EmptyString => true
  | _ => false
  end.

Definition scan_number (s : string) : option (string * bool * string) :=
  let (sg, s1) := scan_sign s in
  match scan_int_part s1 with
  | None => None
  | Some (ip, s2) =>
      let (fr, s3) := scan_frac s2 in
      let (ex, s4) := scan_exp s3 in
      Some (sg ++ ip ++ fr ++ ex, negb (is_empty fr && is_empty ex), s4)
  end.

(** The digits of an int literal or of the str of an int, the sign not
    counted. *)
Definition digit_count (lit : string) : nat :=
  String.length (snd (scan_sign lit)).

Definition over_digit_limit (py : python) (lit : string) : bool :=
  negb (Nat.eqb (max_str_digits py) 0)
  && Nat.ltb (max_str_digits py) (digit_count lit).

(** [int(lit)] on a literal of the number pattern. *)
Definition int_of_literal (py : python) (lit : string) : result Z :=
  if over_digit_limit py lit then Raise ValueError
  else
    match NilZero.int_of_string lit with
    | Some d => Ok (Z.of_int d)
    | None => Raise ValueError
    end.

(** The character of a one-letter escape. *)
Definition simple_escape (c : ascii) : option ascii :=
  match c with
  | "034" => Some "034"
  | "\" => Some "\"
  | "/" => Some "/"
  | "b" => Some "008"
  | "f" => Some "012"
  | "n" => Some "010"
  | "r" => Some "013"
  | "t" => Some "009"
  | _ => None
  end%char.

Definition hex4 (a b c d : ascii) : option N :=
  match hex_digit a, hex_digit b, hex_digit c, hex_digit d with
  | Some x, Some y, Some z, Some w => Some (((x * 16 + y) * 16 + z) * 16 + w)%N
  | _, _, _, _ => None
  end.

(** The low surrogate of an escape [\uXXXX] at the head of the text, and
    what follows it. *)
Definition low_surrogate (s : string) : option (N * string) :=
  match s with
  | String b (String u (String h1 (String h2 (String h3 (String h4 r))))) =>
      if Ascii.eqb b backslash && Ascii.eqb u "u" then
        match hex4 h1 h2 h3 h4 with
        | Some lo =>
            if ((56320 <=? lo) && (lo <=? 57343))%N then Some (lo, r) else None
        | None => None
        end
      else None
  | _ => None
  end.

(** The text of a str after its opening quote: the str, and what follows
    the closing quote. Control characters must be escaped. *)
Fixpoint scanstring (s : string) : result (string * string) :=
  match s with
  | EmptyString => Raise ValueError
  | String c r =>
      if Ascii.eqb c quote then Ok (EmptyString, r)
      else if Ascii.eqb c backslash then
        match r with
        | String e r1 =>
            if Ascii.eqb e "u" then
              match r1 with
              | String h1 (String h2 (String h3 (String h4 r2))) =>
                  match hex4 h1 h2 h3 h4 with
                  | None => Raise ValueError
                  | Some hi =>
                      if ((55296 <=? hi) && (hi <=? 56319))%N then
                        match r2 with
                        | String b (String u
                            (String g1 (String g2 (String g3 (String g4 r3)))))
                          =>
                            match low_surrogate r2 with
                            | Some (lo, _) =>
                                match scanstring r3 with
                                | Ok (str, rest) =>
                                    Ok (utf8_of_code_point
                                          (65536 + (hi - 55296) * 1024
                                           + (lo - 56320))%N ++ str, rest)
                                | Raise ex => Raise ex
                                end
                            | None =>
                                match scanstring r2 with
                                | Ok (str, rest) =>
                                    Ok (utf8_of_code_point hi ++ str, rest)
                                | Raise ex => Raise ex
                                end
                            end
                        | _ =>
                            match scanstring r2 with
                            | Ok (str, rest) =>
                                Ok (utf8_of_code_point hi ++ str, rest)
                            | Raise ex => Raise ex
                            end
                        end
                      else
                        match scanstring r2 with
                        | Ok (str, rest) =>
                            Ok (utf8_of_code_point hi ++ str, rest)
                        | Raise ex => Raise ex
                        end
                  end
              | _ => Raise ValueError
              end
            else
              match simple_escape e with
              | Some ch =>
                  match scanstring r1 with
                  | Ok (str, rest) => Ok (String ch str, rest)
                  | Raise ex => Raise ex
                  end
              | None => Raise ValueError
              end
        | EmptyString => Raise ValueError
        end
      else if in_range 0 31 c then Raise ValueError
      else
        match scanstring r with
        | Ok (str, rest) => Ok (String c str, rest)
        | Raise ex => Raise ex
        end
  end.

(** [d[k] = v]: the value of a key the dict holds is replaced where it
    is, a new key goes to the end. *)
Fixpoint dict_setitem (k : string) (v : json) (d : dict) : dict :=
  match d with
  | [] => [(k, v)]
  | (k', v') :: rest =>
      if String.eqb k k' then (k', v) :: rest
      else (k', v') :: dict_setitem k v rest
  end.

Definition dict_of_pairs (pairs : list (string * json)) : dict :=
  fold_left (fun d kv => dict_setitem (fst kv) (snd kv) d) pairs [].

Section Containers.

(** The decoder of one value, for the elements of an array and the
    values of an object. *)
Variable value : string -> result (json * string).

(** The elements of an array from the first on, up to the closing
    bracket. The count only bounds the recursion: there are fewer
    elements than characters. *)
Fixpoint parse_items (fuel : nat) (s : string)
  : result (list json * string) :=
  match fuel with
  | O => Raise ValueError
  | S fuel' =>
      match value s with
      | Raise e => Raise e
      | Ok (v, r) =>
          match skip_ws r with
          | String c r1 =>
              if Ascii.eqb c "]" then Ok ([v], r1)
              else if Ascii.eqb c "," then
                match parse_items fuel' (skip_ws r1) with
                | Ok (vs, rest) => Ok (v :: vs, rest)
                | Raise e => Raise e
                end
              else Raise ValueError
          | EmptyString => Raise ValueError
          end
      end
  end.

(** An array after its opening bracket. *)
Definition parse_array (s : string) : result (json * string) :=
  match skip_ws s with
  | String c r =>
      if Ascii.eqb c "]" then Ok (JList [], r)
      else
        match parse_items (String.length s) (skip_ws s) with
        | Ok (vs, rest) => Ok (JList vs, rest)
        | Raise e => Raise e
        end
  | EmptyString => Raise ValueError
  end.

(** The members of an object from the first on, up to the closing
    brace. *)
Fixpoint parse_members (fuel : nat) (s : string)
  : result (list (string * json) * string) :=
  match fuel with
  | O => Raise ValueError
  | S fuel' =>
      match s with
      | String q r =>
          if Ascii.eqb q quote then
            match scanstring r with
            | Raise e => Raise e
            | Ok (k, r1) =>
                match skip_ws r1 with
                | String c r2 =>
                    if Ascii.eqb c ":" then
                      match value (skip_ws r2) with
                      | Raise e => Raise e
                      | Ok (v, r3) =>
                          match skip_ws r3 with
                          | String c' r4 =>
                              if Ascii.eqb c' "}" then Ok ([(k, v)], r4)
                              else if Ascii.eqb c' "," then
                                match parse_members fuel' (skip_ws r4) with
                                | Ok (kvs, rest) => Ok ((k, v) :: kvs, rest)
                                | Raise e => Raise e
                                end
                              else Raise ValueError
                          | EmptyString => Raise ValueError
                          end
                      end
                    else Raise ValueError
                | EmptyString => Raise ValueError
                end
            end
          else Raise ValueError
      | EmptyString => Raise ValueError
      end
  end.

(** An object after its opening brace. *)
Definition parse_object (s : string) : result (json * string) :=
  match skip_ws s with
  | String c r =>
      if Ascii.eqb c "}" then Ok (JDict [], r)
      else
        match parse_members (String.length s) (skip_ws s) with
        | Ok (kvs, rest) => Ok (JDict (dict_of_pairs kvs), rest)
        | Raise e => Raise e
        end
  | EmptyString => Raise ValueError
  end.

End Containers.

(** A value that is neither a str nor a container: [null], [true],
    [false], a number, and when [constants] is set, as it is by default,
    the three names [NaN], [Infinity] and [-Infinity], which are no
    JSON. The script leaves the default; without [constants] the decoder
    is the one with a [parse_constant] that raises [ValueError]. *)
Definition scan_scalar (py : python) (constants : bool) (s : string)
  : result (json * string) :=
  match strip_prefix "null" s with
  | Some r => Ok (JNull, r)
  | None =>
  match strip_prefix "true" s with
  | Some r => Ok (JBool true, r)
  | None =>
  match strip_prefix "false" s with
  | Some r => Ok (JBool false, r)
  | None =>
  match strip_prefix "NaN" s with
  | Some r => if constants then Ok (JFloat S754_nan, r) else Raise ValueError
  | None =>
  match strip_prefix "Infinity" s with
  | Some r =>
      if constants then Ok (JFloat (S754_infinity false), r)
      else Raise ValueError
  | None =>
  match strip_prefix "-Infinity" s with
  | Some r =>
      if constants then Ok (JFloat (S754_infinity true), r)
      else Raise ValueError
  | None =>
  match scan_number s with
  | None => Raise ValueError
  | Some (lit, true, r) => Ok (JFloat (float_of_string py lit), r)
  | Some (lit, false, r) =>
      match int_of_literal py lit with
      | Ok z => Ok (JInt z, r)
      | Raise e => Raise e
      end
  end end end end end end end.

(** One value at the head of the text. Entering an array or an object
    takes one level of the nesting the interpreter allows. *)
Fixpoint scan_once (py : python) (constants : bool) (depth : nat)
         (s : string) {struct depth} : result (json * string) :=
  match s with
  | EmptyString => Raise ValueError
  | String c r =>
      if Ascii.eqb c quote then
        match scanstring r with
        | Ok (str, rest) => Ok (JStr str, rest)
        | Raise e => Raise e
        end
      else if Ascii.eqb c "{" then
        match depth with
        | O => Raise RecursionError
        | S depth' => parse_object (scan_once py constants depth') r
        end
      else if Ascii.eqb c "[" then
        match depth with
        | O => Raise RecursionError
        | S depth' => parse_array (scan_once py constants depth') r
        end
      else scan_scalar py constants s
  end.

(** [json.loads]: one value, with whitespace around it and nothing else. *)
Definition json_loads (py : python) (constants : bool) (depth : nat)
           (text : string) : result json :=
  match scan_once py constants depth (skip_ws text) with
  | Ok (v, rest) =>
      match skip_ws rest with
      | EmptyString => Ok v
      | _ => Raise ValueError
      end
  | Raise e => Raise e
  end.

(** [json.load] on a file opened with [encoding='utf-8']: the bytes are
    decoded ([UnicodeDecodeError], a [ValueError], when they are no
    UTF-8), then parsed ([JSONDecodeError], a [ValueError], or
    [RecursionError]). *)
Definition py_json_load (py : python) (content : string) : result json :=
  if utf8_strict content then json_loads py true (decoder_depth py) content
  else Raise ValueError.

(** *** The encoder *)

Fixpoint spaces (n : nat) : string :=
  match n with
  | O => EmptyString
  | S n' => String " " (spaces n')
  end.

(** A line break and the indentation of a level, with [indent=2]. *)
Definition newline_indent (level : nat) : string :=
  String "010" (spaces (2 * level)).

(** With [ensure_ascii=False] the quote, the backslash and the control
    characters are escaped and every other character is written as it
    is. *)
Definition escape_char (c : ascii) : string :=
  if Ascii.eqb c quote then String backslash (String quote EmptyString)
  else if Ascii.eqb c backslash then
    String backslash (String backslash EmptyString)
  else if Ascii.eqb c "010" then "\n"
  else if Ascii.eqb c "013" then "\r"
  else if Ascii.eqb c "009" then "\t"
  else if Ascii.eqb c "008" then "\b"
  else if Ascii.eqb c "012" then "\f"
  else if in_range 0 31 c then
    "\u00" ++ String (hex_char (N_of_ascii c / 16))
                (String (hex_char (N_of_ascii c mod 16)) EmptyString)
  else String c EmptyString.

Fixpoint escape (s : string) : string :=
  match s with
  | EmptyString => EmptyString
  | String c r => escape_char c ++ escape r
  end.

Definition encode_basestring (s : string) : string :=
  String quote (escape s ++ quote_str).

(** [int.__repr__]. *)
Definition intstr (py : python) (z : Z) : result string :=
  let lit := NilZero.string_of_int (Z.to_int z) in
  if over_digit_limit py lit then Raise ValueError else Ok lit.

(** The text of a float, with [allow_nan] as it is by default. *)
Definition floatstr (py : python) (f : spec_float) : string :=
  match f with
  | S754_nan => "NaN"
  | S754_infinity false => "Infinity"
  | S754_infinity true => "-Infinity"
  | _ => float_repr py f
  end.

(** What the encoder hands to [write], piece by piece, and the exception
    that ends it. *)
Inductive chunk : Type :=
| Text (s : string)
| Fails (e : exn).

(** The text of a value that is no container. The text of a float is
    made by a function of the encoder, which takes one level of the
    nesting the interpreter allows. *)
Definition scalar_text (py : python) (depth : nat) (x : json)
  : option (result string) :=
  match x with
  | JNull => Some (Ok "null")
  | JBool true => Some (Ok "true")
  | JBool false => Some (Ok "false")
  | JInt z => Some (intstr py z)
  | JFloat f =>
      Some (match depth with
            | O => Raise RecursionError
            | S _ => Ok (floatstr py f)
            end)
  | JStr s => Some (Ok (encode_basestring s))
  | JList _ | JDict _ => None
  end.

Definition text_chunk (buf : string) (r : result string) : chunk :=
  match r with
  | Ok t => Text (buf ++ t)
  | Raise e => Fails e
  end.

(** An element of a list: the text of a scalar goes out in one piece
    with the bracket or the separator before it, a container after
    it. *)
Definition list_item (py : python) (depth : nat)
           (encode : json -> list chunk) (buf : string) (v : json)
  : list chunk :=
  match scalar_text py depth v with
  | Some r => [text_chunk buf r]
  | None => Text buf :: encode v
  end.

(** A member of a dict: the key, the colon and the value go out one by
    one. *)
Definition dict_member (py : python) (depth : nat)
           (encode : json -> list chunk) (kv : string * json)
  : list chunk :=
  Text (encode_basestring (fst kv)) :: Text ": " ::
  match scalar_text py depth (snd kv) with
  | Some r => [text_chunk EmptyString r]
  | None => encode (snd kv)
  end.

(** The pieces of a value at a level of indentation. Entering a list or
    a dict that is not empty takes one level of the nesting the
    interpreter allows. *)
Fixpoint iterencode (py : python) (depth level : nat) (x : json)
         {struct x} : list chunk :=
  match x with
  | JList l =>
      match depth with
      | O => [Fails RecursionError]
      | S depth' =>
          match l with
          | [] => [Text "[]"]
          | x0 :: xs =>
              list_item py depth' (iterencode py depth' (S level))
                        ("[" ++ newline_indent (S level)) x0
              ++ flat_map
                   (list_item py depth' (iterencode py depth' (S level))
                              ("," ++ newline_indent (S level))) xs
              ++ [Text (newline_indent level); Text "]"]
          end
      end
  | JDict d =>
      match depth with
      | O => [Fails RecursionError]
      | S depth' =>
          match d with
          | [] => [Text "{}"]
          | kv0 :: kvs =>
              Text "{" :: Text (newline_indent (S level))
              :: dict_member py depth' (iterencode py depth' (S level)) kv0
              ++ flat_map
                   (fun kv =>
                      Text ("," ++ newline_indent (S level))
                      :: dict_member py depth'
                           (iterencode py depth' (S level)) kv)
                   kvs
              ++ [Text (newline_indent level); Text "}"]
          end
      end
  | _ =>
      match scalar_text py depth x with
      | Some r => [text_chunk EmptyString r]
      | None => []
      end
  end.

(** [for chunk in iterable: fp.write(chunk)] on a file opened with
    [encoding='utf-8']: a piece that cannot be encoded is not written,
    the pieces before it are. *)
Fixpoint write_chunks (chunks : list chunk) (written : string)
  : string * option exn :=
  match chunks with
  | [] => (written, None)
  | Text s :: rest =>
      if utf8_strict s then write_chunks rest (written ++ s)
      else (written, Some EncodeError)
  | Fails e :: _ => (written, Some e)
  end.

(** [json.dump(data, f, ensure_ascii=False, indent=2)]. *)
Definition py_json_dump (py : python) (data : json) : string * option exn :=
  write_chunks (iterencode py (encoder_depth py) 0 data) EmptyString.


(** *** Documents as the decoder makes them *)

(** The whole text of the pieces, when no piece fails. *)
Fixpoint chunk_text (chunks : list chunk) : option string :=
  match chunks with
  | [] => Some EmptyString
  | Text s :: rest => option_map (append s) (chunk_text rest)
  | Fails _ :: _ => None
  end.

(** The nesting of lists and dicts in a value. *)
Fixpoint json_depth (x : json) : nat :=
  match x with
  | JList l => S (fold_right Nat.max 0 (map json_depth l))
  | JDict d =>
      S (fold_right Nat.max 0 (map (fun kv => json_depth (snd kv)) d))
  | _ => 0
  end.

(** No dict of the value, at any depth, holds a key twice. *)
Fixpoint json_ok (x : json) : bool :=
  match x with
  | JList l => forallb json_ok l
  | JDict d => unique_keys d && forallb (fun kv => json_ok (snd kv)) d
  | _ => true
  end.

Definition float_eqb (f g : spec_float) : bool :=
  match f, g with
  | S754_zero a, S754_zero b => Bool.eqb a b
  | S754_infinity a, S754_infinity b => Bool.eqb a b
  | S754_nan, S754_nan => true
  | S754_finite a m e, S754_finite b n k =>
      Bool.eqb a b && Pos.eqb m n && Z.eqb e k
  | _, _ => false
  end.

(** [repr] of the float is a number with a fraction or an exponent, and
    [float] reads it back as the float. *)
Definition float_round_trips (py : python) (f : spec_float) : bool :=
  match f with
  | S754_nan | S754_infinity _ => true
  | _ =>
      match scan_number (float_repr py f) with
      | Some (lit, true, EmptyString) =>
          String.eqb lit (float_repr py f)
          && float_eqb (float_of_string py lit) f
      | _ => false
      end
  end.

(** Every float of the value is read back from its [repr]. *)
Fixpoint floats_ok (py : python) (x : json) : bool :=
  match x with
  | JFloat f => float_round_trips py f
  | JList l => forallb (floats_ok py) l
  | JDict d => forallb (fun kv => floats_ok py (snd kv)) d
  | _ => true
  end.

(** A text that cannot continue a number. *)
Definition number_stop (s : string) : bool :=
  match s with
  | EmptyString => true
  | String c _ =>
      negb (is_digit c || Ascii.eqb c "." || is_exp_mark c || is_exp_sign c)
  end.

(** *** JSON texts *)

(** The grammar of JSON, RFC 8259. A rule is a relation between a text
    and what is left of it after the phrase at its head. *)

(** Whitespace: spaces, tabs, line feeds and carriage returns. *)
Inductive json_ws : string -> string -> Prop :=
| ws_none (s : string) : json_ws s s
| ws_more (c : ascii) (s r : string) :
    is_ws c = true -> json_ws s r -> json_ws (String c s) r.

(** One digit or more. *)
Inductive json_digits : string -> string -> Prop :=
| digits_last (c : ascii) (s : string) :
    is_digit c = true -> json_digits (String c s) s
| digits_more (c : ascii) (s r : string) :
    is_digit c = true -> json_digits s r -> json_digits (String c s) r.

(** A zero, or digits of which the first is no zero. *)
Inductive json_int : string -> string -> Prop :=
| int_zero (s : string) : json_int (String "0" s) s
| int_digit (c : ascii) (s : string) :
    is_digit c = true -> c <> "0"%char -> json_int (String c s) s
| int_digits (c : ascii) (s r : string) :
    is_digit c = true -> c <> "0"%char -> json_digits s r ->
    json_int (String c s) r.

Inductive json_minus : string -> string -> Prop :=
| minus_none (s : string) : json_minus s s
| minus_sign (s : string) : json_minus (String "-" s) s.

Inductive json_frac : string -> string -> Prop :=
| frac_none (s : string) : json_frac s s
| frac_digits (s r : string) :
    json_digits s r -> json_frac (String "." s) r.

Inductive json_exp : string -> string -> Prop :=
| exp_none (s : string) : json_exp s s
| exp_digits (c : ascii) (s r : string) :
    is_exp_mark c = true -> json_digits s r -> json_exp (String c s) r
| exp_signed (c g : ascii) (s r : string) :
    is_exp_mark c = true -> is_exp_sign g = true -> json_digits s r ->
    json_exp (String c (String g s)) r.

Inductive json_number : string -> string -> Prop :=
| number_parts (s s1 s2 s3 r : string) :
    json_minus s s1 -> json_int s1 s2 -> json_frac s2 s3 ->
    json_exp s3 r -> json_number s r.

(** The letters that follow the backslash of a two-character escape. *)
Definition escape_letters : list ascii :=
  ["034"; "\"; "/"; "b"; "f"; "n"; "r"; "t"]%char.

(** A string after its opening quote, up to the closing quote: characters
    other than the quote, the backslash and the control characters,
    two-character escapes, and [\u] with four hexadecimal digits. *)
Inductive json_chars : string -> string -> Prop :=
| chars_end (s : string) : json_chars (String quote s) s
| chars_plain (c : ascii) (s r : string) :
    c <> quote -> c <> backslash -> in_range 0 31 c = false ->
    json_chars s r -> json_chars (String c s) r
| chars_escape (e : ascii) (s r : string) :
    In e escape_letters -> json_chars s r ->
    json_chars (String backslash (String e s)) r
| chars_hex (h1 h2 h3 h4 : ascii) (s r : string) :
    hex_digit h1 <> None -> hex_digit h2 <> None ->
    hex_digit h3 <> None -> hex_digit h4 <> None ->
    json_chars s r ->
    json_chars
      (String backslash
         (String "u" (String h1 (String h2 (String h3 (String h4 s)))))) r.

(** Values, the elements of an array and the members of an object. With
    [constants] set the names [NaN], [Infinity] and [-Infinity] are
    values too: that is no JSON, it is what [json.load] takes for JSON
    by default. *)
Inductive json_value (constants : bool) : string -> string -> Prop :=
| value_null (s : string) : json_value constants ("null" ++ s) s
| value_true (s : string) : json_value constants ("true" ++ s) s
| value_false (s : string) : json_value constants ("false" ++ s) s
| value_number (s r : string) :
    json_number s r -> json_value constants s r
| value_string (s r : string) :
    json_chars s r -> json_value constants (String quote s) r
| value_empty_array (s r : string) :
    json_ws s (String "]" r) -> json_value constants (String "[" s) r
| value_array (s r : string) :
    json_elements constants s (String "]" r) ->
    json_value constants (String "[" s) r
| value_empty_object (s r : string) :
    json_ws s (String "}" r) -> json_value constants (String "{" s) r
| value_object (s r : string) :
    json_members constants s (String "}" r) ->
    json_value constants (String "{" s) r
| value_nan (s : string) :
    constants = true -> json_value constants ("NaN" ++ s) s
| value_infinity (s : string) :
    constants = true -> json_value constants ("Infinity" ++ s) s
| value_minus_infinity (s : string) :
    constants = true -> json_value constants ("-Infinity" ++ s) s
with json_element (constants : bool) : string -> string -> Prop :=
| element_parts (s s1 s2 r : string) :
    json_ws s s1 -> json_value constants s1 s2 -> json_ws s2 r ->
    json_element constants s r
with json_elements (constants : bool) : string -> string -> Prop :=
| elements_last (s r : string) :
    json_element constants s r -> json_elements constants s r
| elements_more (s s1 r : string) :
    json_element constants s (String "," s1) ->
    json_elements constants s1 r -> json_elements constants s r
with json_member (constants : bool) : string -> string -> Prop :=
| member_parts (s s1 s2 s3 r : string) :
    json_ws s (String quote s1) -> json_chars s1 s2 ->
    json_ws s2 (String ":" s3) -> json_element constants s3 r ->
    json_member constants s r
with json_members (constants : bool) : string -> string -> Prop :=
| members_last (s r : string) :
    json_member constants s r -> json_members constants s r
| members_more (s s1 r : string) :
    json_member constants s (String "," s1) ->
    json_members constants s1 r -> json_members constants s r.

(** A JSON text is one value with whitespace around it. *)
Definition json_text (constants : bool) (s : string) : Prop :=
  json_element constants s EmptyString.

(** The content of a file is well-formed JSON when its bytes are UTF-8
    and make a JSON text. *)
Definition well_formed_json (content : string) : Prop :=
  utf8_strict content = true /\ json_text false content.

(** The same with the three names that [json.load] takes as well. *)
Definition extended_json (content : string) : Prop :=
  utf8_strict content = true /\ json_text true content.

(** *** Sample interpreter and files *)

(** An interpreter with the usual limits. Its float conversions are
    stand-ins that know the float [0.0] only. *)
Definition sample_python : python :=
  Python (fun _ => "0.0") (fun _ => S754_zero false) 1000 1000 4300.

(** [[{"q": "A", "embedding": [1]}, {"q": "B"}]] *)
Definition mixed_text : string :=
  "[{" ++ quote_str ++ "q" ++ quote_str ++ ": " ++ quote_str ++ "A"
  ++ quote_str ++ ", " ++ quote_str ++ "embedding" ++ quote_str
  ++ ": [1]}, {" ++ quote_str ++ "q" ++ quote_str ++ ": " ++ quote_str
  ++ "B" ++ quote_str ++ "}]".

(** [[[1,"\ud800"]]]: a list with a str that is one lone surrogate,
    written as an escape. *)
Definition surrogate_text : string :=
  "[[1," ++ quote_str ++ "\ud800" ++ quote_str ++ "]]".

Definition lone_surrogate : string :=
  String (byte 237) (String (byte 160) (String (byte 128) EmptyString)).

Definition surrogate_document : json :=
  JList [JList [JInt 1; JStr lone_surrogate]].

(** What is in the file when the encoder meets the surrogate. *)
Definition surrogate_remains : string :=
  "[" ++ newline_indent 1 ++ "[" ++ newline_indent 2 ++ "1".

Definition nan_text : string := "[NaN]".

(** Opening brackets, one in the other. *)
Fixpoint brackets (n : nat) : string :=
  match n with
  | O => EmptyString
  | S n' => String "[" (brackets n')
  end.

(** More brackets than the sample interpreter allows levels. *)
Definition deep_text : string := brackets 1001.

(** *** Properties of texts and of documents, for the statements below *)

(** A character that can start a value: no whitespace and none of the
    marks that follow a value. *)
Definition value_start (c : ascii) : bool :=
  negb (is_ws c || Ascii.eqb c "]" || Ascii.eqb c "}" || Ascii.eqb c ","
        || Ascii.eqb c ":").

(** A document the decoder reads back from its text: nested no deeper
    than [n], no key twice in a dict, every float read back from its
    [repr]. *)
Definition good (py : python) (n : nat) (v : json) : Prop :=
  json_depth v <= n /\ json_ok v = true /\ floats_ok py v = true.

(** A document as the decoder makes it: no key twice in a dict, nested no
    deeper than [n]. *)
Definition decoded (n : nat) (v : json) : Prop :=
  json_ok v = true /\ json_depth v <= n.

(** The exceptions of the decoder. *)
Definition decoder_error (e : exn) : Prop :=
  e = ValueError \/ e = RecursionError.

(** The first character of a value. *)
Definition value_first (k : bool) (c : ascii) : bool :=
  is_digit c || Ascii.eqb c "-" || Ascii.eqb c quote || Ascii.eqb c "["
  || Ascii.eqb c "{" || Ascii.eqb c "n" || Ascii.eqb c "t" || Ascii.eqb c "f"
  || (k && (Ascii.eqb c "N" || Ascii.eqb c "I")).

(** ** The stage on documents of records *)

Lemma loop_body_record (r : dict) :
  loop_body (JDict r) = Ok (JDict (strip_record r)).
Proof.
  unfold loop_body, strip_record, py_contains, py_delitem, bind.
  destruct (dict_contains embedding r); reflexivity.
Qed.

Lemma for_each_records (rs : list dict) :
  for_each loop_body (map JDict rs) = Ok (map JDict (map strip_record rs)).
Proof.
  induction rs as [|r rs IH]; simpl; [reflexivity|].
  rewrite loop_body_record; simpl. rewrite IH; reflexivity.
Qed.

Lemma strip_document (rs : list dict) :
  strip (document rs) = Ok (document (map strip_record rs)).
Proof.
  unfold strip, document; simpl. rewrite for_each_records; reflexivity.
Qed.

(** C1: the stripping stage maps a document of records to a document with
    as many records, the record at every position being the input's record
    at that position, stripped; the empty document maps to itself. *)
Theorem strip_preserves_length_and_order (rs : list dict) :
  exists out : list dict,
    strip (document rs) = Ok (document out)
    /\ List.length out = List.length rs
    /\ (forall i : nat,
          nth_error out i = option_map strip_record (nth_error rs i))
    /\ strip (document []) = Ok (document []).
Proof.
  exists (map strip_record rs). split; [apply strip_document|].
  split; [apply length_map|]. split; [|reflexivity].
  intro i. apply nth_error_map.
Qed.

(** ** Facts about dicts *)

Lemma dict_contains_delitem_other (k k' : string) (d : dict) :
  String.eqb k k' = false ->
  dict_contains k (dict_delitem k' d) = dict_contains k d.
Proof.
  intro Hne. induction d as [|[k0 v] d IH]; simpl; [reflexivity|].
  destruct (String.eqb k' k0) eqn:E0; simpl.
  - apply String.eqb_eq in E0; subst k0. rewrite Hne; reflexivity.
  - rewrite IH; reflexivity.
Qed.

Lemma unique_keys_delitem (k : string) (d : dict) :
  unique_keys d = true -> unique_keys (dict_delitem k d) = true.
Proof.
  induction d as [|[k0 v] d IH]; simpl; [reflexivity|].
  intro H. apply andb_true_iff in H as [Hk0 Hd].
  destruct (String.eqb k k0) eqn:E0; [exact Hd|].
  simpl. rewrite IH by exact Hd. rewrite andb_true_r.
  destruct (String.eqb k0 k) eqn:E1.
  - apply String.eqb_eq in E1; subst k0.
    rewrite String.eqb_refl in E0; discriminate.
  - rewrite dict_contains_delitem_other by exact E1. exact Hk0.
Qed.

(** In a dict, the key that was deleted is no longer there. *)
Lemma dict_contains_delitem_same (k : string) (d : dict) :
  unique_keys d = true -> dict_contains k (dict_delitem k d) = false.
Proof.
  induction d as [|[k0 v] d IH]; simpl; [reflexivity|].
  intro H. apply andb_true_iff in H as [Hk0 Hd].
  destruct (String.eqb k k0) eqn:E0.
  - apply String.eqb_eq in E0; subst k0.
    apply negb_true_iff in Hk0; exact Hk0.
  - simpl. rewrite E0, IH by exact Hd. reflexivity.
Qed.

Lemma filter_absent (k : string) (d : dict) :
  dict_contains k d = false -> filter (other_key k) d = d.
Proof.
  induction d as [|[k0 v] d IH]; simpl; [reflexivity|].
  intro H. apply orb_false_iff in H as [Hk Hd].
  unfold other_key at 1; simpl. rewrite Hk; simpl.
  rewrite IH by exact Hd; reflexivity.
Qed.

Lemma dict_delitem_filter (k : string) (d : dict) :
  unique_keys d = true ->
  dict_delitem k d = filter (other_key k) d.
Proof.
  induction d as [|[k0 v] d IH]; simpl; [reflexivity|].
  intro H. apply andb_true_iff in H as [Hk0 Hd].
  unfold other_key at 1; simpl.
  destruct (String.eqb k k0) eqn:E0; simpl.
  - apply String.eqb_eq in E0; subst k0.
    apply negb_true_iff in Hk0. symmetry; apply filter_absent; exact Hk0.
  - rewrite IH by exact Hd; reflexivity.
Qed.

Lemma strip_record_filter (r : dict) :
  unique_keys r = true -> strip_record r = filter not_embedding r.
Proof.
  intro H. unfold strip_record, not_embedding.
  destruct (dict_contains embedding r) eqn:E.
  - apply dict_delitem_filter; exact H.
  - symmetry; apply filter_absent; exact E.
Qed.

Lemma dict_get_delitem_other (k k' : string) (d : dict) :
  String.eqb k k' = false ->
  dict_get k (dict_delitem k' d) = dict_get k d.
Proof.
  intro Hne. induction d as [|[k0 v] d IH]; simpl; [reflexivity|].
  destruct (String.eqb k' k0) eqn:E0; simpl.
  - apply String.eqb_eq in E0; subst k0. rewrite Hne; reflexivity.
  - rewrite IH; reflexivity.
Qed.

Lemma dict_get_strip_record (k : string) (r : dict) :
  String.eqb k embedding = false ->
  dict_get k (strip_record r) = dict_get k r.
Proof.
  intro Hne. unfold strip_record.
  destruct (dict_contains embedding r); [|reflexivity].
  apply dict_get_delitem_other; exact Hne.
Qed.

(** The stage looks at keys only: it commutes with any change of the
    values. *)
Lemma dict_contains_map_values (g : json -> json) (k : string) (d : dict) :
  dict_contains k (map_values g d) = dict_contains k d.
Proof.
  induction d as [|[k0 v] d IH]; simpl; [reflexivity|].
  rewrite IH; reflexivity.
Qed.

Lemma dict_delitem_map_values (g : json -> json) (k : string) (d : dict) :
  dict_delitem k (map_values g d) = map_values g (dict_delitem k d).
Proof.
  induction d as [|[k0 v] d IH]; simpl; [reflexivity|].
  destruct (String.eqb k k0); simpl; [reflexivity|].
  rewrite IH; reflexivity.
Qed.

Lemma strip_record_map_values (g : json -> json) (r : dict) :
  strip_record (map_values g r) = map_values g (strip_record r).
Proof.
  unfold strip_record. rewrite dict_contains_map_values.
  destruct (dict_contains embedding r); [|reflexivity].
  apply dict_delitem_map_values.
Qed.

(** C2: on a record, the loop body returns the record without its entry
    for ["embedding"]: the entries of all other keys stay, with their
    values and in their order; every other key is looked up as before; and
    the result does not depend on the values, which the body never
    reads. *)
Theorem strip_removes_only_embedding (r : dict) :
  unique_keys r = true ->
  loop_body (JDict r) = Ok (JDict (filter not_embedding r))
  /\ (forall k : string,
        k <> embedding ->
        dict_get k (strip_record r) = dict_get k r)
  /\ (forall g : json -> json,
        strip_record (map_values g r) = map_values g (strip_record r)).
Proof.
  intro H. split; [|split].
  - rewrite loop_body_record, strip_record_filter by exact H. reflexivity.
  - intros k Hk. apply dict_get_strip_record.
    apply String.eqb_neq; exact Hk.
  - intro g. apply strip_record_map_values.
Qed.

(** ** Running the stage a second time *)

Ltac body_cases :=
  unfold loop_body, py_contains, py_delitem, bind.

Lemma loop_body_fixed (qa qa' : json) :
  element_ok qa = true ->
  loop_body qa = Ok qa' ->
  loop_body qa' = Ok qa'.
Proof.
  intros Hok Hrun. destruct qa as [| b | z | f | s | l | d]; revert Hrun;
    body_cases; try discriminate.
  - destruct (str_contains embedding s) eqn:E; [discriminate|].
    intro H; injection H as <-. body_cases. rewrite E; reflexivity.
  - destruct (existsb (eq_str embedding) l) eqn:E; [discriminate|].
    intro H; injection H as <-. body_cases. rewrite E; reflexivity.
  - destruct (dict_contains embedding d) eqn:E;
      intro H; injection H as <-; body_cases.
    + rewrite dict_contains_delitem_same by exact Hok. reflexivity.
    + rewrite E; reflexivity.
Qed.

Lemma for_each_inv {A B : Type} (body : A -> result B) (x : A)
      (rest : list A) (out : list B) :
  for_each body (x :: rest) = Ok out ->
  exists y ys, body x = Ok y /\ for_each body rest = Ok ys /\ out = y :: ys.
Proof.
  simpl. unfold bind.
  destruct (body x) as [y|e]; [|discriminate].
  destruct (for_each body rest) as [ys|e]; [|discriminate].
  intro H; injection H as <-. exists y, ys. repeat split.
Qed.

Lemma for_each_fixed (l l' : list json) :
  forallb element_ok l = true ->
  for_each loop_body l = Ok l' ->
  for_each loop_body l' = Ok l'.
Proof.
  revert l'. induction l as [|qa l IH]; intros l' Hok Hrun.
  - simpl in Hrun. injection Hrun as <-. reflexivity.
  - apply for_each_inv in Hrun as (qa' & out & Hqa & Hout & ->).
    simpl in Hok. apply andb_true_iff in Hok as [Hqa_ok Hl_ok].
    simpl. rewrite (loop_body_fixed qa qa' Hqa_ok Hqa).
    unfold bind. rewrite (IH out Hl_ok Hout). reflexivity.
Qed.

(** C3: stripping twice is stripping once, for every document: when the
    stage returns a document, the stage returns that same document on it;
    when it raises, the second run is not reached. *)
Theorem strip_idempotent (data : json) :
  records_ok data = true ->
  (data' <- strip data ;; strip data') = strip data.
Proof.
  intro Hok. destruct (strip data) as [data'|e] eqn:Hrun; [|reflexivity].
  unfold bind. destruct data as [| b | z | f | s | l | d];
    try discriminate.
  - (* a str: unchanged *)
    assert (data' = JStr s) as ->; [|exact Hrun].
    revert Hrun. unfold strip, bind, py_iter.
    destruct (for_each loop_body _); [|discriminate].
    intro H; injection H as <-; reflexivity.
  - (* a list: its elements are fixed by the body *)
    revert Hrun. unfold strip, bind, py_iter.
    destruct (for_each loop_body l) as [items'|e] eqn:Hitems; [|discriminate].
    intro H; injection H as <-.
    rewrite (for_each_fixed l items' Hok Hitems). reflexivity.
  - (* a dict: unchanged *)
    assert (data' = JDict d) as ->; [|exact Hrun].
    revert Hrun. unfold strip, bind, py_iter.
    destruct (for_each loop_body _); [|discriminate].
    intro H; injection H as <-; reflexivity.
Qed.

(** ** Records without the key, and what lies inside the values *)

Lemma strip_record_absent (r : dict) :
  dict_contains embedding r = false -> strip_record r = r.
Proof. unfold strip_record. intros ->. reflexivity. Qed.

(** C4: a record of the document that has no key ["embedding"] is, after
    the stage, the same record at the same position: same keys, same
    values, same order. *)
Theorem record_without_embedding_unchanged
        (rs : list dict) (i : nat) (r : dict) :
  nth_error rs i = Some r ->
  dict_contains embedding r = false ->
  exists out : list dict,
    strip (document rs) = Ok (document out)
    /\ nth_error out i = Some r.
Proof.
  intros Hi Habsent. exists (map strip_record rs).
  split; [apply strip_document|].
  rewrite nth_error_map, Hi. simpl.
  rewrite strip_record_absent by exact Habsent. reflexivity.
Qed.

Lemma in_strip_record (r : dict) (k : string) (v : json) :
  k <> embedding -> In (k, v) r -> In (k, v) (strip_record r).
Proof.
  intros Hk Hin. unfold strip_record.
  destruct (dict_contains embedding r); [|exact Hin].
  induction r as [|[k0 v0] r IH]; [contradiction|].
  cbn [dict_delitem]. destruct (String.eqb embedding k0) eqn:E0.
  - destruct Hin as [Hhd|Htl]; [|exact Htl].
    injection Hhd as -> ->. apply String.eqb_eq in E0. congruence.
  - destruct Hin as [Hhd|Htl]; [left; exact Hhd|right; apply IH; exact Htl].
Qed.

(** C9, as amended: the stage deletes the top-level entry of
    ["embedding"], with its value, and nothing else. The stripped record
    has no top-level key ["embedding"], it is the record without that
    entry, and every other key [k] keeps its entry and its value [v]
    whatever [v] is: a dict inside [v] with a key ["embedding"], at any
    depth and inside any list, is part of [v] and stays. *)
Theorem nested_embedding_preserved
        (rs : list dict) (i : nat) (r : dict) :
  nth_error rs i = Some r ->
  unique_keys r = true ->
  exists (out : list dict) (r' : dict),
    strip (document rs) = Ok (document out)
    /\ nth_error out i = Some r'
    /\ dict_contains embedding r' = false
    /\ r' = filter not_embedding r
    /\ (forall (k : string) (v : json),
          k <> embedding -> In (k, v) r -> In (k, v) r')
    /\ (forall (k : string) (v : json),
          k <> embedding -> dict_get k r = Some v -> dict_get k r' = Some v).
Proof.
  intros Hi Hu. exists (map strip_record rs), (strip_record r).
  split; [apply strip_document|]. split.
  { rewrite nth_error_map, Hi. reflexivity. }
  split.
  { unfold strip_record.
    destruct (dict_contains embedding r) eqn:E; [|exact E].
    apply dict_contains_delitem_same; exact Hu. }
  split; [apply strip_record_filter; exact Hu|]. split.
  - intros k v Hk Hin. apply in_strip_record; assumption.
  - intros k v Hk Hv. rewrite dict_get_strip_record; [exact Hv|].
    apply String.eqb_neq; exact Hk.
Qed.

(** ** Elements that are not dicts *)

Lemma loop_body_plain (qa : json) :
  plain_sequence qa = true -> loop_body qa = Ok qa.
Proof.
  destruct qa as [| b | z | f | s | l | d]; try discriminate;
    unfold plain_sequence; intro H; apply negb_true_iff in H;
    body_cases; rewrite H; reflexivity.
Qed.

Lemma loop_body_raises (qa : json) :
  body_raises qa = true ->
  loop_body qa = Raise (TypeError (raising_operation qa)).
Proof.
  destruct qa as [| b | z | f | s | l | d]; try discriminate;
    try reflexivity; unfold body_raises; intro H;
    body_cases; rewrite H; reflexivity.
Qed.

Lemma loop_body_total (qa : json) :
  body_raises qa = false -> exists qa', loop_body qa = Ok qa'.
Proof.
  destruct qa as [| b | z | f | s | l | d]; try discriminate;
    unfold body_raises; intro H.
  - exists (JStr s). body_cases. rewrite H; reflexivity.
  - exists (JList l). body_cases. rewrite H; reflexivity.
  - rewrite loop_body_record. eexists; reflexivity.
Qed.

Lemma for_each_raises (l : list json) :
  existsb body_raises l = true ->
  exists k, for_each loop_body l = Raise (TypeError k).
Proof.
  induction l as [|qa l IH]; simpl; [discriminate|].
  destruct (body_raises qa) eqn:E; simpl.
  - intros _. rewrite loop_body_raises by exact E.
    eexists; reflexivity.
  - intro H. destruct (loop_body_total qa E) as [qa' ->].
    destruct (IH H) as [k ->]. exists k; reflexivity.
Qed.

Lemma for_each_passes (l : list json) :
  forallb (fun qa => plain_sequence qa || is_dict qa) l = true ->
  exists out,
    for_each loop_body l = Ok out
    /\ List.length out = List.length l
    /\ (forall i qa, nth_error l i = Some qa ->
                     plain_sequence qa = true -> nth_error out i = Some qa).
Proof.
  induction l as [|qa l IH]; simpl.
  - intros _. exists []. repeat split. intros [|i] qa H; discriminate.
  - intro H. apply andb_true_iff in H as [Hqa Hl].
    destruct (IH Hl) as (out & Hout & Hlen & Hnth).
    assert (exists qa', loop_body qa = Ok qa'
                        /\ (plain_sequence qa = true -> qa' = qa))
      as (qa' & Hbody & Hsame).
    { destruct (plain_sequence qa) eqn:E.
      - exists qa. split; [apply loop_body_plain; exact E | reflexivity].
      - destruct qa as [| b | z | f | s | l0 | d]; try discriminate.
        rewrite loop_body_record. eexists; split; [reflexivity|discriminate]. }
    exists (qa' :: out). rewrite Hbody; simpl. rewrite Hout; simpl.
    split; [reflexivity|]. split; [congruence|].
    intros [|i] x Hx Hplain; simpl in *.
    + injection Hx as <-. rewrite Hsame by exact Hplain. reflexivity.
    + apply Hnth; assumption.
Qed.

(** C8, as amended: the stage raises [TypeError] on every list document
    with an element that is [None], a bool, a number, a str with the
    substring ["embedding"] or a list with the member ["embedding"]; on
    such an element the body raises at the membership test (the first
    three) or at the deletion (the last two). *)
Theorem strip_raises_on_bad_element (els : list json) :
  existsb body_raises els = true ->
  (exists k : type_error, strip (JList els) = Raise (TypeError k))
  /\ (forall qa : json,
        In qa els -> body_raises qa = true ->
        loop_body qa = Raise (TypeError (raising_operation qa))).
Proof.
  intro H. split.
  - destruct (for_each_raises els H) as [k Hk].
    exists k. unfold strip, py_iter, bind. rewrite Hk; reflexivity.
  - intros qa _ Hqa. apply loop_body_raises; exact Hqa.
Qed.

(** C10: on a str without the substring ["embedding"] and on a list
    without the member ["embedding"] the loop body raises nothing and
    returns the element as it is; a list document of such elements and of
    records is stripped without an exception, with these elements
    unchanged at their positions. *)
Theorem plain_sequences_pass_unchanged (els : list json) :
  forallb (fun qa => plain_sequence qa || is_dict qa) els = true ->
  (forall qa : json,
     In qa els -> plain_sequence qa = true ->
     py_contains embedding qa = Ok false /\ loop_body qa = Ok qa)
  /\ exists out : list json,
       strip (JList els) = Ok (JList out)
       /\ List.length out = List.length els
       /\ (forall (i : nat) (qa : json),
             nth_error els i = Some qa ->
             plain_sequence qa = true ->
             nth_error out i = Some qa).
Proof.
  intro H. split.
  - intros qa _ Hqa. split; [|apply loop_body_plain; exact Hqa].
    destruct qa as [| b | z | f | s | l | d]; try discriminate;
      unfold plain_sequence in Hqa; apply negb_true_iff in Hqa;
      unfold py_contains; rewrite Hqa; reflexivity.
  - destruct (for_each_passes els H) as (out & Hout & Hlen & Hnth).
    exists out. unfold strip, py_iter, bind. rewrite Hout.
    repeat split; assumption.
Qed.

(** ** The script as a whole *)

Section ScriptProperties.

Variable json_load : string -> result json.
Variable json_dump : json -> string * option exn.

Lemma loader_unfold (w : world) :
  loader json_load w =
  match readable_content (path w) with
  | None =>
      (w, Raise match path w with
                | Absent => FileNotFoundError
                | _ => PermissionError
                end)
  | Some content => (record_event OpenRead w, json_load content)
  end.
Proof.
  unfold loader, io_bind, open_read, readable_content, lift.
  destruct (path w) as [|[|] wr c]; reflexivity.
Qed.

Lemma run_unfold (f : file) :
  run json_load json_dump f =
  match loader json_load (World f []) with
  | (w, Raise e) => (w, Raise e)
  | (w, Ok data) =>
      match strip data with
      | Raise e => (w, Raise e)
      | Ok data' => writer json_dump data' w
      end
  end.
Proof.
  unfold run, remove_embeddings, io_bind, lift.
  destruct (loader json_load (World f [])) as [w [data|e]];
    [|reflexivity].
  destruct (strip data); reflexivity.
Qed.

Lemma loader_log (f : file) :
  path (fst (loader json_load (World f []))) = f
  /\ (log (fst (loader json_load (World f []))) = []
      \/ log (fst (loader json_load (World f []))) = [OpenRead]).
Proof.
  rewrite loader_unfold; simpl.
  destruct (readable_content f); simpl; auto.
Qed.

Lemma writer_opens (data : json) (w : world) :
  In OpenWrite (log (fst (writer json_dump data w)))
  \/ fst (writer json_dump data w) = w.
Proof.
  unfold writer, io_bind, open_write, write, ret, raise.
  destruct (path w) as [|r [|] c]; simpl.
  - left. destruct (snd (json_dump data)); simpl;
      rewrite !in_app_iff; simpl; auto.
  - left. destruct (snd (json_dump data)); simpl;
      rewrite !in_app_iff; simpl; auto.
  - right; reflexivity.
Qed.

(** C6: when the loader or the stripping stage raises, the run ends
    with that exception, the file is what it was and it was never
    opened for writing; a run that opened the file for writing had
    its document parsed and stripped before. *)
Theorem failure_before_write_keeps_file (f : file) :
  (forall e : exn,
     snd (loader json_load (World f [])) = Raise e
     \/ (exists data, snd (loader json_load (World f [])) = Ok data
                      /\ strip data = Raise e) ->
     snd (run json_load json_dump f) = Raise e
     /\ path (fst (run json_load json_dump f)) = f
     /\ (forall ev, In ev (log (fst (run json_load json_dump f))) -> ev = OpenRead))
  /\ (In OpenWrite (log (fst (run json_load json_dump f))) ->
      exists data data',
        snd (loader json_load (World f [])) = Ok data /\ strip data = Ok data').
Proof.
  rewrite run_unfold.
  destruct (loader_log f) as [Hpath Hlog].
  destruct (loader json_load (World f [])) as [w [data|e0]] eqn:Hload;
    simpl in Hpath, Hlog.
  - destruct (strip data) as [data'|e1] eqn:Hstrip.
    + split.
      * intros e [H | (d & Hd & He)]; simpl in *; [discriminate|].
        injection Hd as <-. congruence.
      * intros _. exists data, data'. split; [reflexivity|exact Hstrip].
    + split.
      * intros e [H | (d & Hd & He)]; simpl in *; [discriminate|].
        injection Hd as <-. rewrite Hstrip in He. injection He as <-.
        repeat split; [exact Hpath|].
        intros ev Hev. destruct Hlog as [Hl|Hl]; rewrite Hl in Hev;
          simpl in Hev; intuition.
      * simpl. intro Hin. exfalso.
        destruct Hlog as [Hl|Hl]; rewrite Hl in Hin; simpl in Hin;
          intuition discriminate.
  - split.
    + intros e [H | (d & Hd & He)]; simpl in *; [|discriminate].
      injection H as <-. repeat split; [exact Hpath|].
      intros ev Hev. destruct Hlog as [Hl|Hl]; rewrite Hl in Hev;
        simpl in Hev; intuition.
    + simpl. intro Hin. exfalso.
      destruct Hlog as [Hl|Hl]; rewrite Hl in Hin; simpl in Hin;
        intuition discriminate.
Qed.

End ScriptProperties.

(** ** The scenarios of the specification, and sample runs *)

Example scenario_record_without_embedding :
  strip (document [record_b]) = Ok (document [record_b]).
Proof. reflexivity. Qed.

Example scenario_empty_document : strip (document []) = Ok (document []).
Proof. reflexivity. Qed.

Example scenario_mixed_document :
  strip (document mixed_document)
  = Ok (document [[("q", JStr "A")]; [("q", JStr "B")]]).
Proof. reflexivity. Qed.

Example top_level_dict_is_iterated_by_key :
  strip (JDict record_b) = Ok (JDict record_b)
  /\ strip (JDict record_a) = Raise (TypeError NoItemDeletion).
Proof. split; reflexivity. Qed.

Example top_level_number_is_not_iterable :
  strip (JInt 5) = Raise (TypeError NotIterable).
Proof. reflexivity. Qed.

Example good_run :
  run sample_load sample_dump good_file
  = (World (Regular true true ("[" ++ newline ++ "  {}" ++ newline ++ "]"))
           [OpenRead; OpenWrite;
            Write ("[" ++ newline ++ "  {}" ++ newline ++ "]")],
     Ok tt).
Proof. reflexivity. Qed.

(** ** The theorems at concrete inputs *)

Lemma strip_removes_only_embedding_witness :
  unique_keys record_a = true
  /\ loop_body (JDict record_a) = Ok (JDict [("q", JStr "A")]).
Proof.
  split; [reflexivity|].
  exact (proj1 (strip_removes_only_embedding record_a eq_refl)).
Defined.

Lemma strip_idempotent_witness :
  records_ok (document mixed_document) = true
  /\ (data' <- strip (document mixed_document) ;; strip data')
     = strip (document mixed_document).
Proof.
  split; [reflexivity|].
  exact (strip_idempotent (document mixed_document) eq_refl).
Defined.

Lemma record_without_embedding_unchanged_witness :
  nth_error mixed_document 1 = Some record_b
  /\ dict_contains embedding record_b = false
  /\ exists out : list dict,
       strip (document mixed_document) = Ok (document out)
       /\ nth_error out 1 = Some record_b.
Proof.
  split; [reflexivity|]. split; [reflexivity|].
  exact (record_without_embedding_unchanged
           mixed_document 1 record_b eq_refl eq_refl).
Defined.

Lemma nested_embedding_preserved_witness :
  nth_error [record_b; nested_record] 1 = Some nested_record
  /\ unique_keys nested_record = true
  /\ mentions_embedding nested_value = true
  /\ exists (out : list dict) (r' : dict),
       strip (document [record_b; nested_record]) = Ok (document out)
       /\ nth_error out 1 = Some r'
       /\ dict_contains embedding r' = false
       /\ r' = filter not_embedding nested_record
       /\ (forall (k : string) (v : json),
             k <> embedding -> In (k, v) nested_record -> In (k, v) r')
       /\ (forall (k : string) (v : json),
             k <> embedding ->
             dict_get k nested_record = Some v -> dict_get k r' = Some v).
Proof.
  split; [reflexivity|]. split; [reflexivity|]. split; [reflexivity|].
  exact (nested_embedding_preserved
           [record_b; nested_record] 1 nested_record eq_refl eq_refl).
Defined.

(** C9 as stated fails: a dict with the key ["embedding"] that lies
    inside the value of the top-level entry ["embedding"] is a nested key
    within a value of the record, and it goes with that entry. *)
Lemma nested_key_under_embedding_is_lost :
  In (embedding, shadowed_value) shadowed_record
  /\ mentions_embedding shadowed_value = true
  /\ strip (document [shadowed_record]) = Ok (document [[]])
  /\ ~ In (embedding, shadowed_value) [].
Proof.
  split; [left; reflexivity|]. split; [reflexivity|].
  split; [reflexivity|]. intros [].
Qed.

Lemma strip_raises_on_bad_element_witness :
  existsb body_raises record_then_number = true
  /\ exists k : type_error,
       strip (JList record_then_number) = Raise (TypeError k).
Proof.
  split; [reflexivity|].
  exact (proj1 (strip_raises_on_bad_element record_then_number eq_refl)).
Defined.

Lemma plain_sequences_pass_unchanged_witness :
  forallb (fun qa => plain_sequence qa || is_dict qa) plain_elements = true
  /\ exists out : list json,
       strip (JList plain_elements) = Ok (JList out)
       /\ List.length out = List.length plain_elements
       /\ (forall (i : nat) (qa : json),
             nth_error plain_elements i = Some qa ->
             plain_sequence qa = true ->
             nth_error out i = Some qa).
Proof.
  split; [reflexivity|].
  exact (proj2 (plain_sequences_pass_unchanged plain_elements eq_refl)).
Defined.

(** C8 as stated fails: a list document whose only element is a str, not
    a dict, is stripped without any exception. *)
Lemma str_element_raises_nothing :
  existsb (fun qa => negb (is_dict qa)) plain_elements = true
  /\ ~ (exists e : exn, strip (JList plain_elements) = Raise e).
Proof.
  split; [reflexivity|].
  intros [e H]. vm_compute in H. discriminate H.
Qed.

Lemma failure_before_write_keeps_file_witness :
  snd (run sample_load sample_dump cut_off_file) = Raise ValueError
  /\ path (fst (run sample_load sample_dump cut_off_file)) = cut_off_file
  /\ snd (run sample_load sample_dump number_file)
     = Raise (TypeError NotContainer)
  /\ path (fst (run sample_load sample_dump number_file)) = number_file.
Proof.
  pose proof (proj1 (failure_before_write_keeps_file
                       sample_load sample_dump cut_off_file)
                ValueError (or_introl eq_refl)) as H1.
  pose proof (proj1 (failure_before_write_keeps_file
                       sample_load sample_dump number_file)
                (TypeError NotContainer)
                (or_intror (ex_intro _ (JList [JInt 5])
                                     (conj eq_refl eq_refl)))) as H2.
  exact (conj (proj1 H1) (conj (proj1 (proj2 H1))
          (conj (proj1 H2) (proj1 (proj2 H2))))).
Defined.

(** ** The loop on any list, any dict and any str *)

Lemma loop_body_outcome (qa : json) :
  loop_body qa =
  if body_raises qa then Raise (TypeError (raising_operation qa))
  else Ok (strip_element qa).
Proof.
  destruct (body_raises qa) eqn:E.
  - apply loop_body_raises; exact E.
  - destruct qa as [| b | z | f | s | l | d]; try discriminate;
      unfold body_raises in E.
    + body_cases. rewrite E; reflexivity.
    + body_cases. rewrite E; reflexivity.
    + apply loop_body_record.
Qed.

Lemma for_each_outcome (l : list json) :
  for_each loop_body l =
  match find body_raises l with
  | Some qa => Raise (TypeError (raising_operation qa))
  | None => Ok (map strip_element l)
  end.
Proof.
  induction l as [|qa l IH]; [reflexivity|].
  cbn [for_each find map]. rewrite loop_body_outcome.
  destruct (body_raises qa); [reflexivity|].
  unfold bind at 1. rewrite IH.
  destruct (find body_raises l); reflexivity.
Qed.

(** The loop on a list document, in full: it raises the [TypeError] of the
    first element the body raises on, and without such an element returns
    the list of the elements as the body leaves them. *)
Theorem strip_list_outcome (els : list json) :
  strip (JList els) =
  match find body_raises els with
  | Some qa => Raise (TypeError (raising_operation qa))
  | None => Ok (JList (map strip_element els))
  end.
Proof.
  unfold strip, py_iter. unfold bind at 1. rewrite for_each_outcome.
  destruct (find body_raises els); reflexivity.
Qed.

Lemma strip_record_clean (r : dict) :
  unique_keys r = true -> dict_contains embedding (strip_record r) = false.
Proof.
  intro H. unfold strip_record.
  destruct (dict_contains embedding r) eqn:E; [|exact E].
  apply dict_contains_delitem_same; exact H.
Qed.

Lemma for_each_ok_map (l out : list json) :
  for_each loop_body l = Ok out -> out = map strip_element l.
Proof.
  rewrite for_each_outcome.
  destruct (find body_raises l); [discriminate|].
  intro H; injection H as <-; reflexivity.
Qed.

Lemma strip_list_ok_map (els : list json) (data' : json) :
  strip (JList els) = Ok data' -> data' = JList (map strip_element els).
Proof.
  unfold strip, py_iter. unfold bind at 1. rewrite for_each_outcome.
  destruct (find body_raises els); [discriminate|].
  intro H; injection H as <-; reflexivity.
Qed.

(** After the loop no dict of the list document holds the key
    ["embedding"] at its top level. *)
Theorem stripped_document_has_no_embedding (els : list json) (data' : json) :
  records_ok (JList els) = true ->
  strip (JList els) = Ok data' ->
  exists out : list json,
    data' = JList out /\ existsb has_embedding out = false.
Proof.
  intros Hok Hrun. apply strip_list_ok_map in Hrun. subst data'.
  exists (map strip_element els). split; [reflexivity|].
  unfold records_ok in Hok.
  induction els as [|qa els IH]; [reflexivity|].
  cbn [forallb] in Hok. apply andb_true_iff in Hok as [Hqa Hels].
  cbn [map existsb]. rewrite (IH Hels), orb_false_r.
  destruct qa as [| b | z | f | s | l | d]; try reflexivity.
  apply strip_record_clean; exact Hqa.
Qed.

Lemma string_chars_pass (cs : list ascii) :
  for_each loop_body (map (fun c => JStr (String c EmptyString)) cs)
  = Ok (map (fun c => JStr (String c EmptyString)) cs).
Proof.
  induction cs as [|c cs IH]; [reflexivity|].
  cbn [map for_each].
  assert (loop_body (JStr (String c EmptyString))
          = Ok (JStr (String c EmptyString))) as ->.
  { body_cases. unfold embedding. cbn [str_contains String.prefix].
    destruct (ascii_dec _ c); reflexivity. }
  unfold bind at 1. rewrite IH. reflexivity.
Qed.

Lemma keys_outcome (ks : list string) :
  for_each loop_body (map JStr ks) =
  if existsb (str_contains embedding) ks
  then Raise (TypeError NoItemDeletion)
  else Ok (map JStr ks).
Proof.
  induction ks as [|k ks IH]; [reflexivity|].
  cbn [map for_each existsb]. rewrite loop_body_outcome.
  unfold body_raises, raising_operation, strip_element.
  destruct (str_contains embedding k); [reflexivity|].
  unfold bind at 1. rewrite IH. cbn [orb].
  destruct (existsb (str_contains embedding) ks); reflexivity.
Qed.

(** A document that is one dict, not a list of dicts, is iterated by its
    keys: it is never stripped. The loop raises [TypeError] when a key has
    ["embedding"] as a substring and otherwise leaves the dict as it is. *)
Theorem strip_top_level_dict (d : dict) :
  strip (JDict d) =
  if existsb (str_contains embedding) (keys d)
  then Raise (TypeError NoItemDeletion)
  else Ok (JDict d).
Proof.
  unfold strip, py_iter. unfold bind at 1. rewrite keys_outcome.
  destruct (existsb (str_contains embedding) (keys d)); reflexivity.
Qed.

(** A document that is a str is iterated by its characters, none of which
    has ["embedding"] as a substring: the loop returns it as it is, also
    when the str itself contains ["embedding"]. *)
Theorem strip_top_level_str (s : string) : strip (JStr s) = Ok (JStr s).
Proof.
  unfold strip, py_iter. unfold bind at 1.
  rewrite string_chars_pass. reflexivity.
Qed.

Lemma for_each_raise_type (l : list json) (e : exn) :
  for_each loop_body l = Raise e -> is_type_error e = true.
Proof.
  rewrite for_each_outcome.
  destruct (find body_raises l); [|discriminate].
  intro H; injection H as <-; reflexivity.
Qed.

(** Whatever the parsed document is, the only exception of the loop is
    [TypeError]: the deletion is guarded by the membership test, so the
    loop never raises [KeyError]. *)
Theorem strip_raises_only_type_error (data : json) (e : exn) :
  strip data = Raise e -> is_type_error e = true.
Proof.
  unfold strip. destruct (py_iter data) as [items|e0] eqn:Hiter.
  - unfold bind at 1.
    destruct (for_each loop_body items) as [items'|e1] eqn:Hloop.
    + unfold bind. destruct data; discriminate.
    + unfold bind. intro H; injection H as <-.
      apply (for_each_raise_type items); exact Hloop.
  - unfold bind. intro H; injection H as <-.
    destruct data; try discriminate; injection Hiter as <-; reflexivity.
Qed.

Lemma strip_record_unique (r : dict) :
  unique_keys r = true -> unique_keys (strip_record r) = true.
Proof.
  intro H. unfold strip_record.
  destruct (dict_contains embedding r); [|exact H].
  apply unique_keys_delitem; exact H.
Qed.

Lemma strip_element_ok (qa : json) :
  element_ok qa = true -> element_ok (strip_element qa) = true.
Proof.
  destruct qa as [| b | z | f | s | l | d]; try (intros _; reflexivity).
  apply strip_record_unique.
Qed.

Lemma strip_non_list (data data' : json) :
  (forall l, data <> JList l) -> strip data = Ok data' -> data' = data.
Proof.
  intros Hnl. unfold strip.
  destruct (py_iter data) as [items|e0]; [|discriminate].
  unfold bind at 1.
  destruct (for_each loop_body items) as [items'|e1]; [|discriminate].
  unfold bind. destruct data as [| b | z | f | s | l | d];
    try (intro H; injection H as <-; reflexivity).
  exfalso. apply (Hnl l). reflexivity.
Qed.

(** The loop keeps the invariant of dicts: when no dict of the document
    holds a key twice, none does after the loop. *)
Theorem strip_keeps_unique_keys (data data' : json) :
  records_ok data = true ->
  strip data = Ok data' ->
  records_ok data' = true.
Proof.
  intros Hok Hrun.
  destruct data as [| b | z | f | s | l | d];
    try (apply strip_non_list in Hrun; [subst data'; reflexivity|];
         intros l0 Hl0; discriminate Hl0).
  apply strip_list_ok_map in Hrun. subst data'.
  unfold records_ok in *. rewrite forallb_forall in *.
  intros x Hx. apply in_map_iff in Hx as (qa & <- & Hqa).
  apply strip_element_ok. apply Hok; exact Hqa.
Qed.

Lemma strip_fixed (data data' : json) :
  records_ok data = true ->
  strip data = Ok data' ->
  strip data' = Ok data'.
Proof.
  intros Hok Hrun.
  destruct data as [| b | z | f | s | l | d];
    try (pose proof Hrun as Hsame;
         apply strip_non_list in Hsame; [subst data'; exact Hrun|];
         intros l0 Hl0; discriminate Hl0).
  revert Hrun. unfold strip, py_iter. unfold bind at 1.
  destruct (for_each loop_body l) as [items'|e] eqn:Hitems; [|discriminate].
  intro H; injection H as <-. unfold bind at 1.
  rewrite (for_each_fixed l items' Hok Hitems). reflexivity.
Qed.

(** ** The membership test and the deletion *)

Lemma prefix_append (n h : string) :
  String.prefix n h = true <-> exists post, h = n ++ post.
Proof.
  revert h. induction n as [|a n IH]; intro h.
  - split; [intros _; exists h; reflexivity|].
    intros _. destruct h; reflexivity.
  - destruct h as [|b h]; cbn [String.prefix].
    + split; [discriminate | intros [post H]; discriminate H].
    + destruct (ascii_dec a b) as [<-|Hne].
      * rewrite IH. split; intros [post H]; exists post.
        -- cbn [append]. rewrite <- H. reflexivity.
        -- cbn [append] in H. injection H as H. exact H.
      * split; [discriminate|]. intros [post H].
        cbn [append] in H. injection H as Hab _.
        exfalso. apply Hne. symmetry; exact Hab.
Qed.

(** [needle in hay] on two strs is true exactly when [hay] is some str,
    then [needle], then some str. *)
Theorem str_contains_substring (needle hay : string) :
  str_contains needle hay = true
  <-> exists pre post, hay = pre ++ needle ++ post.
Proof.
  induction hay as [|c hay IH]; cbn [str_contains].
  - rewrite orb_false_r, prefix_append. split.
    + intros [post H]. exists EmptyString, post. exact H.
    + intros (pre & post & H). destruct pre as [|a pre]; [|discriminate H].
      exists post. exact H.
  - rewrite orb_true_iff, prefix_append, IH. split.
    + intros [[post H] | (pre & post & H)].
      * exists EmptyString, post. exact H.
      * exists (String c pre), post. cbn [append]. rewrite H. reflexivity.
    + intros (pre & post & H). destruct pre as [|a pre].
      * left. exists post. exact H.
      * right. cbn [append] in H. injection H as _ H.
        exists pre, post. exact H.
Qed.

Lemma dict_get_delitem_same (k : string) (d : dict) :
  unique_keys d = true -> dict_get k (dict_delitem k d) = None.
Proof.
  induction d as [|[k0 v] d IH]; cbn [dict_delitem unique_keys];
    [reflexivity|].
  intro H. apply andb_true_iff in H as [Hk0 Hd].
  destruct (String.eqb k k0) eqn:E0.
  - apply String.eqb_eq in E0; subst k0. apply negb_true_iff in Hk0.
    clear IH Hd. induction d as [|[k1 v1] d IH]; [reflexivity|].
    cbn [dict_contains dict_get] in *.
    apply orb_false_iff in Hk0 as [H1 H2]. rewrite H1. apply IH; exact H2.
  - cbn [dict_get]. rewrite E0. apply IH; exact Hd.
Qed.

Lemma dict_delitem_length (k : string) (d : dict) :
  dict_contains k d = true ->
  S (List.length (dict_delitem k d)) = List.length d.
Proof.
  induction d as [|[k0 v] d IH]; cbn [dict_contains dict_delitem];
    [discriminate|].
  destruct (String.eqb k k0); [reflexivity|].
  cbn [orb List.length]. intro H. rewrite IH by exact H. reflexivity.
Qed.

(** [del d[k]] on a dict that holds [k] takes exactly one entry away:
    the dict is one entry shorter, [k] has no value any more, and every
    other key has the value it had. *)
Theorem delitem_removes_one_entry (k : string) (d : dict) :
  unique_keys d = true ->
  dict_contains k d = true ->
  py_delitem k (JDict d) = Ok (JDict (dict_delitem k d))
  /\ S (List.length (dict_delitem k d)) = List.length d
  /\ dict_get k (dict_delitem k d) = None
  /\ (forall k' : string,
        k' <> k -> dict_get k' (dict_delitem k d) = dict_get k' d).
Proof.
  intros Hu Hk. split; [|split; [|split]].
  - unfold py_delitem. rewrite Hk. reflexivity.
  - apply dict_delitem_length; exact Hk.
  - apply dict_get_delitem_same; exact Hu.
  - intros k' Hne. apply dict_get_delitem_other.
    apply String.eqb_neq; exact Hne.
Qed.

(** ** The write stage *)

Section WriteStage.

Variable json_load : string -> result json.
Variable json_dump : json -> string * option exn.

Lemma run_reaches_writer (wr : bool) (c : string) (d d' : json) :
  json_load c = Ok d ->
  strip d = Ok d' ->
  run json_load json_dump (Regular true wr c)
  = writer json_dump d' (World (Regular true wr c) [OpenRead]).
Proof.
  intros Hload Hstrip.
  unfold run, remove_embeddings, loader, io_bind, open_read, lift, ret.
  cbn [path log]. rewrite Hload. unfold record_event. cbn [path log app].
  rewrite Hstrip. reflexivity.
Qed.

Lemma writer_on_writable (c : string) (d' : json) :
  writer json_dump d' (World (Regular true true c) [OpenRead])
  = (World (Regular true true (fst (json_dump d')))
           [OpenRead; OpenWrite; Write (fst (json_dump d'))],
     match snd (json_dump d') with
     | None => Ok tt
     | Some e => Raise e
     end).
Proof.
  unfold writer, io_bind, open_write, write, ret, raise.
  cbn [path log app append].
  destruct (snd (json_dump d')); reflexivity.
Qed.

(** A run on a readable and writable file whose content parses, strips
    and serialises without exception ends with the file holding exactly
    the text of [json.dump] for the stripped document: nothing of the old
    content is left, the permissions are what they were. *)
Theorem run_writes_stripped_document (c txt : string) (d d' : json) :
  json_load c = Ok d ->
  strip d = Ok d' ->
  json_dump d' = (txt, None) ->
  run json_load json_dump (Regular true true c)
  = (World (Regular true true txt) [OpenRead; OpenWrite; Write txt], Ok tt).
Proof.
  intros Hload Hstrip Hdump.
  rewrite (run_reaches_writer true c d d' Hload Hstrip), writer_on_writable.
  rewrite Hdump. reflexivity.
Qed.

(** On a file that can be read but not written the run parses and strips
    and then fails with [PermissionError] at [open(..., 'w')]: the file
    is not cut and keeps its content. *)
Theorem run_on_read_only_file (c : string) (d d' : json) :
  json_load c = Ok d ->
  strip d = Ok d' ->
  run json_load json_dump (Regular true false c)
  = (World (Regular true false c) [OpenRead], Raise PermissionError).
Proof.
  intros Hload Hstrip.
  rewrite (run_reaches_writer false c d d' Hload Hstrip).
  reflexivity.
Qed.

(** When [json.dump] raises, the run ends with its exception and the file
    holds what was written until then and nothing else: the content the
    run started from is gone. *)
Theorem failed_dump_loses_content (c part : string) (d d' : json) (e : exn) :
  json_load c = Ok d ->
  strip d = Ok d' ->
  json_dump d' = (part, Some e) ->
  run json_load json_dump (Regular true true c)
  = (World (Regular true true part) [OpenRead; OpenWrite; Write part],
     Raise e).
Proof.
  intros Hload Hstrip Hdump.
  rewrite (run_reaches_writer true c d d' Hload Hstrip), writer_on_writable.
  rewrite Hdump. reflexivity.
Qed.

(** Running the script on its own output changes nothing, when
    [json.load] reads the written text back as the document that was
    written: the second run strips nothing and writes the same text. *)
Theorem second_run_keeps_file (c txt : string) (d d' : json) :
  json_load c = Ok d ->
  records_ok d = true ->
  strip d = Ok d' ->
  json_dump d' = (txt, None) ->
  json_load txt = Ok d' ->
  path (fst (run json_load json_dump (Regular true true c)))
  = Regular true true txt
  /\ run json_load json_dump (Regular true true txt)
     = (World (Regular true true txt) [OpenRead; OpenWrite; Write txt],
        Ok tt).
Proof.
  intros Hload Hok Hstrip Hdump Hback. split.
  - rewrite (run_reaches_writer true c d d' Hload Hstrip), writer_on_writable.
    rewrite Hdump. reflexivity.
  - rewrite (run_reaches_writer true txt d' d' Hback
               (strip_fixed d d' Hok Hstrip)), writer_on_writable.
    rewrite Hdump. reflexivity.
Qed.

End WriteStage.

(** ** The further theorems at concrete inputs *)

Lemma stripped_document_has_no_embedding_witness :
  exists out : list json,
    JList [JDict [("q", JStr "A")]; JStr "question"] = JList out
    /\ existsb has_embedding out = false.
Proof.
  exact (stripped_document_has_no_embedding
           [JDict record_a; JStr "question"]
           (JList [JDict [("q", JStr "A")]; JStr "question"])
           eq_refl eq_refl).
Defined.

Lemma strip_raises_only_type_error_witness :
  strip (JList record_then_number) = Raise (TypeError NotContainer)
  /\ is_type_error (TypeError NotContainer) = true.
Proof.
  split; [reflexivity|].
  exact (strip_raises_only_type_error
           (JList record_then_number) (TypeError NotContainer) eq_refl).
Defined.

Lemma strip_keeps_unique_keys_witness :
  records_ok (document [[("q", JStr "A")]; [("q", JStr "B")]]) = true.
Proof.
  exact (strip_keeps_unique_keys
           (document mixed_document)
           (document [[("q", JStr "A")]; [("q", JStr "B")]])
           eq_refl eq_refl).
Defined.

Lemma str_contains_substring_witness :
  str_contains embedding "embeddings" = true.
Proof.
  apply (proj2 (str_contains_substring embedding "embeddings")).
  exists EmptyString, "s". reflexivity.
Defined.

Lemma delitem_removes_one_entry_witness :
  py_delitem embedding (JDict record_a)
  = Ok (JDict (dict_delitem embedding record_a))
  /\ S (List.length (dict_delitem embedding record_a)) = List.length record_a
  /\ dict_get embedding (dict_delitem embedding record_a) = None
  /\ (forall k' : string,
        k' <> embedding ->
        dict_get k' (dict_delitem embedding record_a) = dict_get k' record_a).
Proof.
  exact (delitem_removes_one_entry embedding record_a eq_refl eq_refl).
Defined.

Lemma run_writes_stripped_document_witness :
  run sample_load sample_dump good_file
  = (World (Regular true true pretty_empty_record)
           [OpenRead; OpenWrite; Write pretty_empty_record], Ok tt).
Proof.
  exact (run_writes_stripped_document
           sample_load sample_dump "[{}]" pretty_empty_record
           (JList [JDict []]) (JList [JDict []]) eq_refl eq_refl eq_refl).
Defined.

Lemma run_on_read_only_file_witness :
  run sample_load sample_dump read_only_file
  = (World read_only_file [OpenRead], Raise PermissionError).
Proof.
  exact (run_on_read_only_file
           sample_load sample_dump "[{}]"
           (JList [JDict []]) (JList [JDict []]) eq_refl eq_refl).
Defined.

Lemma failed_dump_loses_content_witness :
  run sample_load failing_dump good_file
  = (World (Regular true true "[") [OpenRead; OpenWrite; Write "["],
     Raise EncodeError).
Proof.
  exact (failed_dump_loses_content
           sample_load failing_dump "[{}]" "[" (JList [JDict []])
           (JList [JDict []]) EncodeError eq_refl eq_refl eq_refl).
Defined.

Lemma second_run_keeps_file_witness :
  path (fst (run sample_load_pretty sample_dump good_file))
  = Regular true true pretty_empty_record
  /\ run sample_load_pretty sample_dump
         (Regular true true pretty_empty_record)
     = (World (Regular true true pretty_empty_record)
              [OpenRead; OpenWrite; Write pretty_empty_record], Ok tt).
Proof.
  exact (second_run_keeps_file
           sample_load_pretty sample_dump "[{}]" pretty_empty_record
           (JList [JDict []]) (JList [JDict []])
           eq_refl eq_refl eq_refl eq_refl eq_refl).
Defined.

(** * The [json] module *)

(** ** Texts *)

Lemma append_nil_r (s : string) : s ++ EmptyString = s.
Proof. induction s as [|c s IH]; cbn; [|rewrite IH]; reflexivity. Qed.

Lemma append_assoc (a b c : string) : (a ++ b) ++ c = a ++ (b ++ c).
Proof. induction a as [|x a IH]; cbn; [|rewrite IH]; reflexivity. Qed.

Lemma length_append (a b : string) :
  String.length (a ++ b) = String.length a + String.length b.
Proof. induction a as [|x a IH]; cbn; [|rewrite IH]; reflexivity. Qed.

(** ** UTF-8 *)

Lemma utf8_strict_app_bounded (n : nat) (a b : string) :
  String.length a <= n ->
  utf8_strict a = true -> utf8_strict b = true ->
  utf8_strict (a ++ b) = true.
Proof.
  revert a. induction n as [|n IH]; intros a Hlen Ha Hb.
  - destruct a; [exact Hb | cbn in Hlen; lia].
  - destruct a as [|x r]; [exact Hb|].
    cbn [String.length] in Hlen. cbn [append utf8_strict] in *.
    destruct (in_range 0 127 x).
    { apply IH; [lia | exact Ha | exact Hb]. }
    destruct (in_range 194 223 x).
    { destruct r as [|y r1]; [discriminate|]. cbn [append String.length] in *.
      apply andb_true_iff in Ha as [H1 H2]. rewrite H1. cbn [andb].
      apply IH; [lia | exact H2 | exact Hb]. }
    destruct (in_range 224 239 x).
    { destruct r as [|y [|z r2]]; try discriminate.
      cbn [append String.length] in *.
      apply andb_true_iff in Ha as [H1 H2]. rewrite H1. cbn [andb].
      apply IH; [lia | exact H2 | exact Hb]. }
    destruct (in_range 240 244 x); [|discriminate].
    destruct r as [|y [|z [|w r3]]]; try discriminate.
    cbn [append String.length] in *.
    apply andb_true_iff in Ha as [H1 H2]. rewrite H1. cbn [andb].
    apply IH; [lia | exact H2 | exact Hb].
Qed.

Lemma utf8_strict_app (a b : string) :
  utf8_strict a = true -> utf8_strict b = true ->
  utf8_strict (a ++ b) = true.
Proof. apply (utf8_strict_app_bounded (String.length a)). lia. Qed.

(** ** Writing the pieces *)

Lemma write_chunks_done (chunks : list chunk) (written t : string) :
  write_chunks chunks written = (t, None) ->
  utf8_strict written = true ->
  utf8_strict t = true
  /\ exists body, chunk_text chunks = Some body /\ t = written ++ body.
Proof.
  revert written. induction chunks as [|[s|e] chunks IH]; intros written.
  - cbn. intros [= <-] Hw. split; [exact Hw|].
    exists EmptyString. rewrite append_nil_r. split; reflexivity.
  - cbn [write_chunks chunk_text]. destruct (utf8_strict s) eqn:Hs;
      [|discriminate].
    intros Hrun Hw.
    destruct (IH (written ++ s) Hrun (utf8_strict_app _ _ Hw Hs))
      as (Ht & body & Hbody & ->).
    split; [exact Ht|]. exists (s ++ body). rewrite Hbody. cbn.
    split; [reflexivity|]. apply append_assoc.
  - cbn. discriminate.
Qed.

Lemma chunk_text_app (a b : list chunk) :
  chunk_text (a ++ b) =
  match chunk_text a, chunk_text b with
  | Some x, Some y => Some (x ++ y)
  | _, _ => None
  end.
Proof.
  induction a as [|[s|e] a IH]; cbn [app chunk_text].
  - destruct (chunk_text b); reflexivity.
  - rewrite IH. destruct (chunk_text a), (chunk_text b); cbn;
      try reflexivity. rewrite append_assoc. reflexivity.
  - reflexivity.
Qed.

(** ** Whitespace *)

Lemma skip_ws_spaces (n : nat) (s : string) :
  skip_ws (spaces n ++ s) = skip_ws s.
Proof. induction n as [|n IH]; cbn; [reflexivity | exact IH]. Qed.

Lemma skip_ws_newline_indent (level : nat) (s : string) :
  skip_ws (newline_indent level ++ s) = skip_ws s.
Proof. unfold newline_indent. cbn. apply skip_ws_spaces. Qed.

Lemma skip_ws_head (c : ascii) (s : string) :
  is_ws c = false -> skip_ws (String c s) = String c s.
Proof. intro H. cbn. rewrite H. reflexivity. Qed.

(** ** Numbers *)

Lemma number_stop_digit (c : ascii) (r : string) :
  number_stop (String c r) = true ->
  is_digit c = false /\ Ascii.eqb c "." = false
  /\ is_exp_mark c = false /\ is_exp_sign c = false.
Proof.
  cbn. intro H. apply negb_true_iff in H.
  repeat (apply orb_false_iff in H as [H ?]). auto.
Qed.

Lemma span_digits_app (s rest : string) :
  number_stop rest = true ->
  span_digits (s ++ rest) = (fst (span_digits s), snd (span_digits s) ++ rest).
Proof.
  intro Hstop. induction s as [|c s IH]; cbn [append span_digits].
  - destruct rest as [|c r]; [reflexivity|].
    apply number_stop_digit in Hstop as (Hd & _). cbn. rewrite Hd. reflexivity.
  - destruct (is_digit c); [|reflexivity].
    rewrite IH. destruct (span_digits s); reflexivity.
Qed.

Lemma scan_sign_app (s rest : string) :
  number_stop rest = true ->
  scan_sign (s ++ rest) = (fst (scan_sign s), snd (scan_sign s) ++ rest).
Proof.
  intro Hstop. destruct s as [|c s]; cbn [append scan_sign].
  - destruct rest as [|c r]; [reflexivity|].
    apply number_stop_digit in Hstop as (_ & _ & _ & Hs).
    unfold is_exp_sign in Hs. apply orb_false_iff in Hs as [_ Hm].
    cbn. rewrite Hm. reflexivity.
  - destruct (Ascii.eqb c "-"); reflexivity.
Qed.

Lemma scan_int_part_app (s rest : string) :
  number_stop rest = true ->
  scan_int_part (s ++ rest) =
  match scan_int_part s with
  | Some (ip, r) => Some (ip, r ++ rest)
  | None => None
  end.
Proof.
  intro Hstop. destruct s as [|c s].
  - cbn [append]. destruct rest as [|c r]; [reflexivity|].
    apply number_stop_digit in Hstop as (Hd & _).
    unfold scan_int_part. rewrite Hd.
    destruct (Ascii.eqb_spec c "0") as [->|_]; [discriminate Hd|reflexivity].
  - change (String c s ++ rest) with (String c (s ++ rest)).
    unfold scan_int_part.
    destruct (Ascii.eqb c "0"); [reflexivity|].
    destruct (is_digit c); [|reflexivity].
    change (String c (s ++ rest)) with (String c s ++ rest).
    rewrite span_digits_app by exact Hstop.
    destruct (span_digits (String c s)); reflexivity.
Qed.

Lemma scan_frac_app (s rest : string) :
  number_stop rest = true ->
  scan_frac (s ++ rest) = (fst (scan_frac s), snd (scan_frac s) ++ rest).
Proof.
  intro Hstop. destruct s as [|c s]; cbn [append scan_frac].
  - destruct rest as [|c r]; [reflexivity|].
    apply number_stop_digit in Hstop as (_ & Hdot & _).
    cbn. rewrite Hdot. reflexivity.
  - destruct (Ascii.eqb c "."); [|reflexivity].
    rewrite span_digits_app by exact Hstop.
    destruct (span_digits s) as [[|d ds] r]; reflexivity.
Qed.

Lemma scan_exp_sign_app (s rest : string) :
  number_stop rest = true ->
  scan_exp_sign (s ++ rest)
  = (fst (scan_exp_sign s), snd (scan_exp_sign s) ++ rest).
Proof.
  intro Hstop. destruct s as [|c s]; cbn [append scan_exp_sign].
  - destruct rest as [|c r]; [reflexivity|].
    apply number_stop_digit in Hstop as (_ & _ & _ & Hs).
    cbn. rewrite Hs. reflexivity.
  - destruct (is_exp_sign c); reflexivity.
Qed.

Lemma scan_exp_app (s rest : string) :
  number_stop rest = true ->
  scan_exp (s ++ rest) = (fst (scan_exp s), snd (scan_exp s) ++ rest).
Proof.
  intro Hstop. destruct s as [|c s]; cbn [append scan_exp].
  - destruct rest as [|c r]; [reflexivity|].
    apply number_stop_digit in Hstop as (_ & _ & He & _).
    cbn. rewrite He. reflexivity.
  - destruct (is_exp_mark c); [|reflexivity].
    rewrite scan_exp_sign_app by exact Hstop.
    destruct (scan_exp_sign s) as [sg r1]. cbn [fst snd].
    rewrite span_digits_app by exact Hstop.
    destruct (span_digits r1) as [[|d ds] r]; reflexivity.
Qed.

Lemma scan_number_app (s rest : string) :
  number_stop rest = true ->
  scan_number (s ++ rest) =
  match scan_number s with
  | Some (lit, fl, r) => Some (lit, fl, r ++ rest)
  | None => None
  end.
Proof.
  intro Hstop. unfold scan_number.
  rewrite scan_sign_app by exact Hstop.
  destruct (scan_sign s) as [sg s1]. cbn [fst snd].
  rewrite scan_int_part_app by exact Hstop.
  destruct (scan_int_part s1) as [[ip s2]|]; [|reflexivity].
  rewrite scan_frac_app by exact Hstop.
  destruct (scan_frac s2) as [fr s3]. cbn [fst snd].
  rewrite scan_exp_app by exact Hstop.
  destruct (scan_exp s3) as [ex s4]. reflexivity.
Qed.

(** ** The str of an int *)

Lemma span_digits_uint (u : Decimal.uint) :
  span_digits (NilEmpty.string_of_uint u)
  = (NilEmpty.string_of_uint u, EmptyString).
Proof.
  induction u; cbn [NilEmpty.string_of_uint span_digits is_digit];
    try rewrite IHu; reflexivity.
Qed.

Lemma unorm_head (d e : Decimal.uint) :
  Decimal.unorm d = Decimal.D0 e -> e = Decimal.Nil.
Proof.
  induction d; cbn; intro H; try discriminate; auto.
  injection H as <-. reflexivity.
Qed.

Lemma to_uint_unorm (p : positive) :
  Decimal.unorm (Pos.to_uint p) = Pos.to_uint p.
Proof.
  pose proof (DecimalN.Unsigned.to_of (Pos.to_uint p)) as H.
  rewrite DecimalPos.Unsigned.of_to in H. symmetry. exact H.
Qed.

(** The digits of a positive number: one to nine, then digits. *)
Lemma scan_pos_digits (p : positive) :
  let ds := NilEmpty.string_of_uint (Pos.to_uint p) in
  scan_sign ds = (EmptyString, ds)
  /\ scan_int_part ds = Some (ds, EmptyString)
  /\ NilZero.string_of_uint (Pos.to_uint p) = ds.
Proof.
  cbn zeta.
  pose proof (to_uint_unorm p) as Hn.
  pose proof (DecimalPos.Unsigned.to_uint_nonzero p) as Hz.
  pose proof (span_digits_uint (Pos.to_uint p)) as Hspan.
  destruct (Pos.to_uint p) as [|u|u|u|u|u|u|u|u|u|u] eqn:E;
    try (cbn [NilEmpty.string_of_uint] in *; unfold scan_int_part;
         cbn [Ascii.eqb Bool.eqb is_digit scan_sign]; rewrite Hspan;
         repeat split; reflexivity).
  - exfalso. apply (DecimalPos.Unsigned.to_uint_nonnil p). exact E.
  - exfalso. cbn [Decimal.unorm] in Hn.
    pose proof (unorm_head u u Hn) as ->. apply Hz. reflexivity.
Qed.

Lemma scan_number_intstr (z : Z) :
  scan_number (NilZero.string_of_int (Z.to_int z))
  = Some (NilZero.string_of_int (Z.to_int z), false, EmptyString).
Proof.
  destruct z as [|p|p]; [reflexivity| |].
  - cbn [Z.to_int NilZero.string_of_int].
    destruct (scan_pos_digits p) as (Hs & Hi & ->).
    unfold scan_number. rewrite Hs, Hi. cbn.
    rewrite append_nil_r. reflexivity.
  - cbn [Z.to_int NilZero.string_of_int].
    destruct (scan_pos_digits p) as (Hs & Hi & ->).
    unfold scan_number. cbn [scan_sign Ascii.eqb Bool.eqb].
    rewrite Hi. cbn. rewrite append_nil_r. reflexivity.
Qed.

Lemma int_of_string_intstr (z : Z) :
  NilZero.int_of_string (NilZero.string_of_int (Z.to_int z))
  = Some (Z.to_int z).
Proof.
  apply NilZero.isi.
  - destruct z; cbn; try discriminate;
      intros [= H]; apply (DecimalPos.Unsigned.to_uint_nonnil p); exact H.
  - destruct z; cbn; try discriminate;
      intros [= H]; apply (DecimalPos.Unsigned.to_uint_nonnil p); exact H.
Qed.

Lemma int_of_literal_intstr (py : python) (z : Z) (lit : string) :
  intstr py z = Ok lit -> int_of_literal py lit = Ok z.
Proof.
  unfold intstr, int_of_literal.
  destruct (over_digit_limit py (NilZero.string_of_int (Z.to_int z))) eqn:E;
    [discriminate|].
  intros [= <-]. rewrite E, int_of_string_intstr, DecimalZ.of_to.
  reflexivity.
Qed.

(** ** Strs *)

Lemma scanstring_escape_char (c : ascii) (tail : string) :
  scanstring (escape_char c ++ tail) =
  match scanstring tail with
  | Ok (str, rest) => Ok (String c str, rest)
  | Raise e => Raise e
  end.
Proof.
  destruct c as [[|] [|] [|] [|] [|] [|] [|] [|]]; reflexivity.
Qed.

Lemma scanstring_escape (s rest : string) :
  scanstring (escape s ++ String quote rest) = Ok (s, rest).
Proof.
  induction s as [|c s IH]; [reflexivity|].
  cbn [escape]. rewrite append_assoc, scanstring_escape_char, IH.
  reflexivity.
Qed.

Lemma scanstring_encoded (s rest : string) :
  exists tail,
    encode_basestring s ++ rest = String quote tail
    /\ scanstring tail = Ok (s, rest).
Proof.
  exists (escape s ++ String quote rest). split.
  - unfold encode_basestring, quote_str. cbn [append].
    rewrite append_assoc. reflexivity.
  - apply scanstring_escape.
Qed.

(** ** Scalars *)

Lemma scan_once_start (py : python) (k : bool) (n : nat) (s : string)
      (r : json * string) :
  scan_once py k n s = Ok r ->
  exists c s', s = String c s' /\ value_start c = true.
Proof.
  destruct s as [|c s]; [destruct n; discriminate|].
  intro H. exists c, s. split; [reflexivity|].
  destruct (value_start c) eqn:E; [reflexivity|]. exfalso. revert H.
  destruct c as [[|] [|] [|] [|] [|] [|] [|] [|]]; try discriminate E;
    destruct n; cbn; discriminate.
Qed.

Lemma skip_ws_value (py : python) (k : bool) (n : nat) (s : string)
      (r : json * string) :
  scan_once py k n s = Ok r -> skip_ws s = s.
Proof.
  intro H. apply scan_once_start in H as (c & s' & -> & Hc).
  apply skip_ws_head. unfold value_start in Hc.
  apply negb_true_iff in Hc.
  repeat (apply orb_false_iff in Hc as [Hc ?]). exact Hc.
Qed.

Lemma scan_once_scalar (py : python) (k : bool) (n : nat) (c : ascii)
      (s : string) :
  Ascii.eqb c quote = false -> Ascii.eqb c "{" = false ->
  Ascii.eqb c "[" = false ->
  scan_once py k n (String c s) = scan_scalar py k (String c s).
Proof.
  intros H1 H2 H3. destruct n; cbn [scan_once]; rewrite H1, H2, H3;
    reflexivity.
Qed.

Lemma scan_once_number (py : python) (k : bool) (n : nat) (s lit r : string)
      (fl : bool) :
  scan_number s = Some (lit, fl, r) ->
  scan_once py k n s =
  if fl then Ok (JFloat (float_of_string py lit), r)
  else match int_of_literal py lit with
       | Ok z => Ok (JInt z, r)
       | Raise e => Raise e
       end.
Proof.
  intro H. destruct s as [|c s]; [discriminate|].
  assert (is_digit c = true \/ c = "-"%char) as Hc.
  { destruct c as [[|] [|] [|] [|] [|] [|] [|] [|]];
      try (left; reflexivity); try (right; reflexivity);
      discriminate H. }
  destruct Hc as [Hd| ->].
  - rewrite scan_once_scalar
      by (destruct c as [[|] [|] [|] [|] [|] [|] [|] [|]];
          try discriminate Hd; reflexivity).
    unfold scan_scalar.
    replace (strip_prefix "null" (String c s)) with (@None string)
      by (destruct c as [[|] [|] [|] [|] [|] [|] [|] [|]];
          try discriminate Hd; reflexivity).
    replace (strip_prefix "true" (String c s)) with (@None string)
      by (destruct c as [[|] [|] [|] [|] [|] [|] [|] [|]];
          try discriminate Hd; reflexivity).
    replace (strip_prefix "false" (String c s)) with (@None string)
      by (destruct c as [[|] [|] [|] [|] [|] [|] [|] [|]];
          try discriminate Hd; reflexivity).
    replace (strip_prefix "NaN" (String c s)) with (@None string)
      by (destruct c as [[|] [|] [|] [|] [|] [|] [|] [|]];
          try discriminate Hd; reflexivity).
    replace (strip_prefix "Infinity" (String c s)) with (@None string)
      by (destruct c as [[|] [|] [|] [|] [|] [|] [|] [|]];
          try discriminate Hd; reflexivity).
    replace (strip_prefix "-Infinity" (String c s)) with (@None string)
      by (destruct c as [[|] [|] [|] [|] [|] [|] [|] [|]];
          try discriminate Hd; reflexivity).
    rewrite H. destruct fl; reflexivity.
  - rewrite scan_once_scalar by reflexivity.
    assert (strip_prefix "-Infinity" (String "-" s) = None) as Hinf.
    { destruct s as [|c s]; [reflexivity|].
      destruct c as [[|] [|] [|] [|] [|] [|] [|] [|]];
        try reflexivity; discriminate H. }
    unfold scan_scalar.
    change (strip_prefix "null" (String "-" s)) with (@None string).
    change (strip_prefix "true" (String "-" s)) with (@None string).
    change (strip_prefix "false" (String "-" s)) with (@None string).
    change (strip_prefix "NaN" (String "-" s)) with (@None string).
    change (strip_prefix "Infinity" (String "-" s)) with (@None string).
    rewrite Hinf, H. destruct fl; reflexivity.
Qed.

Lemma float_eqb_eq (f g : spec_float) : float_eqb f g = true -> f = g.
Proof.
  destruct f, g; cbn; try discriminate; intro H.
  - apply Bool.eqb_prop in H. congruence.
  - apply Bool.eqb_prop in H. congruence.
  - reflexivity.
  - apply andb_true_iff in H as [H He]. apply andb_true_iff in H as [Hs Hm].
    apply Bool.eqb_prop in Hs. apply Pos.eqb_eq in Hm. apply Z.eqb_eq in He.
    congruence.
Qed.

Lemma scan_once_float (py : python) (n : nat) (f : spec_float)
      (rest : string) :
  float_round_trips py f = true ->
  number_stop rest = true ->
  scan_once py true n (floatstr py f ++ rest) = Ok (JFloat f, rest).
Proof.
  intros Hf Hstop.
  assert (forall lit,
            scan_number lit = Some (lit, true, EmptyString) ->
            float_of_string py lit = f ->
            scan_once py true n (lit ++ rest) = Ok (JFloat f, rest)) as Hnum.
  { intros lit Hscan Hval.
    rewrite (scan_once_number py true n (lit ++ rest) lit rest true).
    - rewrite Hval. reflexivity.
    - rewrite scan_number_app by exact Hstop. rewrite Hscan. reflexivity. }
  assert (float_round_trips py f = true ->
          f <> S754_nan -> (forall b, f <> S754_infinity b) ->
          scan_once py true n (float_repr py f ++ rest) = Ok (JFloat f, rest))
    as Hfin.
  { clear Hf. intros Hf Hnan Hinf. apply Hnum.
    - revert Hf. unfold float_round_trips.
      destruct f; try congruence;
        destruct (scan_number _) as [[[lit [|]] [|]]|]; try discriminate;
        intro H; apply andb_true_iff in H as [H _];
        apply String.eqb_eq in H; congruence.
    - revert Hf. unfold float_round_trips.
      destruct f; try congruence;
        destruct (scan_number _) as [[[lit [|]] [|]]|]; try discriminate;
        intro H; apply andb_true_iff in H as [H1 H2];
        apply String.eqb_eq in H1; apply float_eqb_eq in H2; congruence. }
  destruct f as [s|[|]| |s m e].
  - apply Hfin; [exact Hf | discriminate | discriminate].
  - destruct n; reflexivity.
  - destruct n; reflexivity.
  - destruct n; reflexivity.
  - apply Hfin; [exact Hf | discriminate | discriminate].
Qed.

Lemma scan_once_scalar_text (py : python) (n depth : nat) (x : json)
      (t rest : string) :
  scalar_text py depth x = Some (Ok t) ->
  floats_ok py x = true ->
  number_stop rest = true ->
  scan_once py true n (t ++ rest) = Ok (x, rest).
Proof.
  intros Ht Hf Hstop. destruct x as [| b | z | f | s | l | d];
    cbn [scalar_text] in Ht; try discriminate.
  - injection Ht as <-. destruct n; reflexivity.
  - destruct b; injection Ht as <-; destruct n; reflexivity.
  - injection Ht as Ht.
    rewrite (scan_once_number py true n (t ++ rest) t rest false).
    + rewrite (int_of_literal_intstr py z t Ht). reflexivity.
    + rewrite scan_number_app by exact Hstop.
      unfold intstr in Ht.
      destruct (over_digit_limit py _); [discriminate|].
      injection Ht as <-. rewrite scan_number_intstr. reflexivity.
  - destruct depth; [discriminate|]. injection Ht as <-.
    apply scan_once_float; assumption.
  - injection Ht as <-.
    destruct (scanstring_encoded s rest) as (tail & -> & Htail).
    destruct n; cbn [scan_once]; rewrite Ascii.eqb_refl, Htail; reflexivity.
Qed.

(** ** Dicts from pairs *)

Lemma dict_contains_app (k : string) (a b : dict) :
  dict_contains k (a ++ b)%list = dict_contains k a || dict_contains k b.
Proof.
  induction a as [|[k0 v0] a IH]; cbn; [reflexivity|].
  rewrite IH, orb_assoc. reflexivity.
Qed.

Lemma unique_keys_app_head (a d : dict) (k : string) (v : json) :
  unique_keys (a ++ (k, v) :: d)%list = true -> dict_contains k a = false.
Proof.
  induction a as [|[k0 v0] a IH]; cbn [app unique_keys dict_contains];
    [reflexivity|].
  intro H. apply andb_true_iff in H as [Hk0 Ha].
  rewrite (IH Ha), orb_false_r.
  destruct (String.eqb_spec k k0) as [->|Hne]; [|reflexivity].
  apply negb_true_iff in Hk0. rewrite dict_contains_app in Hk0.
  cbn [dict_contains] in Hk0. rewrite String.eqb_refl in Hk0.
  cbn in Hk0. rewrite orb_true_r in Hk0. discriminate.
Qed.

Lemma dict_setitem_new (k : string) (v : json) (a : dict) :
  dict_contains k a = false -> dict_setitem k v a = (a ++ [(k, v)])%list.
Proof.
  induction a as [|[k0 v0] a IH]; cbn; [reflexivity|].
  intro H. apply orb_false_iff in H as [Hk Ha].
  rewrite Hk, IH by exact Ha. reflexivity.
Qed.

Lemma fold_setitem_unique (d a : dict) :
  unique_keys (a ++ d)%list = true ->
  fold_left (fun acc kv => dict_setitem (fst kv) (snd kv) acc) d a = (a ++ d)%list.
Proof.
  revert a. induction d as [|[k v] d IH]; intros a H; cbn [fold_left].
  - rewrite List.app_nil_r. reflexivity.
  - cbn [fst snd].
    rewrite dict_setitem_new by (apply (unique_keys_app_head a d k v); exact H).
    rewrite IH; rewrite <- List.app_assoc; [reflexivity | exact H].
Qed.

Lemma dict_of_pairs_unique (d : dict) :
  unique_keys d = true -> dict_of_pairs d = d.
Proof. intro H. apply (fold_setitem_unique d []). exact H. Qed.

(** ** The pieces of lists and dicts *)

Lemma list_item_text (py : python) (depth level : nat) (buf : string)
      (v : json) :
  chunk_text (list_item py depth (iterencode py depth level) buf v)
  = option_map (append buf) (chunk_text (iterencode py depth level v)).
Proof.
  unfold list_item.
  destruct v as [| b | z | f | s | l | d]; try reflexivity;
    cbn [iterencode];
    match goal with
    | |- context [scalar_text ?p ?d ?x] =>
        destruct (scalar_text p d x) as [[t|e]|]; cbn;
        rewrite ?append_nil_r; reflexivity
    end.
Qed.

Lemma dict_member_text (py : python) (depth level : nat) (k : string)
      (v : json) :
  chunk_text (dict_member py depth (iterencode py depth level) (k, v))
  = option_map (fun tv => encode_basestring k ++ ": " ++ tv)
               (chunk_text (iterencode py depth level v)).
Proof.
  unfold dict_member. cbn [fst snd].
  destruct v as [| b | z | f | s | l | d].
  1-5: cbn [iterencode];
    match goal with
    | |- context [scalar_text ?p ?d ?x] =>
        destruct (scalar_text p d x) as [[t|e]|]; cbn; reflexivity
    end.
  - cbn [scalar_text chunk_text].
    destruct (chunk_text (iterencode py depth level (JList l))); reflexivity.
  - cbn [scalar_text chunk_text].
    destruct (chunk_text (iterencode py depth level (JDict d))); reflexivity.
Qed.

Lemma Some_inj {A : Type} (a b : A) : Some a = Some b -> a = b.
Proof. intros [= H]. exact H. Qed.

(** ** Lists and dicts, read back *)

Arguments newline_indent : simpl never.

Section ReadBack.

Variable py : python.
Variables n depth level : nat.

Hypothesis read_value :
  forall (v : json) (tv rest : string),
    good py n v ->
    chunk_text (iterencode py depth (S level) v) = Some tv ->
    number_stop rest = true ->
    scan_once py true n (tv ++ rest) = Ok (v, rest).

Lemma items_tail_stop (vs : list json) (tm z : string) :
  chunk_text
    (flat_map (list_item py depth (iterencode py depth (S level))
                         ("," ++ newline_indent (S level))) vs) = Some tm ->
  number_stop (tm ++ String "010" z) = true.
Proof.
  destruct vs as [|v vs]; cbn [flat_map].
  - intros [= <-]. reflexivity.
  - rewrite chunk_text_app, list_item_text.
    destruct (chunk_text (iterencode py depth (S level) v)); [|discriminate].
    cbn [option_map]. destruct (chunk_text (flat_map _ vs)); [|discriminate].
    intros [= <-]. reflexivity.
Qed.

Lemma items_tail_length (vs : list json) (tm : string) :
  chunk_text
    (flat_map (list_item py depth (iterencode py depth (S level))
                         ("," ++ newline_indent (S level))) vs) = Some tm ->
  List.length vs <= String.length tm.
Proof.
  revert tm. induction vs as [|v vs IH]; intro tm; cbn [flat_map].
  - intros _. cbn. lia.
  - rewrite chunk_text_app, list_item_text.
    destruct (chunk_text (iterencode py depth (S level) v)); [|discriminate].
    cbn [option_map]. destruct (chunk_text (flat_map _ vs)) as [tm'|];
      [|discriminate].
    intros [= <-]. specialize (IH tm' eq_refl).
    cbn [String.length List.length]. rewrite !length_append. lia.
Qed.

Lemma parse_items_printed (xs : list json) :
  forall (x0 : json) (fuel : nat) (t0 tm rest : string),
    good py n x0 -> Forall (good py n) xs ->
    chunk_text (iterencode py depth (S level) x0) = Some t0 ->
    chunk_text
      (flat_map (list_item py depth (iterencode py depth (S level))
                           ("," ++ newline_indent (S level))) xs) = Some tm ->
    List.length xs < fuel ->
    parse_items (scan_once py true n) fuel
                (t0 ++ tm ++ newline_indent level ++ String "]" rest)
    = Ok (x0 :: xs, rest).
Proof.
  induction xs as [|v vs IH]; intros x0 fuel t0 tm rest Hx0 Hxs Ht0 Htm Hfuel;
    (destruct fuel as [|fuel]; [cbn in Hfuel; lia|]); cbn [parse_items].
  - cbn [flat_map chunk_text] in Htm. apply Some_inj in Htm; subst tm.
    cbn [append]. rewrite (read_value x0 t0 _ Hx0 Ht0) by reflexivity.
    rewrite skip_ws_newline_indent. cbn. reflexivity.
  - pose proof (items_tail_stop (v :: vs) tm
                  (spaces (2 * level) ++ String "]" rest) Htm) as Hstop.
    change (String "010" (spaces (2 * level) ++ String "]" rest))
      with (newline_indent level ++ String "]" rest) in Hstop.
    rewrite (read_value x0 t0 _ Hx0 Ht0) by exact Hstop.
    cbn [flat_map] in Htm. rewrite chunk_text_app, list_item_text in Htm.
    destruct (chunk_text (iterencode py depth (S level) v)) as [tv|] eqn:Htv;
      [|discriminate].
    cbn [option_map] in Htm.
    destruct (chunk_text (flat_map _ vs)) as [tm'|] eqn:Htm'; [|discriminate].
    apply Some_inj in Htm; subst tm.
    inversion Hxs as [|v' vs' Hv Hvs]; subst.
    rewrite !append_assoc. cbn [append skip_ws is_ws Ascii.eqb Bool.eqb].
    rewrite skip_ws_newline_indent.
    pose proof (items_tail_stop vs tm'
                  (spaces (2 * level) ++ String "]" rest) Htm') as Hstop'.
    change (String "010" (spaces (2 * level) ++ String "]" rest))
      with (newline_indent level ++ String "]" rest) in Hstop'.
    rewrite (skip_ws_value py true n _ _
               (read_value v tv _ Hv Htv Hstop')).
    rewrite (IH v fuel tv tm' rest Hv Hvs Htv eq_refl)
      by (cbn in Hfuel; lia).
    reflexivity.
Qed.

Lemma members_tail_stop (kvs : list (string * json)) (tm z : string) :
  chunk_text
    (flat_map
       (fun kv =>
          Text ("," ++ newline_indent (S level))
          :: dict_member py depth (iterencode py depth (S level)) kv) kvs)
  = Some tm ->
  number_stop (tm ++ String "010" z) = true.
Proof.
  destruct kvs as [|[k v] kvs]; cbn [flat_map].
  - intros [= <-]. reflexivity.
  - cbn [app chunk_text]. rewrite chunk_text_app.
    destruct (chunk_text (dict_member _ _ _ _)); [|discriminate].
    destruct (chunk_text (flat_map _ kvs)); [|discriminate].
    intros [= <-]. reflexivity.
Qed.

Lemma members_tail_length (kvs : list (string * json)) (tm : string) :
  chunk_text
    (flat_map
       (fun kv =>
          Text ("," ++ newline_indent (S level))
          :: dict_member py depth (iterencode py depth (S level)) kv) kvs)
  = Some tm ->
  List.length kvs <= String.length tm.
Proof.
  revert tm. induction kvs as [|[k v] kvs IH]; intro tm; cbn [flat_map].
  - intros _. cbn. lia.
  - cbn [app chunk_text]. rewrite chunk_text_app.
    destruct (chunk_text (dict_member _ _ _ _)); [|discriminate].
    destruct (chunk_text (flat_map _ kvs)) as [tm'|]; [|discriminate].
    intros [= <-]. specialize (IH tm' eq_refl).
    cbn [String.length List.length]. rewrite !length_append. lia.
Qed.

Lemma parse_members_printed (kvs : list (string * json)) :
  forall (k0 : string) (v0 : json) (fuel : nat) (t0 tm rest : string),
    good py n v0 -> Forall (fun kv => good py n (snd kv)) kvs ->
    chunk_text (iterencode py depth (S level) v0) = Some t0 ->
    chunk_text
      (flat_map
         (fun kv =>
            Text ("," ++ newline_indent (S level))
            :: dict_member py depth (iterencode py depth (S level)) kv) kvs)
    = Some tm ->
    List.length kvs < fuel ->
    parse_members (scan_once py true n) fuel
                  (encode_basestring k0 ++ ": " ++ t0 ++ tm
                   ++ newline_indent level ++ String "}" rest)
    = Ok ((k0, v0) :: kvs, rest).
Proof.
  induction kvs as [|[k v] kvs IH];
    intros k0 v0 fuel t0 tm rest Hv0 Hkvs Ht0 Htm Hfuel;
    (destruct fuel as [|fuel]; [cbn in Hfuel; lia|]);
    destruct (scanstring_encoded k0
                (": " ++ t0 ++ tm ++ newline_indent level ++ String "}" rest))
      as (tail & -> & Htail);
    cbn [parse_members]; rewrite Ascii.eqb_refl, Htail;
    cbn [append skip_ws is_ws Ascii.eqb Bool.eqb].
  - cbn [flat_map chunk_text] in Htm. apply Some_inj in Htm; subst tm.
    change (EmptyString ++ newline_indent level ++ String "}" rest)
      with (newline_indent level ++ String "}" rest).
    assert (number_stop (newline_indent level ++ String "}" rest) = true)
      as Hstop by reflexivity.
    rewrite (skip_ws_value py true n _ _
               (read_value v0 t0 _ Hv0 Ht0 Hstop)).
    rewrite (read_value v0 t0 _ Hv0 Ht0 Hstop).
    rewrite skip_ws_newline_indent. cbn. reflexivity.
  - pose proof (members_tail_stop ((k, v) :: kvs) tm
                  (spaces (2 * level) ++ String "}" rest) Htm) as Hstop.
    change (String "010" (spaces (2 * level) ++ String "}" rest))
      with (newline_indent level ++ String "}" rest) in Hstop.
    rewrite (skip_ws_value py true n _ _
               (read_value v0 t0 _ Hv0 Ht0 Hstop)).
    rewrite (read_value v0 t0 _ Hv0 Ht0) by exact Hstop.
    cbn [flat_map app chunk_text] in Htm.
    rewrite chunk_text_app, dict_member_text in Htm.
    destruct (chunk_text (iterencode py depth (S level) v)) as [tv|] eqn:Htv;
      [|discriminate].
    cbn [option_map] in Htm.
    destruct (chunk_text (flat_map _ kvs)) as [tm'|] eqn:Htm'; [|discriminate].
    apply Some_inj in Htm; subst tm.
    inversion Hkvs as [|kv' kvs' Hv Hvs]; subst. cbn [snd] in Hv.
    rewrite !append_assoc. cbn [append skip_ws is_ws Ascii.eqb Bool.eqb].
    rewrite skip_ws_newline_indent.
    assert (skip_ws (encode_basestring k ++ String ":" (String " "
             (tv ++ tm' ++ newline_indent level ++ String "}" rest)))
            = encode_basestring k ++ String ":" (String " "
             (tv ++ tm' ++ newline_indent level ++ String "}" rest))) as ->
      by reflexivity.
    assert (List.length kvs < fuel) as Hfuel' by (cbn in Hfuel; lia).
    pose proof (IH k v fuel tv tm' rest Hv Hvs Htv eq_refl Hfuel') as Hrec.
    cbn [append] in Hrec. rewrite Hrec. reflexivity.
Qed.

End ReadBack.

(** ** Every value, read back *)

Lemma max_bound {A : Type} (f : A -> nat) (l : list A) (n : nat) :
  fold_right Nat.max 0 (map f l) <= n -> Forall (fun v => f v <= n) l.
Proof.
  induction l as [|x l IH]; cbn [map fold_right]; intro H; constructor.
  - lia.
  - apply IH. lia.
Qed.

Lemma list_good (py : python) (n : nat) (l : list json) :
  json_depth (JList l) <= S n -> json_ok (JList l) = true ->
  floats_ok py (JList l) = true ->
  Forall (good py n) l.
Proof.
  cbn [json_depth json_ok floats_ok]. intros Hd Ho Hf.
  apply le_S_n in Hd. apply max_bound in Hd.
  rewrite forallb_forall in Ho, Hf. rewrite Forall_forall in *.
  intros v Hv. repeat split; auto.
Qed.

Lemma dict_good (py : python) (n : nat) (d : dict) :
  json_depth (JDict d) <= S n -> json_ok (JDict d) = true ->
  floats_ok py (JDict d) = true ->
  unique_keys d = true /\ Forall (fun kv => good py n (snd kv)) d.
Proof.
  cbn [json_depth json_ok floats_ok]. intros Hd Ho Hf.
  apply andb_true_iff in Ho as [Hu Ho]. split; [exact Hu|].
  apply le_S_n in Hd. apply max_bound in Hd.
  rewrite forallb_forall in Ho, Hf. rewrite Forall_forall in *.
  intros kv Hkv. repeat split; auto.
Qed.

Lemma scalar_chunks (py : python) (depth level : nat) (x : json)
      (t : string) :
  json_depth x = 0 ->
  chunk_text (iterencode py depth level x) = Some t ->
  scalar_text py depth x = Some (Ok t).
Proof.
  destruct x as [| b | z | f | s | l | d]; try discriminate; intros _;
    cbn [iterencode scalar_text].
  - cbn. intro H; apply Some_inj in H; subst t; reflexivity.
  - destruct b; cbn; intro H; apply Some_inj in H; subst t; reflexivity.
  - destruct (intstr py z) as [t0|e]; cbn; [|discriminate].
    intro H; apply Some_inj in H; subst t. rewrite append_nil_r. reflexivity.
  - destruct depth; cbn; [discriminate|].
    intro H; apply Some_inj in H; subst t. rewrite append_nil_r. reflexivity.
  - cbn [text_chunk chunk_text option_map append].
    intro H; apply Some_inj in H; subst t. rewrite append_nil_r. reflexivity.
Qed.

Lemma scan_iterencode (py : python) (n : nat) :
  forall (x : json) (depth level : nat) (t rest : string),
    good py n x ->
    chunk_text (iterencode py depth level x) = Some t ->
    number_stop rest = true ->
    scan_once py true n (t ++ rest) = Ok (x, rest).
Proof.
  induction n as [|n IH]; intros x depth level t rest (Hd & Ho & Hf) Ht Hstop.
  - apply (scan_once_scalar_text py 0 depth x t rest); [|exact Hf|exact Hstop].
    apply (scalar_chunks py depth level). { lia. } exact Ht.
  - destruct x as [| b | z | f | s | l | d].
    1-5: (apply (scan_once_scalar_text py (S n) depth _ t rest);
          [|exact Hf|exact Hstop];
          apply (scalar_chunks py depth level); [reflexivity|exact Ht]).
    + (* a list *)
      pose proof (list_good py n l Hd Ho Hf) as Hgood.
      destruct depth as [|depth]; [discriminate Ht|].
      destruct l as [|x0 xs].
      { cbn in Ht. apply Some_inj in Ht; subst t. reflexivity. }
      cbn [iterencode] in Ht.
      rewrite !chunk_text_app, list_item_text in Ht.
      destruct (chunk_text (iterencode py depth (S level) x0)) as [t0|] eqn:Ht0;
        [|discriminate].
      cbn [option_map] in Ht.
      destruct (chunk_text (flat_map _ xs)) as [tm|] eqn:Htm; [|discriminate].
      cbn [chunk_text option_map] in Ht. apply Some_inj in Ht; subst t.
      inversion Hgood as [|x0' xs' Hx0 Hxs]; subst.
      assert (forall v tv r, good py n v ->
                chunk_text (iterencode py depth (S level) v) = Some tv ->
                number_stop r = true ->
                scan_once py true n (tv ++ r) = Ok (v, r)) as Hread
        by (intros v tv r Hv Htv Hr; apply (IH v depth (S level)); assumption).
      rewrite !append_assoc.
      cbn [append scan_once Ascii.eqb Bool.eqb quote]. unfold parse_array.
      rewrite skip_ws_newline_indent.
      pose proof (items_tail_stop py depth level xs tm
                    (spaces (2 * level) ++ String "]" rest) Htm) as Hstop0.
      change (String "010" (spaces (2 * level) ++ String "]" rest))
        with (newline_indent level ++ String "]" rest) in Hstop0.
      pose proof (Hread x0 t0 _ Hx0 Ht0 Hstop0) as Hx0read.
      rewrite (skip_ws_value py true n _ _ Hx0read).
      destruct (scan_once_start py true n _ _ Hx0read) as (c & s' & Hc & Hvs).
      rewrite Hc. unfold value_start in Hvs. apply negb_true_iff in Hvs.
      repeat (apply orb_false_iff in Hvs as [Hvs ?]).
      replace (Ascii.eqb c "]") with false by (symmetry; assumption).
      rewrite <- Hc.
      rewrite (parse_items_printed py n depth level Hread xs x0 _ t0 tm rest
                 Hx0 Hxs Ht0 Htm); [reflexivity|].
      pose proof (items_tail_length py depth level xs tm Htm).
      rewrite !length_append. unfold newline_indent at 1.
      cbn [String.length]. lia.
    + (* a dict *)
      destruct (dict_good py n d Hd Ho Hf) as [Hu Hgood].
      destruct depth as [|depth]; [discriminate Ht|].
      destruct d as [|[k0 v0] kvs].
      { cbn in Ht. apply Some_inj in Ht; subst t. reflexivity. }
      cbn [iterencode chunk_text] in Ht.
      rewrite !chunk_text_app, dict_member_text in Ht.
      destruct (chunk_text (iterencode py depth (S level) v0)) as [t0|] eqn:Ht0;
        [|discriminate].
      cbn [option_map] in Ht.
      destruct (chunk_text (flat_map _ kvs)) as [tm|] eqn:Htm; [|discriminate].
      cbn [chunk_text option_map] in Ht. apply Some_inj in Ht; subst t.
      inversion Hgood as [|kv0' kvs' Hv0 Hkvs]; subst. cbn [snd] in Hv0.
      assert (forall v tv r, good py n v ->
                chunk_text (iterencode py depth (S level) v) = Some tv ->
                number_stop r = true ->
                scan_once py true n (tv ++ r) = Ok (v, r)) as Hread
        by (intros v tv r Hv Htv Hr; apply (IH v depth (S level)); assumption).
      rewrite !append_assoc.
      cbn [append scan_once Ascii.eqb Bool.eqb quote]. unfold parse_object.
      rewrite skip_ws_newline_indent.
      pose proof (parse_members_printed py n depth level Hread kvs k0 v0
                    (String.length
                       (newline_indent (S level) ++ encode_basestring k0
                        ++ ": " ++ t0 ++ tm ++ newline_indent level
                        ++ String "}" rest))
                    t0 tm rest Hv0 Hkvs Ht0 Htm) as Hrec.
      cbn [append] in Hrec.
      assert (forall X, skip_ws (encode_basestring k0 ++ X)
                        = encode_basestring k0 ++ X) as Hskip
        by reflexivity.
      rewrite Hskip.
      assert (forall X, exists Y, encode_basestring k0 ++ X = String quote Y)
        as Hhead by (intro X; eexists; reflexivity).
      destruct (Hhead (String ":" (String " "
                  (t0 ++ tm ++ newline_indent level ++ String "}" rest))))
        as (Y & HY).
      rewrite HY at 1. cbv beta iota.
      change (Ascii.eqb quote "}") with false. cbv beta iota.
      cbn [append]. rewrite Hrec.
      * rewrite dict_of_pairs_unique by exact Hu. reflexivity.
      * pose proof (members_tail_length py depth level kvs tm Htm).
        unfold newline_indent at 1.
        repeat (rewrite ?length_append; cbn [String.length append]). lia.
Qed.

(** What [json.dump] wrote in full, [json.load] reads back. *)
Lemma dump_then_load (py : python) (data : json) (t : string) :
  py_json_dump py data = (t, None) ->
  json_ok data = true ->
  json_depth data <= decoder_depth py ->
  floats_ok py data = true ->
  py_json_load py t = Ok data.
Proof.
  intros Hdump Hok Hdepth Hfloats. unfold py_json_dump in Hdump.
  destruct (write_chunks_done _ _ _ Hdump eq_refl) as (Hutf & body & Hbody & ->).
  cbn [append] in *. unfold py_json_load, json_loads. rewrite Hutf.
  assert (scan_once py true (decoder_depth py) (body ++ EmptyString)
          = Ok (data, EmptyString)) as Hscan.
  { apply (scan_iterencode py _ data (encoder_depth py) 0);
      [repeat split; assumption | exact Hbody | reflexivity]. }
  rewrite append_nil_r in Hscan.
  rewrite (skip_ws_value py true _ _ _ Hscan), Hscan. reflexivity.
Qed.

(** ** What the decoder returns *)

Lemma dict_contains_setitem (k' k : string) (v : json) (d : dict) :
  dict_contains k' (dict_setitem k v d)
  = dict_contains k' d || String.eqb k' k.
Proof.
  induction d as [|[k0 v0] d IH]; cbn [dict_setitem dict_contains].
  - rewrite orb_false_r. reflexivity.
  - destruct (String.eqb_spec k k0) as [->|Hne]; cbn [dict_contains].
    + destruct (String.eqb k' k0), (dict_contains k' d); reflexivity.
    + rewrite IH, orb_assoc. reflexivity.
Qed.

Lemma unique_keys_setitem (k : string) (v : json) (d : dict) :
  unique_keys d = true -> unique_keys (dict_setitem k v d) = true.
Proof.
  induction d as [|[k0 v0] d IH]; cbn [dict_setitem unique_keys];
    [reflexivity|].
  intro H. apply andb_true_iff in H as [Hk0 Hd].
  destruct (String.eqb_spec k k0) as [->|Hne]; cbn [unique_keys].
  - rewrite Hk0, Hd. reflexivity.
  - rewrite dict_contains_setitem, (IH Hd).
    apply negb_true_iff in Hk0. rewrite Hk0.
    assert (String.eqb k0 k = false) as -> by (apply String.eqb_neq; congruence).
    reflexivity.
Qed.

Lemma values_setitem (Q : json -> Prop) (k : string) (v : json) (d : dict) :
  Q v -> Forall (fun kv => Q (snd kv)) d ->
  Forall (fun kv => Q (snd kv)) (dict_setitem k v d).
Proof.
  intros Hv. induction d as [|[k0 v0] d IH]; cbn [dict_setitem]; intro H.
  - constructor; [exact Hv | constructor].
  - inversion H as [|kv d' H0 Hd]; subst.
    destruct (String.eqb k k0); constructor; auto.
Qed.

Lemma dict_of_pairs_invariant (Q : json -> Prop) (kvs : list (string * json)) :
  Forall (fun kv => Q (snd kv)) kvs ->
  unique_keys (dict_of_pairs kvs) = true
  /\ Forall (fun kv => Q (snd kv)) (dict_of_pairs kvs).
Proof.
  unfold dict_of_pairs.
  assert (forall acc,
            unique_keys acc = true -> Forall (fun kv => Q (snd kv)) acc ->
            Forall (fun kv => Q (snd kv)) kvs ->
            unique_keys (fold_left (fun d kv => dict_setitem (fst kv) (snd kv) d)
                                   kvs acc) = true
            /\ Forall (fun kv => Q (snd kv))
                      (fold_left (fun d kv => dict_setitem (fst kv) (snd kv) d)
                                 kvs acc)) as Hgen.
  { induction kvs as [|[k v] kvs IH]; intros acc Hu Hacc Hkvs; cbn [fold_left].
    - split; assumption.
    - inversion Hkvs as [|kv kvs' Hv Hrest]; subst. cbn [fst snd] in *.
      apply IH; [apply unique_keys_setitem; exact Hu
                | apply values_setitem; assumption | exact Hrest]. }
  intro H. apply Hgen; [reflexivity | constructor | exact H].
Qed.

Section DecoderResults.

Variable py : python.
Variable constants : bool.
Variable value : string -> result (json * string).
Variable Q : json -> Prop.
Hypothesis value_result :
  forall s v r, value s = Ok (v, r) -> Q v.

Lemma parse_items_results (fuel : nat) :
  forall s vs r, parse_items value fuel s = Ok (vs, r) -> Forall Q vs.
Proof.
  induction fuel as [|fuel IH]; intros s vs r; cbn [parse_items];
    [discriminate|].
  destruct (value s) as [[v r0]|e] eqn:Hv; [|discriminate].
  destruct (skip_ws r0) as [|c r1]; [discriminate|].
  destruct (Ascii.eqb c "]").
  { intros [= <- <-]. constructor; [eapply value_result; eassumption|constructor]. }
  destruct (Ascii.eqb c ","); [|discriminate].
  destruct (parse_items value fuel (skip_ws r1)) as [[vs' r']|e] eqn:Hrec;
    [|discriminate].
  intros [= <- <-]. constructor; [eapply value_result; eassumption|].
  eapply IH; eassumption.
Qed.

Lemma parse_members_results (fuel : nat) :
  forall s kvs r,
    parse_members value fuel s = Ok (kvs, r) ->
    Forall (fun kv => Q (snd kv)) kvs.
Proof.
  induction fuel as [|fuel IH]; intros s kvs r; cbn [parse_members];
    [discriminate|].
  destruct s as [|q s]; [discriminate|].
  destruct (Ascii.eqb q quote); [|discriminate].
  destruct (scanstring s) as [[k r1]|e]; [|discriminate].
  destruct (skip_ws r1) as [|c r2]; [discriminate|].
  destruct (Ascii.eqb c ":"); [|discriminate].
  destruct (value (skip_ws r2)) as [[v r3]|e] eqn:Hv; [|discriminate].
  destruct (skip_ws r3) as [|c' r4]; [discriminate|].
  destruct (Ascii.eqb c' "}").
  { intros [= <- <-]. constructor; [|constructor].
    cbn [snd]. eapply value_result; eassumption. }
  destruct (Ascii.eqb c' ","); [|discriminate].
  destruct (parse_members value fuel (skip_ws r4)) as [[kvs' r']|e] eqn:Hrec;
    [|discriminate].
  intros [= <- <-]. constructor.
  - cbn [snd]. eapply value_result; eassumption.
  - eapply IH; eassumption.
Qed.

End DecoderResults.

Lemma decoded_scalar (py : python) (k : bool) (s : string) (v : json)
      (r : string) (n : nat) :
  scan_scalar py k s = Ok (v, r) -> decoded n v.
Proof.
  unfold scan_scalar.
  repeat match goal with
         | |- context [match strip_prefix ?p ?s with _ => _ end] =>
             destruct (strip_prefix p s)
         | |- context [if k then _ else _] => destruct k
         end;
    try discriminate;
    try (intros [= <- <-]; split; [reflexivity | cbn; lia]).
  all: destruct (scan_number s) as [[[lit [|]] r0]|]; try discriminate;
    try (intros [= <- <-]; split; [reflexivity | cbn; lia]);
    destruct (int_of_literal py lit); try discriminate;
    intros [= <- <-]; split; [reflexivity | cbn; lia].
Qed.

Lemma max_le {A : Type} (f : A -> nat) (l : list A) (n : nat) :
  Forall (fun v => f v <= n) l -> fold_right Nat.max 0 (map f l) <= n.
Proof.
  induction 1; cbn [map fold_right]; lia.
Qed.

Lemma decoded_list (n : nat) (l : list json) :
  Forall (decoded n) l -> decoded (S n) (JList l).
Proof.
  intro H. split.
  - cbn [json_ok]. apply forallb_forall. rewrite Forall_forall in H.
    intros v Hv. apply H; exact Hv.
  - cbn [json_depth]. apply le_n_S. apply max_le.
    eapply Forall_impl; [|exact H]. intros v [_ Hv]; exact Hv.
Qed.

Lemma decoded_dict (n : nat) (kvs : list (string * json)) :
  Forall (fun kv => decoded n (snd kv)) kvs ->
  decoded (S n) (JDict (dict_of_pairs kvs)).
Proof.
  intro H. destruct (dict_of_pairs_invariant (decoded n) kvs H) as [Hu Hv].
  split.
  - cbn [json_ok]. rewrite Hu. cbn [andb]. apply forallb_forall.
    rewrite Forall_forall in Hv. intros kv Hkv. apply Hv; exact Hkv.
  - cbn [json_depth]. apply le_n_S. apply max_le.
    eapply Forall_impl; [|exact Hv]. intros kv [_ Hkv]; exact Hkv.
Qed.

Lemma scan_once_decoded (py : python) (k : bool) (n : nat) :
  forall s v r, scan_once py k n s = Ok (v, r) -> decoded n v.
Proof.
  induction n as [|n IH]; intros s v r; destruct s as [|c s];
    cbn [scan_once]; try discriminate.
  - destruct (Ascii.eqb c quote).
    { destruct (scanstring s) as [[str rest]|e]; [|discriminate].
      intros [= <- <-]. split; [reflexivity | cbn; lia]. }
    destruct (Ascii.eqb c "{"); [discriminate|].
    destruct (Ascii.eqb c "["); [discriminate|].
    apply decoded_scalar.
  - destruct (Ascii.eqb c quote).
    { destruct (scanstring s) as [[str rest]|e]; [|discriminate].
      intros [= <- <-]. split; [reflexivity | cbn; lia]. }
    destruct (Ascii.eqb c "{").
    { unfold parse_object. destruct (skip_ws s) as [|c0 r0]; [discriminate|].
      destruct (Ascii.eqb c0 "}").
      { intros [= <- <-]. split; [reflexivity | cbn; lia]. }
      destruct (parse_members _ _ _) as [[kvs rest]|e] eqn:Hm; [|discriminate].
      intros [= <- <-]. apply decoded_dict.
      eapply parse_members_results; [|exact Hm]. exact IH. }
    destruct (Ascii.eqb c "[").
    { unfold parse_array. destruct (skip_ws s) as [|c0 r0]; [discriminate|].
      destruct (Ascii.eqb c0 "]").
      { intros [= <- <-]. split; [reflexivity | cbn; lia]. }
      destruct (parse_items _ _ _) as [[vs rest]|e] eqn:Hm; [|discriminate].
      intros [= <- <-]. apply decoded_list.
      eapply parse_items_results; [|exact Hm]. exact IH. }
    intro H. destruct (decoded_scalar py k _ _ _ n H) as [Ho Hd].
    split; [exact Ho | lia].
Qed.

Lemma py_json_load_decoded (py : python) (content : string) (data : json) :
  py_json_load py content = Ok data ->
  json_ok data = true /\ json_depth data <= decoder_depth py.
Proof.
  unfold py_json_load, json_loads.
  destruct (utf8_strict content); [|discriminate].
  destruct (scan_once _ _ _ _) as [[v rest]|e] eqn:Hscan; [|discriminate].
  destruct (skip_ws rest); [|discriminate].
  intros [= <-]. eapply scan_once_decoded; exact Hscan.
Qed.

(** ** What the decoder raises *)

Lemma scanstring_raises_bounded (n : nat) :
  forall s e, String.length s < n -> scanstring s = Raise e -> e = ValueError.
Proof.
  induction n as [|n IH]; intros s e Hlen; [lia|].
  assert (forall x, String.length x < n ->
            match scanstring x with
            | Ok _ => True
            | Raise ex => ex = ValueError
            end) as Hrec.
  { intros x Hx. destruct (scanstring x) eqn:E; [exact I|].
    apply (IH x); assumption. }
  destruct s as [|c r]; cbn [scanstring]; [congruence|].
  cbn [String.length] in Hlen.
  destruct (Ascii.eqb c quote); [discriminate|].
  destruct (Ascii.eqb c backslash).
  - destruct r as [|x r1]; [congruence|]. cbn [String.length] in Hlen.
    destruct (Ascii.eqb x "u").
    + destruct r1 as [|h1 [|h2 [|h3 [|h4 r2]]]]; try congruence.
      cbn [String.length] in Hlen.
      destruct (hex4 h1 h2 h3 h4) as [hi|]; [|congruence].
      assert (String.length r2 < n) as Hr2 by lia.
      pose proof (Hrec r2 Hr2) as H2.
      destruct ((55296 <=? hi)%N && (hi <=? 56319)%N).
      * destruct r2 as [|b [|u [|g1 [|g2 [|g3 [|g4 r3]]]]]];
          try (destruct (scanstring _) as [[? ?]|?]; congruence).
        destruct (low_surrogate _) as [[lo ?]|].
        -- cbn [String.length] in Hr2.
           assert (String.length r3 < n) as Hr3 by lia.
           pose proof (Hrec r3 Hr3) as H3.
           destruct (scanstring r3) as [[? ?]|?]; congruence.
        -- destruct (scanstring _) as [[? ?]|?]; congruence.
      * destruct (scanstring r2) as [[? ?]|?]; congruence.
    + destruct (simple_escape x); [|congruence].
      assert (String.length r1 < n) as Hr1 by lia.
      pose proof (Hrec r1 Hr1) as H1.
      destruct (scanstring r1) as [[? ?]|?]; congruence.
  - destruct (in_range 0 31 c); [congruence|].
    assert (String.length r < n) as Hr by lia.
    pose proof (Hrec r Hr) as H1.
    destruct (scanstring r) as [[? ?]|?]; congruence.
Qed.

Lemma scanstring_raises (s : string) (e : exn) :
  scanstring s = Raise e -> e = ValueError.
Proof. apply (scanstring_raises_bounded (S (String.length s))). lia. Qed.

Lemma scan_scalar_raises (py : python) (k : bool) (s : string) (e : exn) :
  scan_scalar py k s = Raise e -> e = ValueError.
Proof.
  unfold scan_scalar, int_of_literal.
  repeat match goal with
         | |- context [match strip_prefix ?p ?s with _ => _ end] =>
             destruct (strip_prefix p s)
         | |- context [if k then _ else _] => destruct k
         end;
    try discriminate; try congruence.
  all: destruct (scan_number s) as [[[lit [|]] r0]|]; try discriminate;
    try congruence;
    destruct (over_digit_limit py lit); try congruence;
    destruct (NilZero.int_of_string lit); try discriminate; congruence.
Qed.

Section DecoderErrors.

Variable value : string -> result (json * string).
Hypothesis value_raises : forall s e, value s = Raise e -> decoder_error e.

Lemma parse_items_raises (fuel : nat) :
  forall s e, parse_items value fuel s = Raise e -> decoder_error e.
Proof.
  induction fuel as [|fuel IH]; intros s e; cbn [parse_items].
  { intros [= <-]. left; reflexivity. }
  destruct (value s) as [[v r0]|e0] eqn:Hv.
  2: { intros [= <-]. eapply value_raises; exact Hv. }
  destruct (skip_ws r0) as [|c r1]; [intros [= <-]; left; reflexivity|].
  destruct (Ascii.eqb c "]"); [discriminate|].
  destruct (Ascii.eqb c ","); [|intros [= <-]; left; reflexivity].
  destruct (parse_items value fuel (skip_ws r1)) as [[vs' r']|e1] eqn:Hrec;
    [discriminate|].
  intros [= <-]. eapply IH; exact Hrec.
Qed.

Lemma parse_members_raises (fuel : nat) :
  forall s e, parse_members value fuel s = Raise e -> decoder_error e.
Proof.
  induction fuel as [|fuel IH]; intros s e; cbn [parse_members].
  { intros [= <-]. left; reflexivity. }
  destruct s as [|q s]; [intros [= <-]; left; reflexivity|].
  destruct (Ascii.eqb q quote); [|intros [= <-]; left; reflexivity].
  destruct (scanstring s) as [[k r1]|e0] eqn:Hk.
  2: { intros [= <-]. left. eapply scanstring_raises; exact Hk. }
  destruct (skip_ws r1) as [|c r2]; [intros [= <-]; left; reflexivity|].
  destruct (Ascii.eqb c ":"); [|intros [= <-]; left; reflexivity].
  destruct (value (skip_ws r2)) as [[v r3]|e0] eqn:Hv.
  2: { intros [= <-]. eapply value_raises; exact Hv. }
  destruct (skip_ws r3) as [|c' r4]; [intros [= <-]; left; reflexivity|].
  destruct (Ascii.eqb c' "}"); [discriminate|].
  destruct (Ascii.eqb c' ","); [|intros [= <-]; left; reflexivity].
  destruct (parse_members value fuel (skip_ws r4)) as [[kvs' r']|e1] eqn:Hrec;
    [discriminate|].
  intros [= <-]. eapply IH; exact Hrec.
Qed.

End DecoderErrors.

Lemma scan_once_raises (py : python) (k : bool) (n : nat) :
  forall s e, scan_once py k n s = Raise e -> decoder_error e.
Proof.
  induction n as [|n IH]; intros s e; destruct s as [|c s];
    cbn [scan_once]; try (intros [= <-]; left; reflexivity).
  - destruct (Ascii.eqb c quote).
    { destruct (scanstring s) as [[str rest]|e0] eqn:Hs; [discriminate|].
      intros [= <-]. left. eapply scanstring_raises; exact Hs. }
    destruct (Ascii.eqb c "{"); [intros [= <-]; right; reflexivity|].
    destruct (Ascii.eqb c "["); [intros [= <-]; right; reflexivity|].
    intro H. left. eapply scan_scalar_raises; exact H.
  - destruct (Ascii.eqb c quote).
    { destruct (scanstring s) as [[str rest]|e0] eqn:Hs; [discriminate|].
      intros [= <-]. left. eapply scanstring_raises; exact Hs. }
    destruct (Ascii.eqb c "{").
    { unfold parse_object.
      destruct (skip_ws s) as [|c0 r0]; [intros [= <-]; left; reflexivity|].
      destruct (Ascii.eqb c0 "}"); [discriminate|].
      destruct (parse_members _ _ _) as [[kvs rest]|e0] eqn:Hm; [discriminate|].
      intros [= <-]. eapply parse_members_raises; [|exact Hm]. exact IH. }
    destruct (Ascii.eqb c "[").
    { unfold parse_array.
      destruct (skip_ws s) as [|c0 r0]; [intros [= <-]; left; reflexivity|].
      destruct (Ascii.eqb c0 "]"); [discriminate|].
      destruct (parse_items _ _ _) as [[vs rest]|e0] eqn:Hm; [discriminate|].
      intros [= <-]. eapply parse_items_raises; [|exact Hm]. exact IH. }
    intro H. left. eapply scan_scalar_raises; exact H.
Qed.

Lemma py_json_load_raises (py : python) (content : string) (e : exn) :
  py_json_load py content = Raise e -> decoder_error e.
Proof.
  unfold py_json_load, json_loads.
  destruct (utf8_strict content); [|intros [= <-]; left; reflexivity].
  destruct (scan_once _ _ _ _) as [[v rest]|e0] eqn:Hscan.
  - destruct (skip_ws rest); [discriminate|]. intros [= <-]. left; reflexivity.
  - intros [= <-]. eapply scan_once_raises; exact Hscan.
Qed.

(** ** The loop on decoded documents *)

Lemma forallb_delitem (P : string * json -> bool) (k : string) (d : dict) :
  forallb P d = true -> forallb P (dict_delitem k d) = true.
Proof.
  induction d as [|[k0 v0] d IH]; cbn [dict_delitem forallb]; [reflexivity|].
  intro H. apply andb_true_iff in H as [H0 Hd].
  destruct (String.eqb k k0); [exact Hd|].
  cbn [forallb]. rewrite H0, (IH Hd). reflexivity.
Qed.

Lemma max_delitem (f : string * json -> nat) (k : string) (d : dict) :
  fold_right Nat.max 0 (map f (dict_delitem k d))
  <= fold_right Nat.max 0 (map f d).
Proof.
  induction d as [|[k0 v0] d IH]; cbn [dict_delitem map fold_right]; [lia|].
  destruct (String.eqb k k0); cbn [map fold_right]; lia.
Qed.

Lemma strip_element_decoded (py : python) (v : json) :
  json_ok v = true ->
  json_ok (strip_element v) = true
  /\ json_depth (strip_element v) <= json_depth v
  /\ (floats_ok py v = true -> floats_ok py (strip_element v) = true).
Proof.
  destruct v as [| b | z | f | s | l | d]; cbn [strip_element];
    try (intro H; split; [exact H | split; [lia | auto]]).
  unfold strip_record. destruct (dict_contains embedding d);
    [|intro H; split; [exact H | split; [lia | auto]]].
  cbn [json_ok json_depth floats_ok]. intro H.
  apply andb_true_iff in H as [Hu Hv]. split; [|split].
  - rewrite unique_keys_delitem by exact Hu.
    rewrite forallb_delitem by exact Hv. reflexivity.
  - apply le_n_S. apply max_delitem.
  - apply forallb_delitem.
Qed.

Lemma strip_decoded (py : python) (data data' : json) (n : nat) :
  strip data = Ok data' ->
  json_ok data = true -> json_depth data <= n ->
  json_ok data' = true /\ json_depth data' <= n.
Proof.
  intros Hrun Hok Hdepth.
  destruct data as [| b | z | f | s | l | d];
    try (apply strip_non_list in Hrun; [subst data'; split; assumption|];
         intros l0 Hl0; discriminate Hl0).
  apply strip_list_ok_map in Hrun. subst data'.
  cbn [json_ok json_depth] in *. split.
  - apply forallb_forall. intros x Hx.
    apply in_map_iff in Hx as (v & <- & Hv).
    rewrite forallb_forall in Hok.
    apply (strip_element_decoded py v (Hok v Hv)).
  - destruct n as [|n]; [lia|]. apply le_n_S. apply le_S_n in Hdepth.
    rewrite map_map. apply max_le. apply max_bound in Hdepth.
    rewrite Forall_forall in *. intros v Hv.
    rewrite forallb_forall in Hok.
    destruct (strip_element_decoded py v (Hok v Hv)) as (_ & Hle & _).
    specialize (Hdepth v Hv). lia.
Qed.

(** ** The decoder moves on: the count of the loops never runs out *)

Lemma skip_ws_length (s : string) :
  String.length (skip_ws s) <= String.length s.
Proof.
  induction s as [|c s IH]; cbn [skip_ws String.length]; [lia|].
  destruct (is_ws c); cbn [String.length]; lia.
Qed.

Lemma strip_prefix_length (p s r : string) :
  strip_prefix p s = Some r ->
  String.length s = String.length p + String.length r.
Proof.
  revert s. induction p as [|a p IH]; intros s; cbn [strip_prefix].
  - intros [= <-]. reflexivity.
  - destruct s as [|b s]; [discriminate|].
    destruct (Ascii.eqb a b); [|discriminate].
    intro H. cbn [String.length]. rewrite (IH s H). reflexivity.
Qed.

Lemma span_digits_length (s : string) :
  String.length (snd (span_digits s)) <= String.length s.
Proof.
  induction s as [|c s IH]; cbn [span_digits String.length snd]; [lia|].
  destruct (is_digit c); [|cbn; lia].
  destruct (span_digits s); cbn [snd] in *. lia.
Qed.

Lemma scan_number_progress (s lit r : string) (fl : bool) :
  scan_number s = Some (lit, fl, r) -> String.length r < String.length s.
Proof.
  unfold scan_number.
  assert (String.length (snd (scan_sign s)) <= String.length s) as Hsign.
  { destruct s as [|c s]; cbn [scan_sign]; [cbn; lia|].
    destruct (Ascii.eqb c "-"); cbn; lia. }
  destruct (scan_sign s) as [sg s1]. cbn [snd] in Hsign.
  assert (forall ip s2, scan_int_part s1 = Some (ip, s2) ->
                        String.length s2 < String.length s1) as Hint.
  { intros ip s2. destruct s1 as [|c s1']; cbn [scan_int_part]; [discriminate|].
    destruct (Ascii.eqb c "0"); [intros [= _ <-]; cbn; lia|].
    destruct (is_digit c) eqn:Hd; [|discriminate].
    cbn [span_digits]. rewrite Hd.
    pose proof (span_digits_length s1') as Hs.
    destruct (span_digits s1'); cbn [snd] in Hs.
    intros [= _ <-]. cbn; lia. }
  destruct (scan_int_part s1) as [[ip s2]|]; [|discriminate].
  specialize (Hint ip s2 eq_refl).
  assert (String.length (snd (scan_frac s2)) <= String.length s2) as Hfrac.
  { destruct s2 as [|c s2']; cbn [scan_frac]; [cbn; lia|].
    destruct (Ascii.eqb c "."); [|cbn; lia].
    pose proof (span_digits_length s2') as Hs.
    destruct (span_digits s2') as [[|d ds] r0]; cbn [snd] in *; cbn; lia. }
  destruct (scan_frac s2) as [fr s3]. cbn [snd] in Hfrac.
  assert (String.length (snd (scan_exp s3)) <= String.length s3) as Hexp.
  { destruct s3 as [|c s3']; cbn [scan_exp]; [cbn; lia|].
    destruct (is_exp_mark c); [|cbn; lia].
    assert (String.length (snd (scan_exp_sign s3')) <= String.length s3')
      as Hsg.
    { destruct s3' as [|c' s3'']; cbn [scan_exp_sign]; [cbn; lia|].
      destruct (is_exp_sign c'); cbn; lia. }
    destruct (scan_exp_sign s3') as [sg' r1]. cbn [snd] in Hsg.
    pose proof (span_digits_length r1) as Hs.
    destruct (span_digits r1) as [[|d ds] r0]; cbn [snd] in *; cbn; lia. }
  destruct (scan_exp s3) as [ex s4]. cbn [snd] in Hexp.
  intros [= _ _ <-]. lia.
Qed.

Lemma scanstring_progress_bounded (n : nat) :
  forall s str r,
    String.length s < n -> scanstring s = Ok (str, r) ->
    String.length r < String.length s.
Proof.
  induction n as [|n IH]; intros s str r Hlen; [lia|].
  assert (forall x, String.length x < n ->
            match scanstring x with
            | Ok (_, rest) => String.length rest < String.length x
            | Raise _ => True
            end) as Hrec.
  { intros x Hx. destruct (scanstring x) as [[str0 rest]|] eqn:E; [|exact I].
    apply (IH x str0); assumption. }
  destruct s as [|c s]; cbn [scanstring]; [discriminate|].
  cbn [String.length] in *.
  destruct (Ascii.eqb c quote); [intros [= _ <-]; lia|].
  destruct (Ascii.eqb c backslash).
  - destruct s as [|x r1]; [discriminate|]. cbn [String.length] in *.
    destruct (Ascii.eqb x "u").
    + destruct r1 as [|h1 [|h2 [|h3 [|h4 r2]]]]; try discriminate.
      cbn [String.length] in *.
      destruct (hex4 h1 h2 h3 h4) as [hi|]; [|discriminate].
      assert (String.length r2 < n) as Hr2 by lia.
      pose proof (Hrec r2 Hr2) as H2.
      destruct ((55296 <=? hi)%N && (hi <=? 56319)%N).
      * destruct r2 as [|b [|u [|g1 [|g2 [|g3 [|g4 r3]]]]]];
          try (destruct (scanstring _) as [[? ?]|?]; [|discriminate];
               intros [= _ <-]; cbn [String.length] in *; lia).
        destruct (low_surrogate _) as [[lo ?]|].
        -- cbn [String.length] in *.
           assert (String.length r3 < n) as Hr3 by lia.
           pose proof (Hrec r3 Hr3) as H3.
           destruct (scanstring r3) as [[? ?]|?]; [|discriminate].
           intros [= _ <-]. lia.
        -- destruct (scanstring _) as [[? ?]|?]; [|discriminate].
           intros [= _ <-]. cbn [String.length] in *. lia.
      * destruct (scanstring r2) as [[? ?]|?]; [|discriminate].
        intros [= _ <-]. lia.
    + destruct (simple_escape x); [|discriminate].
      assert (String.length r1 < n) as Hr1 by lia.
      pose proof (Hrec r1 Hr1) as H1.
      destruct (scanstring r1) as [[? ?]|?]; [|discriminate].
      intros [= _ <-]. lia.
  - destruct (in_range 0 31 c); [discriminate|].
    assert (String.length s < n) as Hr by lia.
    pose proof (Hrec s Hr) as H1.
    destruct (scanstring s) as [[? ?]|?]; [|discriminate].
    intros [= _ <-]. lia.
Qed.

Lemma scanstring_progress (s str r : string) :
  scanstring s = Ok (str, r) -> String.length r < String.length s.
Proof. apply (scanstring_progress_bounded (S (String.length s))). lia. Qed.

Lemma scan_scalar_progress (py : python) (k : bool) (s : string) (v : json)
      (r : string) :
  scan_scalar py k s = Ok (v, r) -> String.length r < String.length s.
Proof.
  unfold scan_scalar.
  repeat match goal with
         | |- context [match strip_prefix ?p ?s with _ => _ end] =>
             let E := fresh "E" in
             destruct (strip_prefix p s) eqn:E;
             [apply strip_prefix_length in E; cbn [String.length] in E|]
         | |- context [if k then _ else _] => destruct k
         end;
    try discriminate;
    try (intros [= _ <-]; lia).
  all: destruct (scan_number s) as [[[lit fl] r0]|] eqn:En; try discriminate;
    apply scan_number_progress in En;
    destruct fl; try (intros [= _ <-]; exact En);
    destruct (int_of_literal py lit); try discriminate;
    intros [= _ <-]; exact En.
Qed.

Section Loops.

Variable value : string -> result (json * string).
Hypothesis value_progress :
  forall s v r, value s = Ok (v, r) -> String.length r < String.length s.
Hypothesis value_empty : value EmptyString = Raise ValueError.

Lemma parse_items_progress (fuel : nat) :
  forall s vs r,
    parse_items value fuel s = Ok (vs, r) ->
    String.length r < String.length s.
Proof.
  induction fuel as [|fuel IH]; intros s vs r; cbn [parse_items];
    [discriminate|].
  destruct (value s) as [[v r0]|e] eqn:Hv; [|discriminate].
  apply value_progress in Hv.
  pose proof (skip_ws_length r0) as Hs.
  destruct (skip_ws r0) as [|c r1]; [discriminate|].
  cbn [String.length] in Hs.
  destruct (Ascii.eqb c "]"); [intros [= _ <-]; lia|].
  destruct (Ascii.eqb c ","); [|discriminate].
  destruct (parse_items value fuel (skip_ws r1)) as [[vs' r']|e] eqn:Hrec;
    [|discriminate].
  apply IH in Hrec. pose proof (skip_ws_length r1).
  intros [= _ <-]. lia.
Qed.

(** With a count of at least the length of the text, the loop over the
    elements of an array gives what it gives with any larger count. *)
Lemma parse_items_fuel (fuel1 : nat) :
  forall fuel2 s,
    String.length s <= fuel1 -> String.length s <= fuel2 ->
    parse_items value fuel1 s = parse_items value fuel2 s.
Proof.
  induction fuel1 as [|fuel1 IH]; intros fuel2 s H1 H2.
  - destruct s; [|cbn in H1; lia].
    destruct fuel2; cbn [parse_items]; [reflexivity|].
    rewrite value_empty. reflexivity.
  - destruct fuel2 as [|fuel2].
    + destruct s; [|cbn in H2; lia]. cbn [parse_items].
      rewrite value_empty. reflexivity.
    + cbn [parse_items].
      destruct (value s) as [[v r0]|e] eqn:Hv; [|reflexivity].
      apply value_progress in Hv.
      pose proof (skip_ws_length r0) as Hs.
      destruct (skip_ws r0) as [|c r1]; [reflexivity|].
      cbn [String.length] in Hs.
      destruct (Ascii.eqb c "]"); [reflexivity|].
      destruct (Ascii.eqb c ","); [|reflexivity].
      pose proof (skip_ws_length r1).
      rewrite (IH fuel2 (skip_ws r1)) by lia. reflexivity.
Qed.

Lemma parse_members_progress (fuel : nat) :
  forall s kvs r,
    parse_members value fuel s = Ok (kvs, r) ->
    String.length r < String.length s.
Proof.
  induction fuel as [|fuel IH]; intros s kvs r; cbn [parse_members];
    [discriminate|].
  destruct s as [|q s]; [discriminate|].
  destruct (Ascii.eqb q quote); [|discriminate].
  destruct (scanstring s) as [[k r1]|e] eqn:Hk; [|discriminate].
  apply scanstring_progress in Hk.
  pose proof (skip_ws_length r1) as Hs1.
  destruct (skip_ws r1) as [|c r2]; [discriminate|].
  cbn [String.length] in *.
  destruct (Ascii.eqb c ":"); [|discriminate].
  destruct (value (skip_ws r2)) as [[v r3]|e] eqn:Hv; [|discriminate].
  apply value_progress in Hv. pose proof (skip_ws_length r2) as Hs2.
  pose proof (skip_ws_length r3) as Hs3.
  destruct (skip_ws r3) as [|c' r4]; [discriminate|].
  cbn [String.length] in *.
  destruct (Ascii.eqb c' "}"); [intros [= _ <-]; lia|].
  destruct (Ascii.eqb c' ","); [|discriminate].
  destruct (parse_members value fuel (skip_ws r4)) as [[kvs' r']|e] eqn:Hrec;
    [|discriminate].
  apply IH in Hrec. pose proof (skip_ws_length r4).
  intros [= _ <-]. lia.
Qed.

(** The same for the loop over the members of an object. *)
Lemma parse_members_fuel (fuel1 : nat) :
  forall fuel2 s,
    String.length s <= fuel1 -> String.length s <= fuel2 ->
    parse_members value fuel1 s = parse_members value fuel2 s.
Proof.
  induction fuel1 as [|fuel1 IH]; intros fuel2 s H1 H2.
  - destruct s; [|cbn in H1; lia].
    destruct fuel2; reflexivity.
  - destruct fuel2 as [|fuel2].
    + destruct s; [|cbn in H2; lia]. reflexivity.
    + cbn [parse_members].
      destruct s as [|q s]; [reflexivity|].
      destruct (Ascii.eqb q quote); [|reflexivity].
      destruct (scanstring s) as [[k r1]|e] eqn:Hk; [|reflexivity].
      apply scanstring_progress in Hk.
      pose proof (skip_ws_length r1) as Hs1.
      destruct (skip_ws r1) as [|c r2]; [reflexivity|].
      cbn [String.length] in *.
      destruct (Ascii.eqb c ":"); [|reflexivity].
      destruct (value (skip_ws r2)) as [[v r3]|e] eqn:Hv; [|reflexivity].
      apply value_progress in Hv. pose proof (skip_ws_length r2) as Hs2.
      pose proof (skip_ws_length r3) as Hs3.
      destruct (skip_ws r3) as [|c' r4]; [reflexivity|].
      cbn [String.length] in *.
      destruct (Ascii.eqb c' "}"); [reflexivity|].
      destruct (Ascii.eqb c' ","); [|reflexivity].
      pose proof (skip_ws_length r4).
      rewrite (IH fuel2 (skip_ws r4)) by lia. reflexivity.
Qed.

End Loops.

Lemma scan_once_progress (py : python) (k : bool) (n : nat) :
  forall s v r,
    scan_once py k n s = Ok (v, r) -> String.length r < String.length s.
Proof.
  induction n as [|n IH]; intros s v r; destruct s as [|c s];
    cbn [scan_once]; try discriminate.
  - destruct (Ascii.eqb c quote).
    { destruct (scanstring s) as [[str rest]|e] eqn:Hs; [|discriminate].
      apply scanstring_progress in Hs. intros [= _ <-]. cbn; lia. }
    destruct (Ascii.eqb c "{"); [discriminate|].
    destruct (Ascii.eqb c "["); [discriminate|].
    apply scan_scalar_progress.
  - destruct (Ascii.eqb c quote).
    { destruct (scanstring s) as [[str rest]|e] eqn:Hs; [|discriminate].
      apply scanstring_progress in Hs. intros [= _ <-]. cbn; lia. }
    pose proof (skip_ws_length s) as Hws.
    destruct (Ascii.eqb c "{").
    { unfold parse_object.
      destruct (skip_ws s) as [|c0 r0] eqn:Hskip; [discriminate|].
      destruct (Ascii.eqb c0 "}").
      { intros [= _ <-]. cbn [String.length] in *. lia. }
      destruct (parse_members _ _ _) as [[kvs rest]|e] eqn:Hm; [|discriminate].
      apply (parse_members_progress _ IH) in Hm.
      intros [= _ <-]. cbn [String.length] in *. lia. }
    destruct (Ascii.eqb c "[").
    { unfold parse_array.
      destruct (skip_ws s) as [|c0 r0] eqn:Hskip; [discriminate|].
      destruct (Ascii.eqb c0 "]").
      { intros [= _ <-]. cbn [String.length] in *. lia. }
      destruct (parse_items _ _ _) as [[vs rest]|e] eqn:Hm; [|discriminate].
      apply (parse_items_progress _ IH) in Hm.
      intros [= _ <-]. cbn [String.length] in *. lia. }
    apply scan_scalar_progress.
Qed.

(** The count the decoder gives to the loop of an array, the length of
    the text after the bracket, is as good as any larger one: the loop
    never ends for want of it. The same holds for objects. *)
Lemma decoder_count_suffices (py : python) (k : bool) (n fuel : nat)
      (s : string) :
  String.length s <= fuel ->
  parse_items (scan_once py k n) (String.length s) (skip_ws s)
  = parse_items (scan_once py k n) fuel (skip_ws s)
  /\ parse_members (scan_once py k n) (String.length s) (skip_ws s)
     = parse_members (scan_once py k n) fuel (skip_ws s).
Proof.
  intro H. pose proof (skip_ws_length s). split.
  - apply parse_items_fuel; try lia.
    + apply scan_once_progress.
    + destruct n; reflexivity.
  - apply parse_members_fuel; try lia. apply scan_once_progress.
Qed.

(** ** What the decoder reads is in the grammar *)

Lemma skip_ws_sound (s : string) : json_ws s (skip_ws s).
Proof.
  induction s as [|c s IH]; cbn [skip_ws]; [apply ws_none|].
  destruct (is_ws c) eqn:Hc; [apply ws_more; assumption|apply ws_none].
Qed.

Lemma json_ws_trans (a b c : string) :
  json_ws a b -> json_ws b c -> json_ws a c.
Proof.
  induction 1 as [s|x s r Hx _ IH]; intro H; [exact H|].
  apply ws_more; [exact Hx|exact (IH H)].
Qed.

Lemma strip_prefix_sound (p s r : string) :
  strip_prefix p s = Some r -> s = p ++ r.
Proof.
  revert s. induction p as [|a p IH]; intros s; cbn [strip_prefix append].
  - intros [= <-]. reflexivity.
  - destruct s as [|b s]; [discriminate|].
    destruct (Ascii.eqb a b) eqn:Hab; [|discriminate].
    apply Ascii.eqb_eq in Hab. subst b. intro H.
    rewrite (IH s H). reflexivity.
Qed.

Lemma span_digits_none (s r : string) :
  span_digits s = (EmptyString, r) -> r = s.
Proof.
  destruct s as [|c s]; cbn [span_digits]; [intros [= <-]; reflexivity|].
  destruct (is_digit c); [destruct (span_digits s); discriminate|].
  intros [= <-]. reflexivity.
Qed.

Lemma span_digits_sound (s : string) :
  forall (c : ascii) (ds r : string),
    span_digits s = (String c ds, r) -> json_digits s r.
Proof.
  induction s as [|x s IH]; intros c ds r; cbn [span_digits]; [discriminate|].
  destruct (is_digit x) eqn:Hx; [|discriminate].
  destruct (span_digits s) as [[|d ds0] rest] eqn:Hs.
  - intros [= _ _ <-]. apply span_digits_none in Hs. subst rest.
    apply digits_last. exact Hx.
  - intros [= _ _ <-]. apply digits_more; [exact Hx|].
    apply (IH d ds0). reflexivity.
Qed.

Lemma scan_sign_sound (s sg r : string) :
  scan_sign s = (sg, r) -> json_minus s r.
Proof.
  destruct s as [|c s]; cbn [scan_sign]; [intros [= _ <-]; apply minus_none|].
  destruct (Ascii.eqb c "-") eqn:Hc.
  - apply Ascii.eqb_eq in Hc. subst c. intros [= _ <-]. apply minus_sign.
  - intros [= _ <-]. apply minus_none.
Qed.

Lemma scan_int_part_sound (s ip r : string) :
  scan_int_part s = Some (ip, r) -> json_int s r.
Proof.
  destruct s as [|c s]; cbn [scan_int_part]; [discriminate|].
  destruct (Ascii.eqb c "0") eqn:Hc.
  - apply Ascii.eqb_eq in Hc. subst c. intros [= _ <-]. apply int_zero.
  - apply Ascii.eqb_neq in Hc.
    destruct (is_digit c) eqn:Hd; [|discriminate].
    cbn [span_digits]. rewrite Hd.
    destruct (span_digits s) as [[|d ds] rest] eqn:Hs.
    + intros [= _ <-]. apply span_digits_none in Hs. subst rest.
      apply int_digit; assumption.
    + intros [= _ <-]. apply int_digits; try assumption.
      apply (span_digits_sound s d ds). exact Hs.
Qed.

Lemma scan_frac_sound (s fr r : string) :
  scan_frac s = (fr, r) -> json_frac s r.
Proof.
  destruct s as [|c s]; cbn [scan_frac]; [intros [= _ <-]; apply frac_none|].
  destruct (Ascii.eqb c ".") eqn:Hc; [|intros [= _ <-]; apply frac_none].
  apply Ascii.eqb_eq in Hc. subst c.
  destruct (span_digits s) as [[|d ds] rest] eqn:Hs.
  - intros [= _ <-]. apply frac_none.
  - intros [= _ <-]. apply frac_digits.
    apply (span_digits_sound s d ds). exact Hs.
Qed.

Lemma scan_exp_sound (s ex r : string) :
  scan_exp s = (ex, r) -> json_exp s r.
Proof.
  destruct s as [|c s]; cbn [scan_exp]; [intros [= _ <-]; apply exp_none|].
  destruct (is_exp_mark c) eqn:Hc; [|intros [= _ <-]; apply exp_none].
  destruct s as [|g s]; cbn [scan_exp_sign].
  - cbn [span_digits]. intros [= _ <-]. apply exp_none.
  - destruct (is_exp_sign g) eqn:Hg.
    + destruct (span_digits s) as [[|d ds] rest] eqn:Hs.
      * intros [= _ <-]. apply exp_none.
      * intros [= _ <-]. apply exp_signed; try assumption.
        apply (span_digits_sound s d ds). exact Hs.
    + destruct (span_digits (String g s)) as [[|d ds] rest] eqn:Hs.
      * intros [= _ <-]. apply exp_none.
      * intros [= _ <-]. apply exp_digits; [exact Hc|].
        apply (span_digits_sound _ d ds). exact Hs.
Qed.

Lemma scan_number_sound (s lit r : string) (fl : bool) :
  scan_number s = Some (lit, fl, r) -> json_number s r.
Proof.
  unfold scan_number.
  destruct (scan_sign s) as [sg s1] eqn:Hsg.
  destruct (scan_int_part s1) as [[ip s2]|] eqn:Hip; [|discriminate].
  destruct (scan_frac s2) as [fr s3] eqn:Hfr.
  destruct (scan_exp s3) as [ex s4] eqn:Hex.
  intros [= _ _ <-].
  apply (number_parts s s1 s2 s3 s4).
  - apply (scan_sign_sound _ sg). exact Hsg.
  - apply (scan_int_part_sound _ ip). exact Hip.
  - apply (scan_frac_sound _ fr). exact Hfr.
  - apply (scan_exp_sound _ ex). exact Hex.
Qed.

Lemma simple_escape_letter (e ch : ascii) :
  simple_escape e = Some ch -> In e escape_letters.
Proof.
  destruct e as [[] [] [] [] [] [] [] []]; cbn; try discriminate;
    intros _; tauto.
Qed.

Lemma hex4_digits (a b c d : ascii) (n : N) :
  hex4 a b c d = Some n ->
  hex_digit a <> None /\ hex_digit b <> None
  /\ hex_digit c <> None /\ hex_digit d <> None.
Proof.
  unfold hex4.
  destruct (hex_digit a); [|discriminate].
  destruct (hex_digit b); [|discriminate].
  destruct (hex_digit c); [|discriminate].
  destruct (hex_digit d); [|discriminate].
  intros _. repeat split; discriminate.
Qed.

Lemma scanstring_sound_bounded (n : nat) :
  forall s str r,
    String.length s < n -> scanstring s = Ok (str, r) -> json_chars s r.
Proof.
  induction n as [|n IH]; intros s str r Hlen; [lia|].
  assert (forall x, String.length x < n ->
            match scanstring x with
            | Ok (_, rest) => json_chars x rest
            | Raise _ => True
            end) as Hrec.
  { intros x Hx. destruct (scanstring x) as [[str0 rest]|] eqn:E; [|exact I].
    apply (IH x str0); assumption. }
  destruct s as [|c s]; cbn [scanstring]; [discriminate|].
  cbn [String.length] in *.
  destruct (Ascii.eqb c quote) eqn:Hq.
  { apply Ascii.eqb_eq in Hq. subst c. intros [= _ <-]. apply chars_end. }
  apply Ascii.eqb_neq in Hq.
  destruct (Ascii.eqb c backslash) eqn:Hb.
  - apply Ascii.eqb_eq in Hb. subst c.
    destruct s as [|x r1]; [discriminate|]. cbn [String.length] in *.
    destruct (Ascii.eqb x "u") eqn:Hu.
    + apply Ascii.eqb_eq in Hu. subst x.
      destruct r1 as [|h1 [|h2 [|h3 [|h4 r2]]]]; try discriminate.
      cbn [String.length] in *.
      destruct (hex4 h1 h2 h3 h4) as [hi|] eqn:Hhex; [|discriminate].
      apply hex4_digits in Hhex as (Ha & Hb & Hc & Hd).
      assert (String.length r2 < n) as Hr2 by lia.
      pose proof (Hrec r2 Hr2) as H2.
      assert (forall rest, json_chars r2 rest ->
                json_chars
                  (String backslash
                     (String "u"
                        (String h1 (String h2 (String h3 (String h4 r2))))))
                  rest) as Hone.
      { intros rest Hrest. apply chars_hex; assumption. }
      destruct ((55296 <=? hi)%N && (hi <=? 56319)%N).
      * destruct r2 as [|b [|u [|g1 [|g2 [|g3 [|g4 r3]]]]]];
          try (destruct (scanstring _) as [[? ?]|?]; [|discriminate];
               intros [= _ <-]; apply Hone; exact H2).
        unfold low_surrogate.
        destruct (Ascii.eqb b backslash && Ascii.eqb u "u") eqn:Hbu.
        -- destruct (hex4 g1 g2 g3 g4) as [lo|] eqn:Hlow.
           ++ destruct ((56320 <=? lo)%N && (lo <=? 57343)%N).
              ** cbn [String.length] in *.
                 assert (String.length r3 < n) as Hr3 by lia.
                 pose proof (Hrec r3 Hr3) as H3.
                 destruct (scanstring r3) as [[? ?]|?]; [|discriminate].
                 intros [= _ <-]. apply Hone.
                 apply andb_true_iff in Hbu as [Hb1 Hu1].
                 apply Ascii.eqb_eq in Hb1. apply Ascii.eqb_eq in Hu1.
                 subst b u.
                 apply hex4_digits in Hlow as (Ha' & Hb' & Hc' & Hd').
                 apply chars_hex; assumption.
              ** destruct (scanstring _) as [[? ?]|?]; [|discriminate].
                 intros [= _ <-]. apply Hone. exact H2.
           ++ destruct (scanstring _) as [[? ?]|?]; [|discriminate].
              intros [= _ <-]. apply Hone. exact H2.
        -- destruct (scanstring _) as [[? ?]|?]; [|discriminate].
           intros [= _ <-]. apply Hone. exact H2.
      * destruct (scanstring r2) as [[? ?]|?]; [|discriminate].
        intros [= _ <-]. apply Hone. exact H2.
    + destruct (simple_escape x) eqn:Hesc; [|discriminate].
      apply simple_escape_letter in Hesc.
      assert (String.length r1 < n) as Hr1 by lia.
      pose proof (Hrec r1 Hr1) as H1.
      destruct (scanstring r1) as [[? ?]|?]; [|discriminate].
      intros [= _ <-]. apply chars_escape; assumption.
  - apply Ascii.eqb_neq in Hb.
    destruct (in_range 0 31 c) eqn:Hctl; [discriminate|].
    assert (String.length s < n) as Hr by lia.
    pose proof (Hrec s Hr) as H1.
    destruct (scanstring s) as [[? ?]|?]; [|discriminate].
    intros [= _ <-]. apply chars_plain; assumption.
Qed.

Lemma scanstring_sound (s str r : string) :
  scanstring s = Ok (str, r) -> json_chars s r.
Proof. apply (scanstring_sound_bounded (S (String.length s))). lia. Qed.

Lemma scan_scalar_sound (py : python) (k : bool) (s : string) (v : json)
      (r : string) :
  scan_scalar py k s = Ok (v, r) -> json_value k s r.
Proof.
  unfold scan_scalar.
  destruct (strip_prefix "null" s) eqn:E1.
  { apply strip_prefix_sound in E1. subst s. intros [= _ <-].
    apply value_null. }
  destruct (strip_prefix "true" s) eqn:E2.
  { apply strip_prefix_sound in E2. subst s. intros [= _ <-].
    apply value_true. }
  destruct (strip_prefix "false" s) eqn:E3.
  { apply strip_prefix_sound in E3. subst s. intros [= _ <-].
    apply value_false. }
  destruct (strip_prefix "NaN" s) eqn:E4.
  { apply strip_prefix_sound in E4. subst s. destruct k; [|discriminate].
    intros [= _ <-]. apply value_nan. reflexivity. }
  destruct (strip_prefix "Infinity" s) eqn:E5.
  { apply strip_prefix_sound in E5. subst s. destruct k; [|discriminate].
    intros [= _ <-]. apply value_infinity. reflexivity. }
  destruct (strip_prefix "-Infinity" s) eqn:E6.
  { apply strip_prefix_sound in E6. subst s. destruct k; [|discriminate].
    intros [= _ <-]. apply value_minus_infinity. reflexivity. }
  destruct (scan_number s) as [[[lit fl] r0]|] eqn:En; [|discriminate].
  apply scan_number_sound in En.
  destruct fl.
  - intros [= _ <-]. apply value_number. exact En.
  - destruct (int_of_literal py lit); [|discriminate].
    intros [= _ <-]. apply value_number. exact En.
Qed.

Lemma json_element_ws (k : bool) (s s' r : string) :
  json_ws s s' -> json_element k s' r -> json_element k s r.
Proof.
  intros Hws H. inversion H as [x s1 s2 y H1 H2 H3]; subst.
  apply (element_parts k s s1 s2 r); [|assumption|assumption].
  apply (json_ws_trans _ s'); assumption.
Qed.

Lemma json_elements_ws (k : bool) (s s' r : string) :
  json_ws s s' -> json_elements k s' r -> json_elements k s r.
Proof.
  intros Hws H. inversion H as [x y H1|x s1 y H1 H2]; subst.
  - apply elements_last. apply (json_element_ws k s s'); assumption.
  - apply (elements_more k s s1); [|exact H2].
    apply (json_element_ws k s s'); assumption.
Qed.

Lemma json_member_ws (k : bool) (s s' r : string) :
  json_ws s s' -> json_member k s' r -> json_member k s r.
Proof.
  intros Hws H. inversion H as [x s1 s2 s3 y H1 H2 H3 H4]; subst.
  apply (member_parts k s s1 s2 s3 r); try assumption.
  apply (json_ws_trans _ s'); assumption.
Qed.

Lemma json_members_ws (k : bool) (s s' r : string) :
  json_ws s s' -> json_members k s' r -> json_members k s r.
Proof.
  intros Hws H. inversion H as [x y H1|x s1 y H1 H2]; subst.
  - apply members_last. apply (json_member_ws k s s'); assumption.
  - apply (members_more k s s1); [|exact H2].
    apply (json_member_ws k s s'); assumption.
Qed.

Section DecoderSound.

Variable k : bool.
Variable value : string -> result (json * string).
Hypothesis value_sound :
  forall s v r, value s = Ok (v, r) -> json_value k s r.

Lemma value_element (s r0 : string) (v : json) (c : ascii) (r1 : string) :
  value s = Ok (v, r0) -> skip_ws r0 = String c r1 ->
  json_element k s (String c r1).
Proof.
  intros Hv Hskip. apply (element_parts k s s r0).
  - apply ws_none.
  - apply (value_sound s v). exact Hv.
  - rewrite <- Hskip. apply skip_ws_sound.
Qed.

Lemma parse_items_sound (fuel : nat) :
  forall s vs r,
    parse_items value fuel s = Ok (vs, r) ->
    json_elements k s (String "]" r).
Proof.
  induction fuel as [|fuel IH]; intros s vs r; cbn [parse_items];
    [discriminate|].
  destruct (value s) as [[v r0]|e] eqn:Hv; [|discriminate].
  destruct (skip_ws r0) as [|c r1] eqn:Hskip; [discriminate|].
  pose proof (value_element s r0 v c r1 Hv Hskip) as Helt.
  destruct (Ascii.eqb c "]") eqn:Hc.
  { apply Ascii.eqb_eq in Hc. subst c. intros [= _ <-].
    apply elements_last. exact Helt. }
  destruct (Ascii.eqb c ",") eqn:Hc'; [|discriminate].
  apply Ascii.eqb_eq in Hc'. subst c.
  destruct (parse_items value fuel (skip_ws r1)) as [[vs' rest]|e] eqn:Hrec;
    [|discriminate].
  intros [= _ <-].
  apply (elements_more k s r1); [exact Helt|].
  apply (json_elements_ws k r1 (skip_ws r1)); [apply skip_ws_sound|].
  apply (IH _ vs'). exact Hrec.
Qed.

Lemma parse_array_sound (s : string) (v : json) (r : string) :
  parse_array value s = Ok (v, r) -> json_value k (String "[" s) r.
Proof.
  unfold parse_array.
  destruct (skip_ws s) as [|c r0] eqn:Hskip; [discriminate|].
  destruct (Ascii.eqb c "]") eqn:Hc.
  { apply Ascii.eqb_eq in Hc. subst c. intros [= _ <-].
    apply value_empty_array. rewrite <- Hskip. apply skip_ws_sound. }
  destruct (parse_items value (String.length s) (String c r0))
    as [[vs rest]|e] eqn:Hitems; [|discriminate].
  intros [= _ <-]. apply value_array.
  apply (json_elements_ws k s (String c r0)).
  - rewrite <- Hskip. apply skip_ws_sound.
  - eapply parse_items_sound. exact Hitems.
Qed.

Lemma parse_members_sound (fuel : nat) :
  forall s kvs r,
    parse_members value fuel s = Ok (kvs, r) ->
    json_members k s (String "}" r).
Proof.
  induction fuel as [|fuel IH]; intros s kvs r; cbn [parse_members];
    [discriminate|].
  destruct s as [|q s]; [discriminate|].
  destruct (Ascii.eqb q quote) eqn:Hq; [|discriminate].
  apply Ascii.eqb_eq in Hq. subst q.
  destruct (scanstring s) as [[key r1]|e] eqn:Hkey; [|discriminate].
  apply scanstring_sound in Hkey.
  destruct (skip_ws r1) as [|c r2] eqn:Hskip1; [discriminate|].
  destruct (Ascii.eqb c ":") eqn:Hc; [|discriminate].
  apply Ascii.eqb_eq in Hc. subst c.
  destruct (value (skip_ws r2)) as [[v r3]|e] eqn:Hv; [|discriminate].
  destruct (skip_ws r3) as [|c' r4] eqn:Hskip3; [discriminate|].
  assert (json_member k (String quote s) (String c' r4)) as Hmem.
  { apply (member_parts k _ s r1 r2).
    - apply ws_none.
    - exact Hkey.
    - rewrite <- Hskip1. apply skip_ws_sound.
    - apply (json_element_ws k r2 (skip_ws r2)); [apply skip_ws_sound|].
      apply (value_element _ r3 v); assumption. }
  destruct (Ascii.eqb c' "}") eqn:Hc1.
  { apply Ascii.eqb_eq in Hc1. subst c'. intros [= _ <-].
    apply members_last. exact Hmem. }
  destruct (Ascii.eqb c' ",") eqn:Hc2; [|discriminate].
  apply Ascii.eqb_eq in Hc2. subst c'.
  destruct (parse_members value fuel (skip_ws r4)) as [[kvs' rest]|e]
    eqn:Hrec; [|discriminate].
  intros [= _ <-].
  apply (members_more k _ r4); [exact Hmem|].
  apply (json_members_ws k r4 (skip_ws r4)); [apply skip_ws_sound|].
  apply (IH _ kvs'). exact Hrec.
Qed.

Lemma parse_object_sound (s : string) (v : json) (r : string) :
  parse_object value s = Ok (v, r) -> json_value k (String "{" s) r.
Proof.
  unfold parse_object.
  destruct (skip_ws s) as [|c r0] eqn:Hskip; [discriminate|].
  destruct (Ascii.eqb c "}") eqn:Hc.
  { apply Ascii.eqb_eq in Hc. subst c. intros [= _ <-].
    apply value_empty_object. rewrite <- Hskip. apply skip_ws_sound. }
  destruct (parse_members value (String.length s) (String c r0))
    as [[kvs rest]|e] eqn:Hmem; [|discriminate].
  intros [= _ <-]. apply value_object.
  apply (json_members_ws k s (String c r0)).
  - rewrite <- Hskip. apply skip_ws_sound.
  - eapply parse_members_sound. exact Hmem.
Qed.

End DecoderSound.

Lemma scan_once_sound (py : python) (k : bool) (n : nat) :
  forall s v r, scan_once py k n s = Ok (v, r) -> json_value k s r.
Proof.
  induction n as [|n IH]; intros s v r; destruct s as [|c s];
    cbn [scan_once]; try discriminate.
  - destruct (Ascii.eqb c quote) eqn:Hq.
    { apply Ascii.eqb_eq in Hq. subst c.
      destruct (scanstring s) as [[str rest]|e] eqn:Hs; [|discriminate].
      intros [= _ <-]. apply value_string.
      apply (scanstring_sound s str). exact Hs. }
    destruct (Ascii.eqb c "{"); [discriminate|].
    destruct (Ascii.eqb c "["); [discriminate|].
    apply scan_scalar_sound.
  - destruct (Ascii.eqb c quote) eqn:Hq.
    { apply Ascii.eqb_eq in Hq. subst c.
      destruct (scanstring s) as [[str rest]|e] eqn:Hs; [|discriminate].
      intros [= _ <-]. apply value_string.
      apply (scanstring_sound s str). exact Hs. }
    destruct (Ascii.eqb c "{") eqn:Ho.
    { apply Ascii.eqb_eq in Ho. subst c.
      apply (parse_object_sound k _ IH). }
    destruct (Ascii.eqb c "[") eqn:Ha.
    { apply Ascii.eqb_eq in Ha. subst c.
      apply (parse_array_sound k _ IH). }
    apply scan_scalar_sound.
Qed.

Lemma json_loads_sound (py : python) (k : bool) (depth : nat)
      (text : string) (v : json) :
  json_loads py k depth text = Ok v -> json_text k text.
Proof.
  unfold json_loads, json_text.
  destruct (scan_once py k depth (skip_ws text)) as [[v0 rest]|e] eqn:Hscan;
    [|discriminate].
  destruct (skip_ws rest) eqn:Hrest; [|discriminate].
  intros _. apply (element_parts k text (skip_ws text) rest).
  - apply skip_ws_sound.
  - apply (scan_once_sound py k depth _ v0). exact Hscan.
  - rewrite <- Hrest. apply skip_ws_sound.
Qed.

(** What [json.load] returns a document for is JSON with the three
    names. *)
Lemma py_json_load_sound (py : python) (content : string) (data : json) :
  py_json_load py content = Ok data -> extended_json content.
Proof.
  unfold py_json_load.
  destruct (utf8_strict content) eqn:Hutf; [|discriminate].
  intro H. split; [exact Hutf|].
  apply (json_loads_sound py true (decoder_depth py) content data). exact H.
Qed.

(** ** Texts that are no JSON *)

Lemma json_ws_stays (c : ascii) (s r : string) :
  is_ws c = false -> json_ws (String c s) r -> r = String c s.
Proof.
  intros Hc H. inversion H as [x|x y z Hx Hrest]; subst; [reflexivity|].
  rewrite Hc in Hx. discriminate Hx.
Qed.

Lemma json_ws_empty (r : string) : json_ws EmptyString r -> r = EmptyString.
Proof. intro H. inversion H. reflexivity. Qed.

Lemma json_int_first (s r : string) :
  json_int s r -> exists c s', s = String c s' /\ is_digit c = true.
Proof.
  intro H. inversion H; subst; eexists; eexists; split;
    try reflexivity; assumption.
Qed.

Lemma json_value_first (k : bool) (s r : string) :
  json_value k s r ->
  exists c s', s = String c s' /\ value_first k c = true.
Proof.
  intro H. inversion H as
    [x|x|x|x y Hn|x y Hc|x y Hw|x y He|x y Hw|x y Hm|x Hk|x Hk|x Hk]; subst;
    try (eexists; eexists; split; [reflexivity|];
         unfold value_first; cbn; rewrite ?orb_true_r; reflexivity).
  - inversion Hn as [a s1 s2 s3 b Hminus Hint Hfrac Hexp]; subst.
    apply json_int_first in Hint as (c & s' & -> & Hd).
    inversion Hminus; subst.
    + exists c, s'. split; [reflexivity|]. unfold value_first.
      rewrite Hd. reflexivity.
    + eexists; eexists; split; [reflexivity|].
      unfold value_first; cbn; rewrite ?orb_true_r; reflexivity.
Qed.

(** An element starts, after whitespace, with the first character of a
    value. *)
Lemma json_element_first (k : bool) (c : ascii) (s r : string) :
  is_ws c = false -> json_element k (String c s) r -> value_first k c = true.
Proof.
  intros Hc H. inversion H as [x s1 s2 y Hws Hv _]; subst.
  apply (json_ws_stays c s s1 Hc) in Hws. subst s1.
  apply json_value_first in Hv as (c' & s' & [= <- <-] & Hfirst).
  exact Hfirst.
Qed.

Lemma json_elements_first (k : bool) (c : ascii) (s r : string) :
  is_ws c = false -> json_elements k (String c s) r -> value_first k c = true.
Proof.
  intros Hc H.
  inversion H as [x y He|x s1 y He _]; subst;
    apply (json_element_first k c s _ Hc He).
Qed.

Lemma nan_text_not_json : ~ well_formed_json nan_text.
Proof.
  intros [_ H]. unfold json_text, nan_text in H.
  inversion H as [x s1 s2 y Hws Hv _]; subst.
  apply json_ws_stays in Hws; [|reflexivity]. subst s1.
  inversion Hv as
    [x|x|x|x y Hn|x y Hc|x y Hw|x y He|x y Hw|x y Hm|x Hk|x Hk|x Hk]; subst.
  - apply json_value_first in Hv as (c & s' & [= <- <-] & _).
    inversion Hn as [a t1 t2 t3 b Hminus Hint _ _]; subst.
    inversion Hminus; subst.
    apply json_int_first in Hint as (c & s' & [= <- <-] & Hd).
    discriminate Hd.
  - apply json_ws_stays in Hw; [|reflexivity]. discriminate Hw.
  - apply json_elements_first in He; [|reflexivity]. discriminate He.
Qed.

Lemma value_not_empty (k : bool) (r : string) : ~ json_value k EmptyString r.
Proof.
  intro H. apply json_value_first in H as (c & s' & Hs & _). discriminate Hs.
Qed.

Lemma element_not_empty (k : bool) (r : string) :
  ~ json_element k EmptyString r.
Proof.
  intro H. inversion H as [x s1 s2 y Hws Hv _]; subst.
  apply json_ws_empty in Hws. subst s1. exact (value_not_empty k _ Hv).
Qed.

Lemma brackets_no_value (k : bool) (n : nat) :
  forall r, ~ json_value k (brackets n) r.
Proof.
  induction n as [|n IH]; intros r H; cbn [brackets] in H.
  - exact (value_not_empty k r H).
  - assert (forall r', ~ json_element k (brackets n) r') as Helt.
    { intros r' He. inversion He as [x s1 s2 y Hws Hv _]; subst.
      destruct n as [|n]; cbn [brackets] in Hws.
      - apply json_ws_empty in Hws. subst s1. exact (value_not_empty k _ Hv).
      - apply json_ws_stays in Hws; [|reflexivity]. subst s1.
        exact (IH _ Hv). }
    inversion H as
      [x|x|x|x y Hn|x y Hc|x y Hw|x y He|x y Hw|x y Hm|x Hk|x Hk|x Hk]; subst.
    + inversion Hn as [a t1 t2 t3 b Hminus Hint _ _]; subst.
      inversion Hminus; subst.
      apply json_int_first in Hint as (c & s' & [= <- <-] & Hd).
      discriminate Hd.
    + destruct n as [|n]; cbn [brackets] in Hw.
      * apply json_ws_empty in Hw. discriminate Hw.
      * apply json_ws_stays in Hw; [|reflexivity]. discriminate Hw.
    + inversion He as [x y H1|x s1 y H1 _]; subst; exact (Helt _ H1).
Qed.

Lemma brackets_not_json (k : bool) (n : nat) : ~ json_text k (brackets n).
Proof.
  intro H. unfold json_text in H.
  inversion H as [x s1 s2 y Hws Hv _]; subst.
  destruct n as [|n]; cbn [brackets] in Hws.
  - apply json_ws_empty in Hws. subst s1. exact (value_not_empty k _ Hv).
  - apply json_ws_stays in Hws; [|reflexivity]. subst s1.
    exact (brackets_no_value k (S n) _ Hv).
Qed.

Lemma cut_off_not_json : ~ extended_json "[{".
Proof.
  intros [_ H]. unfold json_text in H.
  inversion H as [x s1 s2 y Hws Hv _]; subst.
  apply json_ws_stays in Hws; [|reflexivity]. subst s1.
  inversion Hv as
    [x|x|x|x y Hn|x y Hc|x y Hw|x y He|x y Hw|x y Hm|x Hk|x Hk|x Hk]; subst.
  - inversion Hn as [a t1 t2 t3 b Hminus Hint _ _]; subst.
    inversion Hminus; subst.
    apply json_int_first in Hint as (c & s' & [= <- <-] & Hd).
    discriminate Hd.
  - apply json_ws_stays in Hw; [|reflexivity]. discriminate Hw.
  - assert (forall r', ~ json_element true "{" r') as Helt.
    { intros r' H1. inversion H1 as [x u1 u2 y Hws1 Hv1 _]; subst.
      apply json_ws_stays in Hws1; [|reflexivity]. subst u1.
      inversion Hv1 as
        [x|x|x|x y Hn|x y Hc|x y Hw|x y He'|x y Hw|x y Hm|x Hk|x Hk|x Hk];
        subst.
      - inversion Hn as [a t1 t2 t3 b Hminus Hint _ _]; subst.
        inversion Hminus; subst.
        apply json_int_first in Hint as (c & s' & [= <- <-] & Hd).
        discriminate Hd.
      - apply json_ws_empty in Hw. discriminate Hw.
      - assert (forall r'', ~ json_member true EmptyString r'') as Hmem.
        { intros r'' H2. inversion H2 as [x w1 w2 w3 y Hq _ _ _]; subst.
          apply json_ws_empty in Hq. discriminate Hq. }
        inversion Hm as [x y H2|x s1 y H2 _]; subst; exact (Hmem _ H2). }
    inversion He as [x y H1|x s1 y H1 _]; subst; exact (Helt _ H1).
Qed.

(** ** Nesting beyond the limit of the interpreter *)

Lemma utf8_strict_brackets (n : nat) : utf8_strict (brackets n) = true.
Proof. induction n as [|n IH]; [reflexivity|exact IH]. Qed.

Lemma scan_once_brackets (py : python) (k : bool) (n : nat) :
  scan_once py k n (brackets (S n)) = Raise RecursionError.
Proof.
  induction n as [|n IH]; [reflexivity|].
  change (brackets (S (S n))) with (String "[" (brackets (S n))).
  cbn [scan_once].
  change (Ascii.eqb "[" quote) with false.
  change (Ascii.eqb "[" "{") with false.
  change (Ascii.eqb "[" "[") with true. cbv beta iota.
  unfold parse_array.
  change (skip_ws (brackets (S n))) with (brackets (S n)).
  change (brackets (S n)) with (String "[" (brackets n)) at 1.
  change (Ascii.eqb "[" "]") with false. cbv beta iota.
  change (String.length (brackets (S n)))
    with (S (String.length (brackets n))).
  cbn [parse_items]. rewrite IH. reflexivity.
Qed.

(** On every interpreter the text of one bracket more than the decoder
    can take ends [json.load] with [RecursionError]. *)
Lemma py_json_load_brackets (py : python) :
  py_json_load py (brackets (S (decoder_depth py))) = Raise RecursionError.
Proof.
  unfold py_json_load, json_loads.
  rewrite utf8_strict_brackets.
  change (skip_ws (brackets (S (decoder_depth py))))
    with (brackets (S (decoder_depth py))).
  rewrite scan_once_brackets. reflexivity.
Qed.

(** ** The loader and the round trip with the library *)






